(** * Vision models: media references, request builders, generation metadata

    A shallow embedding of [vertexai/vision_models/_vision_models.py].

    Python objects that are shared and mutated ([Image], [Video], the
    [generation_parameters] dictionaries) live in a store and are handled
    through references; local dictionaries that never escape the function
    that builds them ([instance], [parameters],
    [shared_generation_parameters]) are plain finite maps that are rebound
    at every assignment.  Exceptions are values of [exn]; a raising call
    keeps the store it reached.  What the module delegates to other
    packages (Cloud Storage, the prediction endpoint, [requests], PIL,
    [json], [base64], [hashlib]) and what a run fixes from outside (the
    paths that can be written, [int] on a header, the order of a set) is
    an [Environment]. *)

From Stdlib Require Import ZArith String Ascii List Bool Lia.
From Stdlib Require Import Floats.SpecFloat.
From stdpp Require Import base option gmap strings list fin_maps pretty.

Set Warnings "-register-all".

(** ** Python values *)

Definition bytes : Type := list Byte.byte.

(** A Python [float] is an IEEE 754 binary64 datum; the module only passes
    floats through. *)
Definition float : Type := spec_float.

(** The values a request, a prediction or a parameter bag is made of. *)
Inductive value : Type :=
| VNone
| VBool (b : bool)
| VInt (z : Z)
| VFloat (f : float)
| VStr (s : string)
| VList (l : list value)
| VDict (d : gmap string value).

(** A dictionary with string keys, [Dict[str, Any]]. *)
Abbreviation dict := (gmap string value).

(** References into the store. *)
Abbreviation ref := nat.

(** Python's truth-value protocol, [bool(x)]. *)
Class PyBool (A : Type) : Type := py_bool : A → bool.
Global Hint Mode PyBool ! : typeclass_instances.

#[global] Instance PyBool_string : PyBool string :=
  λ s, match s with EmptyString => false | String _ _ => true end.
#[global] Instance PyBool_bytes : PyBool bytes :=
  λ b, match b with [] => false | _ :: _ => true end.
#[global] Instance PyBool_Z : PyBool Z :=
  λ z, match z with Z0 => false | _ => true end.
#[global] Instance PyBool_float : PyBool float :=
  λ f, match f with S754_zero _ => false | _ => true end.
#[global] Instance PyBool_value : PyBool value :=
  λ v, match v with
       | VNone => false
       | VBool b => b
       | VInt z => py_bool z
       | VFloat f => py_bool f
       | VStr s => py_bool s
       | VList l => match l with [] => false | _ :: _ => true end
       | VDict d => negb (bool_decide (d = ∅))
       end.
(** [None] is false; [Some x] has the truth value of [x]. *)
#[global] Instance PyBool_option {A} `{PyBool A} : PyBool (option A) :=
  λ o, match o with None => false | Some x => py_bool x end.

(** An object without [__bool__] and [__len__] (an [Image], a [Video], a
    [VideoSegmentConfig]) is true. *)
Definition object_bool {A} (o : option A) : bool :=
  match o with None => false | Some _ => true end.

(** ** Exceptions *)

(** [StorageError] stands for whatever the Cloud Storage client raises for
    a URI (the object is missing, access is refused, the URI is not a
    [gs://] one); [PILError] for PIL failing to identify the picture it is
    asked to open. The exceptions of [Image.save] of PIL, of [int] and of
    the file system are passed through as the environment gives them. *)
Inductive exn : Type :=
| ValueError (msg : string)
| KeyError (key : string)
| IndexError
| TypeError
| AttributeError
| FileNotFoundError (path : string)
| HTTPError
| StorageError (uri : option string)
| Base64Error
| PILError
| JSONDecodeError
| PredictError
| DanglingReference.

(** The error names of the specification, as the module raises them. *)
Definition InvalidConstructionError_Image : exn :=
  ValueError "Either image_bytes or gcs_uri must be provided.".
Definition InvalidConstructionError_Video : exn :=
  ValueError "Either video_bytes or gcs_uri must be provided.".
Definition SizeLimitExceeded : exn :=
  ValueError "Image size exceeds 20MB limit.".
Definition UnsupportedSizeError_source : exn :=
  ValueError "Upscaling is currently only supported on images that are 1024x1024.".
Definition UnsupportedSizeError_target : exn :=
  ValueError "Only the folowing square upscaling sizes are currently supported: [2048, 4096].".
Definition MissingInputError : exn :=
  ValueError "One of `image`, `video`, or `contextual_text` is required.".
Definition MissingMetadataError_parameters : exn :=
  ValueError "Image does not have generation parameters.".
Definition MissingMetadataError_PIL : exn :=
  ValueError "The PIL module is required for saving generation parameters.".

(** ** Objects *)

(** What the module uses of a decoded [PIL.Image.Image]: its size, its EXIF
    table and the picture itself. *)
Record PIL_Image : Type := mkPIL {
  pil_size : Z * Z;
  pil_exif : gmap Z string;
  pil_picture : bytes
}.

Module Image.
(** An [Image] object; [_generation_parameters] is present exactly on
    instances of the subclass [GeneratedImage] and refers to the
    dictionary the object holds. *)
Record t : Type := mk {
  _loaded_bytes : option bytes;
  _loaded_image : option PIL_Image;
  _gcs_uri : option string;
  _generation_parameters : option ref
}.
End Image.

Module Video.
Record t : Type := mk {
  _loaded_bytes : option bytes;
  _gcs_uri : option string
}.
End Video.

Record VideoSegmentConfig : Type := mkVideoSegmentConfig {
  start_offset_sec : Z;
  end_offset_sec : Z;
  interval_sec : Z
}.

(** [VideoSegmentConfig()] with its default arguments. *)
Definition VideoSegmentConfig_default : VideoSegmentConfig :=
  mkVideoSegmentConfig 0 120 16.

Record VideoEmbedding : Type := mkVideoEmbedding {
  ve_start_offset_sec : value;
  ve_end_offset_sec : value;
  ve_embedding : value
}.

Record ImageGenerationResponse : Type := mkImageGenerationResponse {
  images : list ref
}.

Record MultiModalEmbeddingResponse : Type := mkMultiModalEmbeddingResponse {
  _prediction_response : list value;
  image_embedding : option value;
  video_embeddings : list VideoEmbedding;
  text_embedding : option value
}.

(** ** The store *)

Record world : Type := mkWorld {
  image_heap : list Image.t;        (* Image and GeneratedImage objects *)
  video_heap : list Video.t;        (* Video objects *)
  dict_heap : list value;           (* generation_parameters objects *)
  files : gmap string bytes;        (* the local file system *)
  gcs_fetches : list string;        (* downloads asked of Cloud Storage *)
  predict_calls : list (list value * dict)  (* endpoint.predict calls *)
}.

Definition empty_world : world := mkWorld [] [] [] ∅ [] [].

Definition set_image_heap (f : list Image.t → list Image.t) (w : world) : world :=
  mkWorld (f (image_heap w)) (video_heap w) (dict_heap w) (files w)
          (gcs_fetches w) (predict_calls w).
Definition set_video_heap (f : list Video.t → list Video.t) (w : world) : world :=
  mkWorld (image_heap w) (f (video_heap w)) (dict_heap w) (files w)
          (gcs_fetches w) (predict_calls w).
Definition set_dict_heap (f : list value → list value) (w : world) : world :=
  mkWorld (image_heap w) (video_heap w) (f (dict_heap w)) (files w)
          (gcs_fetches w) (predict_calls w).
Definition set_files (f : gmap string bytes → gmap string bytes) (w : world) : world :=
  mkWorld (image_heap w) (video_heap w) (dict_heap w) (f (files w))
          (gcs_fetches w) (predict_calls w).
Definition set_gcs_fetches (f : list string → list string) (w : world) : world :=
  mkWorld (image_heap w) (video_heap w) (dict_heap w) (files w)
          (f (gcs_fetches w)) (predict_calls w).
Definition set_predict_calls
    (f : list (list value * dict) → list (list value * dict)) (w : world) : world :=
  mkWorld (image_heap w) (video_heap w) (dict_heap w) (files w)
          (gcs_fetches w) (f (predict_calls w)).

(** ** The monad of the embedding: a store and an outcome *)

Definition M (A : Type) : Type := world → (exn + A) * world.

#[global] Instance M_ret : MRet M := λ A x w, (inr x, w).
#[global] Instance M_bind : MBind M := λ A B f m w,
  match m w with
  | (inl e, w') => (inl e, w')
  | (inr x, w') => f x w'
  end.

Definition raise {A} (e : exn) : M A := λ w, (inl e, w).
Definition gets {A} (f : world → A) : M A := λ w, (inr (f w), w).
Definition modify (f : world → world) : M unit := λ w, (inr tt, f w).

(** Lifting of a pure computation that may fail. *)
Definition lift_option {A} (e : exn) (o : option A) : M A :=
  match o with Some x => mret x | None => raise e end.
Definition lift_sum {A} (r : exn + A) : M A :=
  match r with inr x => mret x | inl e => raise e end.

(** Object creation and attribute access. *)
Definition new_image (im : Image.t) : M ref := λ w,
  (inr (length (image_heap w)), set_image_heap (λ h, h ++ [im]) w).
Definition get_image (r : ref) : M Image.t := λ w,
  match image_heap w !! r with
  | Some im => (inr im, w)
  | None => (inl DanglingReference, w)
  end.
Definition put_image (r : ref) (im : Image.t) : M unit :=
  modify (set_image_heap (λ h, <[r := im]> h)).

Definition new_video (v : Video.t) : M ref := λ w,
  (inr (length (video_heap w)), set_video_heap (λ h, h ++ [v]) w).
Definition get_video (r : ref) : M Video.t := λ w,
  match video_heap w !! r with
  | Some v => (inr v, w)
  | None => (inl DanglingReference, w)
  end.
Definition put_video (r : ref) (v : Video.t) : M unit :=
  modify (set_video_heap (λ h, <[r := v]> h)).

(** [dict(d)] and a dictionary display both make a new object. *)
Definition new_dict (v : value) : M ref := λ w,
  (inr (length (dict_heap w)), set_dict_heap (λ h, h ++ [v]) w).
Definition get_dict (r : ref) : M value := λ w,
  match dict_heap w !! r with
  | Some v => (inr v, w)
  | None => (inl DanglingReference, w)
  end.
(** [d[key] = v], on the object itself. *)
Definition dict_setitem (r : ref) (key : string) (v : value) : M unit :=
  d ← get_dict r;
  match d with
  | VDict m => modify (set_dict_heap (λ h, <[r := VDict (<[key := v]> m)]> h))
  | _ => raise TypeError
  end.

(** ** What the module delegates *)

(** The part of a [requests.Response] that [Image.load_from_file] reads;
    [resp_content_length] and [resp_content_type] are the two headers, as
    text, when the response has them. *)
Record Response : Type := mkResponse {
  resp_ok : bool;
  resp_content_length : option string;
  resp_content_type : option string;
  resp_content : bytes
}.

(** A prediction of the image generation endpoint: the two entries the
    module reads with [prediction.get]. *)
Record image_prediction : Type := mkPrediction {
  bytesBase64Encoded : option string;
  gcsUri : option string
}.

Class Environment : Type := {
  (** [storage.Blob.from_string(uri).download_as_bytes()] *)
  gcs_blob : string → option bytes;
  (** [self._endpoint.predict(instances, parameters)] of the three models *)
  image_generation_endpoint : list value → dict → exn + list image_prediction;
  image_text_endpoint : list value → dict → exn + list value;
  embedding_endpoint : list value → dict → exn + list value;
  (** [requests.get] and [urllib.parse.urlparse] (scheme, netloc) *)
  requests_get : string → exn + Response;
  urlparse : string → string * string;
  (** [int(text)]: the number, or the exception [int] raises *)
  python_int : string → exn + Z;
  (** the order in which this run iterates over a set of strings (it
      depends on the hash seed) *)
  set_order : list string → list string;
  (** what the file system raises when the path is opened for writing, if
      anything (a missing directory, no permission) *)
  write_error : string → option exn;
  (** PIL: whether the import succeeded, [PIL_Image.open], and
      [Image.save]: the bytes it writes to the path, or the exception it
      raises (an unknown extension, a mode the format cannot hold) *)
  PIL_installed : bool;
  PIL_open : bytes → option PIL_Image;
  PIL_save : PIL_Image → string → gmap Z string → exn + bytes;
  (** [json.dumps], [json.loads] *)
  json_dumps : value → string;
  json_loads : string → option value;
  (** [base64.b64encode(..).decode("ascii")], [base64.b64decode] *)
  b64encode : bytes → string;
  b64decode : string → option bytes;
  (** [hashlib.sha1(..).hexdigest()] *)
  sha1_hexdigest : bytes → string
}.

Definition _SUPPORTED_UPSCALING_SIZES : list Z := [2048; 4096]%Z.

(** A set; only membership and its printed form are used. *)
Definition _SUPPORTED_MIME_TYPES : list string :=
  ["image/png"; "image/jpeg"; "image/gif"; "image/bmp"].

(** [str(items)] for a set of strings that need no escapes, iterated in
    the order [items]. *)
Definition set_text (items : list string) : string :=
  "{" +:+ String.concat ", " (map (λ s, "'" +:+ s +:+ "'") items) +:+ "}".

(** The error of [Image.load_from_file] for a content type outside the
    set; its message prints the set, in the order of the run. *)
Definition UnsupportedMediaType `{Environment} : exn :=
  ValueError ("Image type is not supported. Supported types "
              +:+ set_text (set_order _SUPPORTED_MIME_TYPES)).

Definition _EXIF_USER_COMMENT_TAG_IDX : Z := 0x9286%Z.
Definition _IMAGE_GENERATION_PARAMETERS_EXIF_KEY : string :=
  "google.cloud.vertexai.image_generation.image_generation_parameters".

(** [s.replace(old, new)] for a non-empty [old]: the occurrences are taken
    from the left and do not overlap; [skip] counts the characters of an
    occurrence still to be dropped. *)
Fixpoint replace_from (old new : string) (skip : nat) (s : string) : string :=
  match s with
  | EmptyString => EmptyString
  | String c s' =>
      match skip with
      | S k => replace_from old new k s'
      | O =>
          if String.prefix old s
          then new +:+ replace_from old new (String.length old - 1) s'
          else String c (replace_from old new O s')
      end
  end.
Definition str_replace (s old new : string) : string := replace_from old new O s.

(** [x in xs] on lists of integers and of strings. *)
Definition Z_in (x : Z) (xs : list Z) : bool := existsb (Z.eqb x) xs.
Definition str_in (x : string) (xs : list string) : bool := existsb (String.eqb x) xs.

Section vision_models.
Context `{env : Environment}.

(** *** class Image *)

(** The body of [Image.__init__]: the attributes of the new object, or
    the [ValueError]. The assignment to [self._image_bytes] goes through
    the property setter, which stores into [_loaded_bytes]. *)
Definition Image__init__ (image_bytes : option bytes) (gcs_uri : option string)
    : exn + Image.t :=
  if Bool.eqb (py_bool image_bytes) (py_bool gcs_uri)
  then inl InvalidConstructionError_Image
  else inr (Image.mk image_bytes None gcs_uri None).

(** [Image(image_bytes=.., gcs_uri=..)] *)
Definition Image_new (image_bytes : option bytes) (gcs_uri : option string) : M ref :=
  im ← lift_sum (Image__init__ image_bytes gcs_uri);
  new_image im.

(** The download behind [_image_bytes] and [_video_bytes]. *)
Definition download_as_bytes (uri : option string) : M bytes :=
  match uri with
  | None => raise (StorageError None)
  | Some u =>
      modify (set_gcs_fetches (λ l, l ++ [u]));;
      lift_option (StorageError (Some u)) (gcs_blob u)
  end.

(** The property [Image._image_bytes]. *)
Definition _image_bytes (self : ref) : M bytes :=
  im ← get_image self;
  match Image._loaded_bytes im with
  | None =>
      data ← download_as_bytes (Image._gcs_uri im);
      put_image self (Image.mk (Some data) (Image._loaded_image im)
                               (Image._gcs_uri im) (Image._generation_parameters im));;
      mret data
  | Some data => mret data
  end.

(** The property [Image._pil_image]. *)
Definition _pil_image (self : ref) : M PIL_Image :=
  im ← get_image self;
  match Image._loaded_image im with
  | None =>
      if PIL_installed then
        data ← _image_bytes self;
        pim ← lift_option PILError (PIL_open data);
        im ← get_image self;
        put_image self (Image.mk (Image._loaded_bytes im) (Some pim)
                                 (Image._gcs_uri im) (Image._generation_parameters im));;
        mret pim
      else raise AttributeError
  | Some pim => mret pim
  end.

(** The property [Image._size]. *)
Definition _size (self : ref) : M (Z * Z) :=
  pim ← _pil_image self;
  mret (pil_size pim).

Definition Image_load_from_file (location : string) : M ref :=
  let location :=
    if String.prefix "https://storage.googleapis.com/" location
    then str_replace (str_replace location "https://storage.googleapis.com/" "gs://")
                     "%20" " "
    else location in
  if String.prefix "gs://" location then Image_new None (Some location)
  else
    let parsed_url := urlparse location in
    if py_bool (fst parsed_url) && py_bool (snd parsed_url) then
      response ← lift_sum (requests_get location);
      if negb (resp_ok response) then raise HTTPError
      else
        content_length ←
          lift_sum (match resp_content_length response with
                    | Some text => python_int text
                    | None => inr 0%Z
                    end);
        let content_type := default "" (resp_content_type response) in
        if (content_length >? 20 * 1024 * 1024)%Z then raise SizeLimitExceeded
        else if negb (str_in content_type _SUPPORTED_MIME_TYPES)
        then raise UnsupportedMediaType
        else Image_new (Some (resp_content response)) None
    else
      image_bytes ← (λ w, match files w !! location with
                          | Some data => (inr data, w)
                          | None => (inl (FileNotFoundError location), w)
                          end);
      Image_new (Some image_bytes) None.

(** [pathlib.Path(location).write_bytes(data)] *)
Definition write_bytes (location : string) (data : bytes) : M unit :=
  match write_error location with
  | Some e => raise e
  | None => modify (set_files (λ fs, <[location := data]> fs))
  end.

(** [Image.save] *)
Definition Image_save (self : ref) (location : string) : M unit :=
  data ← _image_bytes self;
  write_bytes location data.

Definition _as_base64_string (self : ref) : M string :=
  data ← _image_bytes self;
  mret (b64encode data).

(** *** class Video *)

Definition Video__init__ (video_bytes : option bytes) (gcs_uri : option string)
    : exn + Video.t :=
  if Bool.eqb (py_bool video_bytes) (py_bool gcs_uri)
  then inl InvalidConstructionError_Video
  else inr (Video.mk video_bytes gcs_uri).

Definition Video_new (video_bytes : option bytes) (gcs_uri : option string) : M ref :=
  v ← lift_sum (Video__init__ video_bytes gcs_uri);
  new_video v.

(** The property [Video._video_bytes]. *)
Definition _video_bytes (self : ref) : M bytes :=
  v ← get_video self;
  match Video._loaded_bytes v with
  | None =>
      data ← download_as_bytes (Video._gcs_uri v);
      put_video self (Video.mk (Some data) (Video._gcs_uri v));;
      mret data
  | Some data => mret data
  end.

Definition Video_load_from_file (location : string) : M ref :=
  if String.prefix "gs://" location then Video_new None (Some location)
  else
    video_bytes ← (λ w, match files w !! location with
                        | Some data => (inr data, w)
                        | None => (inl (FileNotFoundError location), w)
                        end);
    Video_new (Some video_bytes) None.

Definition Video_save (self : ref) (location : string) : M unit :=
  data ← _video_bytes self;
  write_bytes location data.

Definition Video_as_base64_string (self : ref) : M string :=
  data ← _video_bytes self;
  mret (b64encode data).

(** *** class GeneratedImage *)

(** [GeneratedImage.__init__]: the initialiser of [Image], then the
    parameter dictionary is kept by reference. *)
Definition GeneratedImage__init__ (image_bytes : option bytes)
    (generation_parameters : ref) (gcs_uri : option string) : exn + Image.t :=
  match Image__init__ image_bytes gcs_uri with
  | inl e => inl e
  | inr im => inr (Image.mk (Image._loaded_bytes im) (Image._loaded_image im)
                            (Image._gcs_uri im) (Some generation_parameters))
  end.

Definition GeneratedImage_new (image_bytes : option bytes)
    (generation_parameters : ref) (gcs_uri : option string) : M ref :=
  im ← lift_sum (GeneratedImage__init__ image_bytes generation_parameters gcs_uri);
  new_image im.

(** The property [GeneratedImage.generation_parameters]: the dictionary
    object itself, not a copy. *)
Definition generation_parameters (self : ref) : M ref :=
  im ← get_image self;
  lift_option AttributeError (Image._generation_parameters im).

Definition GeneratedImage_load_from_file (location : string) : M ref :=
  base_image ← Image_load_from_file location;
  pim ← _pil_image base_image;
  let exif := pil_exif pim in
  comment ← lift_option (KeyError "37510") (exif !! _EXIF_USER_COMMENT_TAG_IDX);
  exif_comment_dict ← lift_option JSONDecodeError (json_loads comment);
  parameters ←
    match exif_comment_dict with
    | VDict d => lift_option (KeyError _IMAGE_GENERATION_PARAMETERS_EXIF_KEY)
                             (d !! _IMAGE_GENERATION_PARAMETERS_EXIF_KEY)
    | _ => raise TypeError
    end;
  generation_parameters ← new_dict parameters;
  image_bytes ← _image_bytes base_image;
  im ← get_image base_image;
  GeneratedImage_new (Some image_bytes) generation_parameters (Image._gcs_uri im).

(** [GeneratedImage.save]. [getexif] hands out the EXIF table of the
    decoded image, so the assignment to it is kept in [_loaded_image]. *)
Definition GeneratedImage_save (self : ref) (location : string)
    (include_generation_parameters : bool) : M unit :=
  if include_generation_parameters then
    gp ← generation_parameters self;
    parameters ← get_dict gp;
    if negb (py_bool parameters) then raise MissingMetadataError_parameters
    else if negb PIL_installed then raise MissingMetadataError_PIL
    else
      pim ← _pil_image self;
      parameters ← get_dict gp;
      let exif := <[_EXIF_USER_COMMENT_TAG_IDX :=
                     json_dumps (VDict {[_IMAGE_GENERATION_PARAMETERS_EXIF_KEY := parameters]})]>
                  (pil_exif pim) in
      let pim := mkPIL (pil_size pim) exif (pil_picture pim) in
      im ← get_image self;
      put_image self (Image.mk (Image._loaded_bytes im) (Some pim)
                               (Image._gcs_uri im) (Image._generation_parameters im));;
      data ← lift_sum (PIL_save pim location exif);
      modify (set_files (λ fs, <[location := data]> fs))
  else Image_save self location.

(** *** Request entries of media arguments *)

(** The conditional that [upscale_image], [get_captions], [ask_question]
    and [get_embeddings] each spell out for their image argument. *)
Definition image_entry (image : ref) : M dict :=
  im ← get_image image;
  if py_bool (Image._gcs_uri im)
  then mret {["gcsUri" := VStr (default "" (Image._gcs_uri im))]}
  else
    s ← _as_base64_string image;
    mret {["bytesBase64Encoded" := VStr s]}.

(** The same conditional on the video argument of [get_embeddings]. *)
Definition video_entry (video : ref) : M dict :=
  v ← get_video video;
  if py_bool (Video._gcs_uri v)
  then mret {["gcsUri" := VStr (default "" (Video._gcs_uri v))]}
  else
    s ← Video_as_base64_string video;
    mret {["bytesBase64Encoded" := VStr s]}.

(** [self._endpoint.predict(instances=[instance], parameters=parameters)] *)
Definition predict {A} (endpoint : list value → dict → exn + list A)
    (instance parameters : dict) : M (list A) :=
  modify (set_predict_calls (λ l, l ++ [([VDict instance], parameters)]));;
  lift_sum (endpoint [VDict instance] parameters).

(** *** class ImageGenerationModel *)

(** [_generate_images] up to the remote call: the instance, the
    parameters and [shared_generation_parameters]. *)
Definition _generate_images_request (prompt : string)
    (negative_prompt : option string) (number_of_images : Z)
    (width height : option Z) (guidance_scale : option float)
    (seed : option Z) (base_image mask : option ref)
    (language output_gcs_uri : option string) : M (dict * dict * dict) :=
  let instance : dict := {["prompt" := VStr prompt]} in
  let shared_generation_parameters : dict :=
    <["number_of_images_in_batch" := VInt number_of_images]>
      {["prompt" := VStr prompt]} in
  '(instance, shared_generation_parameters) ←
    match base_image with
    | Some base_image =>
        im ← get_image base_image;
        if py_bool (Image._gcs_uri im) then
          let uri := default "" (Image._gcs_uri im) in
          mret (<["image" := VDict {["gcsUri" := VStr uri]}]> instance,
                <["base_image_uri" := VStr uri]> shared_generation_parameters)
        else
          s ← _as_base64_string base_image;
          data ← _image_bytes base_image;
          mret (<["image" := VDict {["bytesBase64Encoded" := VStr s]}]> instance,
                <["base_image_hash" := VStr (sha1_hexdigest data)]>
                  shared_generation_parameters)
    | None => mret (instance, shared_generation_parameters)
    end;
  '(instance, shared_generation_parameters) ←
    match mask with
    | Some mask =>
        im ← get_image mask;
        if py_bool (Image._gcs_uri im) then
          let uri := default "" (Image._gcs_uri im) in
          mret (<["mask" := VDict {["image" := VDict {["gcsUri" := VStr uri]}]}]> instance,
                <["mask_uri" := VStr uri]> shared_generation_parameters)
        else
          s ← _as_base64_string mask;
          data ← _image_bytes mask;
          mret (<["mask" := VDict {["image" := VDict {["bytesBase64Encoded" := VStr s]}]}]>
                  instance,
                <["mask_hash" := VStr (sha1_hexdigest data)]>
                  shared_generation_parameters)
    | None => mret (instance, shared_generation_parameters)
    end;
  let parameters : dict := ∅ in
  let max_size := Z.max (default 0%Z width) (default 0%Z height) in
  let parameters :=
    if py_bool max_size then
      let parameters := <["sampleImageSize" := VStr (pretty max_size)]> parameters in
      match height, width with
      | Some h, Some w =>
          if negb (h =? w)%Z
          then <["aspectRatio" := VStr (pretty w +:+ ":" +:+ pretty h)]> parameters
          else parameters
      | _, _ => parameters
      end
    else parameters in
  let parameters := <["sampleCount" := VInt number_of_images]> parameters in
  let '(parameters, shared_generation_parameters) :=
    if py_bool negative_prompt then
      let negative_prompt := default "" negative_prompt in
      (<["negativePrompt" := VStr negative_prompt]> parameters,
       <["negative_prompt" := VStr negative_prompt]> shared_generation_parameters)
    else (parameters, shared_generation_parameters) in
  let '(parameters, shared_generation_parameters) :=
    match seed with
    | Some seed =>
        (<["seed" := VInt seed]> parameters,
         <["seed" := VInt seed]> shared_generation_parameters)
    | None => (parameters, shared_generation_parameters)
    end in
  let '(parameters, shared_generation_parameters) :=
    match guidance_scale with
    | Some guidance_scale =>
        (<["guidanceScale" := VFloat guidance_scale]> parameters,
         <["guidance_scale" := VFloat guidance_scale]> shared_generation_parameters)
    | None => (parameters, shared_generation_parameters)
    end in
  let '(parameters, shared_generation_parameters) :=
    match language with
    | Some language =>
        (<["language" := VStr language]> parameters,
         <["language" := VStr language]> shared_generation_parameters)
    | None => (parameters, shared_generation_parameters)
    end in
  let '(parameters, shared_generation_parameters) :=
    match output_gcs_uri with
    | Some output_gcs_uri =>
        (<["storageUri" := VStr output_gcs_uri]> parameters,
         <["storage_uri" := VStr output_gcs_uri]> shared_generation_parameters)
    | None => (parameters, shared_generation_parameters)
    end in
  mret (instance, parameters, shared_generation_parameters).

(** The loop of [_generate_images] over [enumerate(response.predictions)],
    from index [idx] on. *)
Fixpoint generated_images_from (shared_generation_parameters : dict) (idx : Z)
    (predictions : list image_prediction) : M (list ref) :=
  match predictions with
  | [] => mret []
  | prediction :: predictions =>
      generation_parameters ← new_dict (VDict shared_generation_parameters);
      dict_setitem generation_parameters "index_of_image_in_batch" (VInt idx);;
      let encoded_bytes := bytesBase64Encoded prediction in
      image_bytes ←
        (if py_bool encoded_bytes
         then data ← lift_option Base64Error (b64decode (default "" encoded_bytes));
              mret (Some data)
         else mret None);
      generated_image ←
        GeneratedImage_new image_bytes generation_parameters (gcsUri prediction);
      generated_images ←
        generated_images_from shared_generation_parameters (idx + 1) predictions;
      mret (generated_image :: generated_images)
  end.

Definition _generate_images (prompt : string)
    (negative_prompt : option string) (number_of_images : Z)
    (width height : option Z) (guidance_scale : option float)
    (seed : option Z) (base_image mask : option ref)
    (language output_gcs_uri : option string) : M ImageGenerationResponse :=
  '(instance, parameters, shared_generation_parameters) ←
    _generate_images_request prompt negative_prompt number_of_images width height
      guidance_scale seed base_image mask language output_gcs_uri;
  predictions ← predict image_generation_endpoint instance parameters;
  generated_images ← generated_images_from shared_generation_parameters 0 predictions;
  mret (mkImageGenerationResponse generated_images).

Definition generate_images (prompt : string) (negative_prompt : option string)
    (number_of_images : Z) (guidance_scale : option float)
    (language : option string) (seed : option Z) (output_gcs_uri : option string)
    : M ImageGenerationResponse :=
  _generate_images prompt negative_prompt number_of_images None None
    guidance_scale seed None None language output_gcs_uri.

Definition edit_image (prompt : string) (base_image : ref) (mask : option ref)
    (negative_prompt : option string) (number_of_images : Z)
    (guidance_scale : option float) (language : option string) (seed : option Z)
    (output_gcs_uri : option string) : M ImageGenerationResponse :=
  _generate_images prompt negative_prompt number_of_images None None
    guidance_scale seed (Some base_image) mask language output_gcs_uri.

(** [upscale_image] up to the remote call: the two checks, then the
    instance and the parameters (with the accepted size). *)
Definition upscale_image_request (image : ref) (new_size : option Z)
    (output_gcs_uri : option string) : M (dict * dict * Z) :=
  size ← _size image;
  wrong_size ←
    (if negb (fst size =? 1024)%Z
     then size ← _size image; mret (negb (snd size =? 1024)%Z)
     else mret false);
  if (wrong_size : bool) then raise UnsupportedSizeError_source
  else
    match new_size with
    | None => raise UnsupportedSizeError_target
    | Some new_size =>
        if negb (Z_in new_size _SUPPORTED_UPSCALING_SIZES)
        then raise UnsupportedSizeError_target
        else
          let instance : dict := {["prompt" := VStr ""]} in
          entry ← image_entry image;
          let instance := <["image" := VDict entry]> instance in
          let parameters : dict :=
            <["mode" := VStr "upscale"]>
              (<["sampleCount" := VInt 1]>
                 {["sampleImageSize" := VStr (pretty new_size)]}) in
          let parameters :=
            match output_gcs_uri with
            | Some output_gcs_uri => <["storageUri" := VStr output_gcs_uri]> parameters
            | None => parameters
            end in
          mret (instance, parameters, new_size)
    end.

Definition upscale_image (image : ref) (new_size : option Z)
    (output_gcs_uri : option string) : M ref :=
  '(instance, parameters, new_size) ←
    upscale_image_request image new_size output_gcs_uri;
  predictions ← predict image_generation_endpoint instance parameters;
  upscaled_image ← lift_option IndexError (predictions !! 0%nat);
  im ← get_image image;
  generation_parameters ←
    match Image._generation_parameters im with
    | Some generation_parameters => mret generation_parameters
    | None => new_dict (VDict ∅)
    end;
  dict_setitem generation_parameters "upscaled_image_size" (VInt new_size);;
  let encoded_bytes := bytesBase64Encoded upscaled_image in
  image_bytes ←
    (if py_bool encoded_bytes
     then data ← lift_option Base64Error (b64decode (default "" encoded_bytes));
          mret (Some data)
     else mret None);
  GeneratedImage_new image_bytes generation_parameters (gcsUri upscaled_image).

(** [ImageGenerationResponse.__getitem__] (indices from the front). *)
Definition ImageGenerationResponse_getitem (self : ImageGenerationResponse) (idx : nat)
    : exn + ref :=
  match images self !! idx with Some r => inr r | None => inl IndexError end.

(** *** class ImageCaptioningModel, class ImageQnAModel *)

(** [get_captions] up to the remote call. *)
Definition get_captions_request (image : ref) (number_of_results : Z) (language : string)
    (output_gcs_uri : option string) : M (dict * dict) :=
  let instance : dict := ∅ in
  entry ← image_entry image;
  let instance := <["image" := VDict entry]> instance in
  let parameters : dict :=
    <["language" := VStr language]> {["sampleCount" := VInt number_of_results]} in
  let parameters :=
    match output_gcs_uri with
    | Some output_gcs_uri => <["storageUri" := VStr output_gcs_uri]> parameters
    | None => parameters
    end in
  mret (instance, parameters).

Definition get_captions (image : ref) (number_of_results : Z) (language : string)
    (output_gcs_uri : option string) : M (list value) :=
  '(instance, parameters) ←
    get_captions_request image number_of_results language output_gcs_uri;
  predict image_text_endpoint instance parameters.

(** [ask_question] up to the remote call. *)
Definition ask_question_request (image : ref) (question : string) (number_of_results : Z)
    : M (dict * dict) :=
  let instance : dict := {["prompt" := VStr question]} in
  entry ← image_entry image;
  let instance := <["image" := VDict entry]> instance in
  let parameters : dict := {["sampleCount" := VInt number_of_results]} in
  mret (instance, parameters).

Definition ask_question (image : ref) (question : string) (number_of_results : Z)
    : M (list value) :=
  '(instance, parameters) ← ask_question_request image question number_of_results;
  predict image_text_endpoint instance parameters.

(** *** class MultiModalEmbeddingModel *)

(** [get_embeddings] up to the remote call: the instance and the
    parameters. *)
Definition get_embeddings_request (image video : option ref)
    (contextual_text : option string) (dimension : option Z)
    (video_segment_config : option VideoSegmentConfig) : M (dict * dict) :=
  if negb (object_bool image) && negb (object_bool video)
     && negb (py_bool contextual_text)
  then raise MissingInputError
  else
    let instance : dict := ∅ in
    instance ←
      match image with
      | Some image =>
          entry ← image_entry image;
          mret (<["image" := VDict entry]> instance)
      | None => mret instance
      end;
    instance ←
      match video with
      | Some video =>
          entry ← video_entry video;
          let entry :=
            match video_segment_config with
            | Some c =>
                <["videoSegmentConfig" :=
                    VDict (<["intervalSec" := VInt (interval_sec c)]>
                             (<["endOffsetSec" := VInt (end_offset_sec c)]>
                                {["startOffsetSec" := VInt (start_offset_sec c)]}))]> entry
            | None => entry
            end in
          mret (<["video" := VDict entry]> instance)
      | None => mret instance
      end;
    let instance :=
      if py_bool contextual_text
      then <["text" := VStr (default "" contextual_text)]> instance
      else instance in
    let parameters : dict := ∅ in
    let parameters :=
      if py_bool dimension
      then <["dimension" := VInt (default 0%Z dimension)]> parameters
      else parameters in
    mret (instance, parameters).

(** [d[key]] on a value read from a response. *)
Definition value_getitem (v : value) (key : string) : exn + value :=
  match v with
  | VDict d => match d !! key with Some x => inr x | None => inl (KeyError key) end
  | _ => inl TypeError
  end.

Fixpoint video_embeddings_of (l : list value) : exn + list VideoEmbedding :=
  match l with
  | [] => inr []
  | video_embedding :: l =>
      match value_getitem video_embedding "embedding",
            value_getitem video_embedding "startOffsetSec",
            value_getitem video_embedding "endOffsetSec" with
      | inr e, inr s, inr t =>
          match video_embeddings_of l with
          | inr rest => inr (mkVideoEmbedding s t e :: rest)
          | inl err => inl err
          end
      | inl err, _, _ | _, inl err, _ | _, _, inl err => inl err
      end
  end.

Definition get_embeddings (image video : option ref)
    (contextual_text : option string) (dimension : option Z)
    (video_segment_config : option VideoSegmentConfig)
    : M MultiModalEmbeddingResponse :=
  '(instance, parameters) ←
    get_embeddings_request image video contextual_text dimension video_segment_config;
  predictions ← predict embedding_endpoint instance parameters;
  first ← lift_option IndexError (predictions !! 0%nat);
  match first with
  | VDict d =>
      let image_embedding := d !! "imageEmbedding" in
      video_embeddings ←
        match d !! "videoEmbeddings" with
        | None => mret []
        | Some (VList l) => lift_sum (video_embeddings_of l)
        | Some (VStr text) =>
            (* the characters of a string cannot be indexed by a key *)
            if py_bool text then raise TypeError else mret []
        | Some (VDict keys) =>
            (* nor can the keys of a dictionary *)
            if bool_decide (keys = ∅) then mret [] else raise TypeError
        | Some _ => raise TypeError
        end;
      let text_embedding := d !! "textEmbedding" in
      mret (mkMultiModalEmbeddingResponse predictions image_embedding
              video_embeddings text_embedding)
  | _ => raise AttributeError
  end.

End vision_models.

(** * Tool contexts

    A shallow embedding of [google/cloud/aiplatform/telemetry.py]. The
    state is the list [initializer.global_config._tool_contexts_to_append];
    the body of a [with] statement is any computation over that list. *)
Module telemetry.

(** What a computation under a tool context can raise: the
    [RuntimeError] of [_pop_tool_context], the [IndexError] of
    [list.pop()] on an empty list, or an exception [e] of the body. *)
Inductive exc (E : Type) : Type :=
| RuntimeError (msg : string)
| IndexError
| Raised (e : E).
Arguments RuntimeError {E} msg.
Arguments IndexError {E}.
Arguments Raised {E} e.

Definition tool_context_error {E} : exc E :=
  RuntimeError "Tool context error detected. This can occur due to parallelization.".

(** A computation over the list of tool contexts. *)
Definition T (E A : Type) : Type := list string → (exc E + A) * list string.

#[global] Instance T_ret {E} : MRet (T E) := λ A x s, (inr x, s).
#[global] Instance T_bind {E} : MBind (T E) := λ A B f m s,
  match m s with
  | (inl e, s') => (inl e, s')
  | (inr x, s') => f x s'
  end.

(** [try: body finally: final]: [final] runs however [body] ends, and an
    exception of [final] replaces the outcome of [body]. *)
Definition try_finally {E A} (body : T E A) (final : T E unit) : T E A := λ s,
  let '(outcome, s1) := body s in
  match final s1 with
  | (inl e, s2) => (inl e, s2)
  | (inr _, s2) => (outcome, s2)
  end.

Definition _append_tool_context {E} (tool_context : string) : T E unit := λ s,
  (inr tt, s ++ [tool_context]).

Definition _pop_tool_context {E} (tool_context : string) : T E unit := λ s,
  match last s with
  | None => (inl IndexError, s)
  | Some popped_tool_context =>
      if negb (String.eqb popped_tool_context tool_context)
      then (inl tool_context_error, removelast s)
      else (inr tt, removelast s)
  end.

(** [with tool_context_manager(tool_context): body] *)
Definition tool_context_manager {E A} (tool_context : string) (body : T E A) : T E A :=
  _append_tool_context tool_context;;
  try_finally body (_pop_tool_context tool_context).

End telemetry.

(** * Waiting for a submitted job

    The polling loop of [test_job_submission_dashboard] in
    [tests/system/vertex_ray/test_job_submission_dashboard.py]. The
    statuses that the successive [client.get_job_info(job_id).status]
    calls return are a list; the loop that has read them all without
    leaving is still waiting. *)
Module job_polling.

(** [ray.job_submission.JobStatus] *)
Inductive JobStatus : Type := PENDING | RUNNING | STOPPED | SUCCEEDED | FAILED.

(** What the loop did so far: the calls of [time.sleep(10)] and of
    [client.get_job_info]. *)
Record trace : Type := mkTrace {
  sleeps : nat;
  job_info_calls : nat
}.

Inductive outcome : Type :=
| Left_loop            (* the status was SUCCEEDED *)
| Raised_RuntimeError  (* "The Ray Job encountered an error and failed" *)
| Still_waiting.       (* every status given was read *)

Fixpoint wait_for_job (statuses : list JobStatus) (t : trace) : outcome * trace :=
  match statuses with
  | [] => (Still_waiting, t)
  | job_status :: statuses =>
      let t := mkTrace (sleeps t) (S (job_info_calls t)) in
      match job_status with
      | PENDING | RUNNING =>
          wait_for_job statuses (mkTrace (S (sleeps t)) (job_info_calls t))
      | FAILED | STOPPED =>
          (Raised_RuntimeError, mkTrace (sleeps t) (S (job_info_calls t)))
      | SUCCEEDED => (Left_loop, t)
      end
  end.

End job_polling.

(** * Vocabulary of the statements *)

(** [m] called [n] times in a row. *)
Fixpoint times {A} (n : nat) (m : M A) : M (list A) :=
  match n with
  | O => mret []
  | S n => x ← m; xs ← times n m; mret (x :: xs)
  end.

(** An argument is given when it is true for Python: neither [None] nor
    empty. *)
Definition given {A} `{PyBool A} (x : option A) : Prop := py_bool x = true.

(** What a run of accesses that asks Cloud Storage once for [u] leaves
    behind. *)
Definition fetched_once (u : string) (w w' : world) : Prop :=
  gcs_fetches w' = gcs_fetches w ++ [u].

(** The entry of a media reference in a request instance: a URI when the
    object has one, its bytes in base64 otherwise. *)
Definition serialized_entry `{Environment} (gcs_uri : option string)
    (loaded : option bytes) : dict :=
  if py_bool gcs_uri
  then {["gcsUri" := VStr (default "" gcs_uri)]}
  else {["bytesBase64Encoded" := VStr (b64encode (default [] loaded))]}.

(** Exactly one of the two keys. *)
Definition one_media_key (e : dict) : Prop :=
  (is_Some (e !! "gcsUri") ∧ e !! "bytesBase64Encoded" = None) ∨
  (e !! "gcsUri" = None ∧ is_Some (e !! "bytesBase64Encoded")).

(** The state a constructor leaves, and that reading the bytes, the
    picture or the size of the object keeps: an object without a URI has
    its bytes. *)
Definition Image_ready (w : world) (image : ref) (im : Image.t) : Prop :=
  image_heap w !! image = Some im ∧
  (py_bool (Image._gcs_uri im) = false → is_Some (Image._loaded_bytes im)).
Definition Video_ready (w : world) (video : ref) (v : Video.t) : Prop :=
  video_heap w !! video = Some v ∧
  (py_bool (Video._gcs_uri v) = false → is_Some (Video._loaded_bytes v)).

(** An error of the store or of Cloud Storage, not of the module's checks. *)
Definition access_error (e : exn) : Prop :=
  e = DanglingReference ∨ ∃ u, e = StorageError u.

(** No input at all for [get_embeddings]: no image, no video, and no
    contextual text (an empty text counts as none). *)
Definition no_embedding_input (image video : option ref)
    (contextual_text : option string) : Prop :=
  image = None ∧ video = None ∧ ¬ given contextual_text.

(** The entry of an [Image] and of a [Video] object. *)
Definition entry_of_image `{Environment} (im : Image.t) : dict :=
  serialized_entry (Image._gcs_uri im) (Image._loaded_bytes im).
Definition entry_of_video `{Environment} (v : Video.t) : dict :=
  serialized_entry (Video._gcs_uri v) (Video._loaded_bytes v).

(** The entry of an optional image argument, when it refers to an object. *)
Definition entry_at `{Environment} (w : world) (image : option ref) : option dict :=
  r ← image; im ← image_heap w !! r; Some (entry_of_image im).

(** What generation records of an optional image argument: the URI of a
    remote one, the SHA-1 digest of the bytes of an inline one. *)
Definition uri_recorded (w : world) (image : option ref) : option value :=
  r ← image; im ← image_heap w !! r;
  if py_bool (Image._gcs_uri im)
  then Some (VStr (default "" (Image._gcs_uri im))) else None.
Definition hash_recorded `{Environment} (w : world) (image : option ref) : option value :=
  r ← image; im ← image_heap w !! r;
  if py_bool (Image._gcs_uri im)
  then None else Some (VStr (sha1_hexdigest (default [] (Image._loaded_bytes im)))).

(** Every image argument that is present is an object in the state its
    constructor leaves. *)
Definition images_ready (w : world) (image : option ref) : Prop :=
  ∀ r, image = Some r → ∃ im, Image_ready w r im.

(** Every video argument that is present is an object in the state its
    constructor leaves. *)
Definition videos_ready (w : world) (video : option ref) : Prop :=
  ∀ r, video = Some r → ∃ v, Video_ready w r v.

(** The entry of an optional video argument, when it refers to an object. *)
Definition video_entry_at `{Environment} (w : world) (video : option ref) : option dict :=
  r ← video; v ← video_heap w !! r; Some (entry_of_video v).

(** What reading the bytes or the picture of an image leaves alone: the
    remote calls made, the dictionaries, the files. *)
Definition only_images_touched (w w1 : world) : Prop :=
  predict_calls w1 = predict_calls w ∧ dict_heap w1 = dict_heap w ∧
  files w1 = files w.

(** The object [im1] is [im] with, at most, its caches filled. *)
Definition image_kept (im im1 : Image.t) : Prop :=
  Image._gcs_uri im1 = Image._gcs_uri im ∧
  Image._generation_parameters im1 = Image._generation_parameters im ∧
  (∀ data, Image._loaded_bytes im = Some data → Image._loaded_bytes im1 = Some data).

(** A computation that makes no remote call. *)
Definition keeps_calls {A} (m : M A) : Prop :=
  ∀ w, predict_calls (snd (m w)) = predict_calls w.

(** * A test double of the collaborators

    Small stand-ins, enough to run the module on examples: a picture
    format of two size bytes (in units of 8 pixels), a flag and the EXIF
    user comment, written for every file name with an extension, without
    the comment when the extension is [.bmp]; JSON text without floats
    and without escapes in strings; [int] on plain digits; base64 and
    SHA-1 replaced by the bytes read as text; a file system in which
    every path can be written. *)
Module Double.

Definition dquote : ascii := ascii_of_nat 34.
Definition quoted (s : string) : string :=
  String dquote s +:+ String dquote EmptyString.

Fixpoint dumps (v : value) : string :=
  match v with
  | VNone => "null"
  | VBool true => "true"
  | VBool false => "false"
  | VInt z => pretty z
  | VFloat _ => "NaN"
  | VStr s => quoted s
  | VList l => "[" +:+ String.concat ", " (map dumps l) +:+ "]"
  | VDict d =>
      "{" +:+ String.concat ", "
                (map (λ kv, quoted kv.1 +:+ ": " +:+ kv.2) (map_to_list (dumps <$> d)))
          +:+ "}"
  end.

Fixpoint skip_spaces (s : string) : string :=
  match s with
  | String " " s' => skip_spaces s'
  | _ => s
  end.

(** The characters up to the closing quote, and what follows it. *)
Fixpoint read_string (s : string) : option (string * string) :=
  match s with
  | EmptyString => None
  | String c s' =>
      if Ascii.eqb c dquote then Some (EmptyString, s')
      else '(t, rest) ← read_string s'; Some (String c t, rest)
  end.

Definition digit_of (c : ascii) : option Z :=
  let n := nat_of_ascii c in
  if (48 <=? n)%nat && (n <=? 57)%nat then Some (Z.of_nat (n - 48)) else None.

Fixpoint read_digits (acc : Z) (s : string) : Z * string :=
  match s with
  | String c s' =>
      match digit_of c with
      | Some d => read_digits (10 * acc + d) s'
      | None => (acc, s)
      end
  | EmptyString => (acc, s)
  end.

Definition expect (word : string) (v : value) (s : string) : option (value * string) :=
  if String.prefix word s
  then Some (v, String.substring (String.length word)
                                 (String.length s - String.length word) s)
  else None.

Fixpoint read_value (fuel : nat) (s : string) : option (value * string) :=
  match fuel with
  | O => None
  | S fuel =>
      match skip_spaces s with
      | String "n" _ as s => expect "null" VNone s
      | String "t" _ as s => expect "true" (VBool true) s
      | String "f" _ as s => expect "false" (VBool false) s
      | String "[" s' =>
          match skip_spaces s' with
          | String "]" rest => Some (VList [], rest)
          | _ => '(l, rest) ← read_elements fuel s'; Some (VList l, rest)
          end
      | String "{" s' =>
          match skip_spaces s' with
          | String "}" rest => Some (VDict ∅, rest)
          | _ => '(d, rest) ← read_members fuel s'; Some (VDict d, rest)
          end
      | String "-" s' => let '(z, rest) := read_digits 0 s' in Some (VInt (- z), rest)
      | String c s' as s =>
          if Ascii.eqb c dquote
          then '(t, rest) ← read_string s'; Some (VStr t, rest)
          else match digit_of c with
               | Some _ => let '(z, rest) := read_digits 0 s in Some (VInt z, rest)
               | None => None
               end
      | EmptyString => None
      end
  end
with read_elements (fuel : nat) (s : string) : option (list value * string) :=
  match fuel with
  | O => None
  | S fuel =>
      '(v, rest) ← read_value fuel s;
      match skip_spaces rest with
      | String "," rest => '(l, rest) ← read_elements fuel rest; Some (v :: l, rest)
      | String "]" rest => Some ([v], rest)
      | _ => None
      end
  end
with read_members (fuel : nat) (s : string) : option (gmap string value * string) :=
  match fuel with
  | O => None
  | S fuel =>
      match skip_spaces s with
      | String c s' =>
          if Ascii.eqb c dquote then
            '(k, rest) ← read_string s';
            match skip_spaces rest with
            | String ":" rest =>
                '(v, rest) ← read_value fuel rest;
                match skip_spaces rest with
                | String "," rest =>
                    '(d, rest) ← read_members fuel rest; Some (d ∪ {[k := v]}, rest)
                | String "}" rest => Some ({[k := v]}, rest)
                | _ => None
                end
            | _ => None
            end
          else None
      | EmptyString => None
      end
  end.

Definition loads (s : string) : option value :=
  '(v, rest) ← read_value (String.length s) s;
  match skip_spaces rest with EmptyString => Some v | _ => None end.

Definition size_byte (z : Z) : Byte.byte :=
  default Byte.x00 (Byte.of_N (Z.to_N (z / 8))).
Definition byte_size (b : Byte.byte) : Z := 8 * Z.of_N (Byte.to_N b).

Definition open (data : bytes) : option PIL_Image :=
  match data with
  | a :: b :: Byte.x01 :: comment =>
      Some (mkPIL (byte_size a, byte_size b)
                  {[_EXIF_USER_COMMENT_TAG_IDX := string_of_list_byte comment]} [])
  | a :: b :: _ => Some (mkPIL (byte_size a, byte_size b) ∅ [])
  | _ => None
  end.

Definition ends_with (suffix s : string) : bool :=
  String.eqb (String.substring (String.length s - String.length suffix)
                               (String.length suffix) s) suffix.

Fixpoint has_dot (s : string) : bool :=
  match s with
  | EmptyString => false
  | String c s' => Ascii.eqb c "." || has_dot s'
  end.

(** The formats that hold EXIF data: all but BMP. *)
Definition stores_exif (location : string) : bool := negb (ends_with ".bmp" location).

Definition save (pim : PIL_Image) (location : string) (exif : gmap Z string)
    : exn + bytes :=
  if negb (has_dot location) then inl (ValueError "unknown file extension: ")
  else
    let exif := if stores_exif location then exif else ∅ in
    let '(width, height) := pil_size pim in
    inr (size_byte width :: size_byte height ::
         match exif !! _EXIF_USER_COMMENT_TAG_IDX with
         | Some comment => Byte.x01 :: list_byte_of_string comment
         | None => [Byte.x00]
         end).

(** [int] on a text of digits. *)
Definition int_of_text (text : string) : exn + Z :=
  match text with
  | EmptyString => inl (ValueError "invalid literal for int() with base 10: ''")
  | _ =>
      match read_digits 0 text with
      | (z, EmptyString) => inr z
      | _ => inl (ValueError ("invalid literal for int() with base 10: '" +:+ text +:+ "'"))
      end
  end.

(** A 1024x1024 picture, an 800x1024 one and an 800x800 one. *)
Definition picture_1024 : bytes := [Byte.x80; Byte.x80; Byte.x00].
Definition picture_800x1024 : bytes := [Byte.x64; Byte.x80; Byte.x00].
Definition picture_800 : bytes := [Byte.x64; Byte.x64; Byte.x00].

Definition blob (uri : string) : option bytes :=
  if String.eqb uri "gs://bucket/cat.png" then Some picture_1024 else None.

(** As many predictions as [sampleCount] asks for, each with inline bytes. *)
Definition image_generation (instances : list value) (parameters : dict)
    : exn + list image_prediction :=
  match parameters !! "sampleCount" with
  | Some (VInt n) =>
      inr (replicate (Z.to_nat n)
             (mkPrediction (Some (string_of_list_byte picture_1024)) None))
  | _ => inl PredictError
  end.

Definition parse (location : string) : string * string :=
  if String.prefix "http://" location || String.prefix "https://" location
  then ("http", "host") else ("", "").

Definition env : Environment := {|
  gcs_blob := blob;
  image_generation_endpoint := image_generation;
  image_text_endpoint := λ _ _, inr [VStr "a cat"];
  embedding_endpoint := λ _ _, inr [VDict {["textEmbedding" := VList [VInt 0]]}];
  requests_get := λ _, inl HTTPError;
  urlparse := parse;
  python_int := int_of_text;
  set_order := λ items, items;
  write_error := λ _, None;
  PIL_installed := true;
  PIL_open := open;
  PIL_save := save;
  json_dumps := dumps;
  json_loads := loads;
  b64encode := string_of_list_byte;
  b64decode := λ s, Some (list_byte_of_string s);
  sha1_hexdigest := λ data, "sha1:" +:+ string_of_list_byte data
|}.

End Double.

(** ** Vocabulary of the generation loop *)

(** The bytes a prediction carries inline, decoded; [None] without any. *)
Definition inline_bytes `{Environment} (p : image_prediction) : option bytes :=
  if py_bool (bytesBase64Encoded p)
  then b64decode (default "" (bytesBase64Encoded p))
  else None.

(** A prediction the loop can turn into a [GeneratedImage]: its base64
    text, if any, decodes, and exactly one of the decoded bytes and the
    URI is given. *)
Definition prediction_ok `{Environment} (p : image_prediction) : Prop :=
  (py_bool (bytesBase64Encoded p) = true →
   is_Some (b64decode (default "" (bytesBase64Encoded p)))) ∧
  py_bool (inline_bytes p) ≠ py_bool (gcsUri p).

(** The parameter bag of the item of index [idx]. *)
Definition bag_of_item (shared : dict) (idx : Z) : value :=
  VDict (<["index_of_image_in_batch" := VInt idx]> shared).

(** The store after the loop ran over [predictions] from index [idx]: one
    new dictionary and one new image object per prediction, in order. *)
Definition after_generation `{Environment} (shared : dict) (idx : Z)
    (predictions : list image_prediction) (w : world) : world :=
  mkWorld
    (image_heap w ++
       imap (λ k p, Image.mk (inline_bytes p) None (gcsUri p)
                             (Some (length (dict_heap w) + k)%nat)) predictions)
    (video_heap w)
    (dict_heap w ++ imap (λ k _, bag_of_item shared (idx + Z.of_nat k)) predictions)
    (files w) (gcs_fetches w) (predict_calls w).

(** The store after a remote call. *)
Definition after_predict (instance parameters : dict) (w : world) : world :=
  set_predict_calls (λ l, l ++ [([VDict instance], parameters)]) w.

(** The item made of the prediction [p] at index [i]: an image object
    with the bytes and the URI of [p], holding a dictionary of its own
    that is the shared bag extended with the index. *)
Definition item_of `{Environment} (w : world) (shared : dict) (i : nat)
    (p : image_prediction) (r : ref) : Prop :=
  ∃ im gp,
    image_heap w !! r = Some im ∧
    Image._generation_parameters im = Some gp ∧
    Image._loaded_bytes im = inline_bytes p ∧
    Image._gcs_uri im = gcsUri p ∧
    dict_heap w !! gp = Some (bag_of_item shared (Z.of_nat i)).

(** The dictionary object an image holds as its generation parameters. *)
Definition bag_ref (w : world) (r : ref) : option ref :=
  im ← image_heap w !! r; Image._generation_parameters im.

(** ** Vocabulary of the metadata round trip *)

(** What the round trip needs from PIL at the location of the file, for
    the text [comment]: the format that the name of the file selects
    holds EXIF data, so that a file written there by [save] with this
    user comment is not empty, opens again, and carries the comment. PNG
    and JPEG names are such locations; a BMP name is not: its writer
    leaves the EXIF data out. *)
Definition PIL_keeps_comment_at `{Environment} (location comment : string) : Prop :=
  ∀ pim exif data,
    exif !! _EXIF_USER_COMMENT_TAG_IDX = Some comment →
    PIL_save pim location exif = inr data →
    data ≠ [] ∧
    ∃ pim', PIL_open data = Some pim' ∧
      pil_exif pim' !! _EXIF_USER_COMMENT_TAG_IDX = Some comment.

(** A JSON-representable document: [json.loads] gives back what
    [json.dumps] was given. *)
Definition json_round_trips `{Environment} (v : value) : Prop :=
  json_loads (json_dumps v) = Some v.

(** A location that [Image.load_from_file] reads from the local file
    system: neither a Cloud Storage location nor a URL. *)
Definition local_path `{Environment} (location : string) : Prop :=
  String.prefix "https://storage.googleapis.com/" location = false ∧
  String.prefix "gs://" location = false ∧
  py_bool (fst (urlparse location)) && py_bool (snd (urlparse location)) = false.

(** The document [GeneratedImage.save] writes into the EXIF user comment. *)
Definition exif_document (parameters : value) : value :=
  VDict {[_IMAGE_GENERATION_PARAMETERS_EXIF_KEY := parameters]}.

(** ** Stores of the examples *)

(** A store with the given image objects, videos and dictionaries, and
    nothing else. *)
Definition store (image_objects : list Image.t) (video_objects : list Video.t)
    (dictionaries : list value) : world :=
  mkWorld image_objects video_objects dictionaries ∅ [] [].

(** The bag of the specification's example. *)
Definition cat_parameters : dict :=
  <["seed" := VInt 7]> {["prompt" := VStr "cat"]}.

(** A generated 1024x1024 picture with the parameters [bag], inline. *)
Definition generated_store (bag : dict) : world :=
  store [Image.mk (Some Double.picture_1024) None None (Some 0%nat)] [] [VDict bag].

(** An inline image (reference 0), a remote image (reference 1) and an
    inline video (reference 0). *)
Definition media_store : world :=
  store [Image.mk (Some Double.picture_1024) None None None;
         Image.mk None None (Some "gs://bucket/mask.png") None]
        [Video.mk (Some [Byte.x00; Byte.x01]) None] [].

(** ** Vocabulary of the loaders *)

(** A location in Cloud Storage: a [gs://] URI or a public URL of
    [storage.googleapis.com]. *)
Definition cloud_storage_location (location : string) : Prop :=
  String.prefix "gs://" location = true ∨
  String.prefix "https://storage.googleapis.com/" location = true.

(** A location that [Image.load_from_file] fetches with [requests.get]:
    not in Cloud Storage, and with a scheme and a host. *)
Definition url_location `{Environment} (location : string) : Prop :=
  String.prefix "https://storage.googleapis.com/" location = false ∧
  String.prefix "gs://" location = false ∧
  py_bool (fst (urlparse location)) && py_bool (snd (urlparse location)) = true.

(** The length a response declares: [int] of its content-length header,
    0 without the header. *)
Definition declared_length `{Environment} (response : Response) : exn + Z :=
  match resp_content_length response with
  | Some text => python_int text
  | None => inr 0%Z
  end.

(** A response that [Image.load_from_file] accepts: a success status, a
    declared length that [int] reads and that is at most 20 MiB, a
    supported content type, and a body that is not empty. *)
Definition acceptable_response `{Environment} (response : Response) : Prop :=
  resp_ok response = true ∧
  (∃ n, declared_length response = inr n ∧ (n ≤ 20 * 1024 * 1024)%Z) ∧
  str_in (default "" (resp_content_type response)) _SUPPORTED_MIME_TYPES = true ∧
  resp_content response ≠ [].

(** ** Vocabulary of the embedding response *)

(** An element of [videoEmbeddings] and the [VideoEmbedding] made of it. *)
Definition embedding_of (v : value) (e : VideoEmbedding) : Prop :=
  ∃ d, v = VDict d ∧
    d !! "embedding" = Some (ve_embedding e) ∧
    d !! "startOffsetSec" = Some (ve_start_offset_sec e) ∧
    d !! "endOffsetSec" = Some (ve_end_offset_sec e).

(** ** Vocabulary of the tool contexts *)

(** A body that leaves the list of tool contexts as it found it. *)
Definition balanced {E A} (body : telemetry.T E A) : Prop :=
  ∀ s, snd (body s) = s.

(** ** Vocabulary of the polling loop *)

(** The statuses on which the loop sleeps and asks again. *)
Definition waiting (status : job_polling.JobStatus) : Prop :=
  status = job_polling.PENDING ∨ status = job_polling.RUNNING.

(** The statuses on which the loop raises. *)
Definition failing (status : job_polling.JobStatus) : Prop :=
  status = job_polling.FAILED ∨ status = job_polling.STOPPED.

(** ** A test double with a web server

    The test double, with four pages behind [requests.get]: a picture,
    a page that declares 30 MB, a text page without a declared length,
    and a picture whose declared length is not a number; every other
    address answers with an error status. Sets are iterated from the
    last element to the first. Its embedding endpoint answers with the
    embeddings of two video segments. *)
Definition web_page (location : string) : exn + Response :=
  if String.eqb location "https://example.com/cat.png"
  then inr (mkResponse true (Some "3") (Some "image/png") Double.picture_1024)
  else if String.eqb location "https://example.com/large.txt"
  then inr (mkResponse true (Some "31457280") (Some "text/plain") Double.picture_1024)
  else if String.eqb location "https://example.com/index.html"
  then inr (mkResponse true None (Some "text/html") Double.picture_1024)
  else if String.eqb location "https://example.com/chunked.png"
  then inr (mkResponse true (Some "3 bytes") (Some "image/png") Double.picture_1024)
  else inr (mkResponse false None None []).

(** The embedding of a video segment, as the endpoint sends it. *)
Definition segment_embedding (start stop : Z) : value :=
  VDict (<["embedding" := VList [VInt start; VInt stop]]>
           (<["startOffsetSec" := VInt start]> {["endOffsetSec" := VInt stop]})).

(** Two predictions: the first with the embeddings of two video
    segments, the second with an image embedding. *)
Definition video_predictions : list value :=
  [VDict {["videoEmbeddings" := VList [segment_embedding 0 8; segment_embedding 8 16]]};
   VDict {["imageEmbedding" := VList [VInt 9]]}].

Definition web_env : Environment := {|
  gcs_blob := Double.blob;
  image_generation_endpoint := Double.image_generation;
  image_text_endpoint := λ _ _, inr [VStr "a cat"];
  embedding_endpoint := λ _ _, inr video_predictions;
  requests_get := web_page;
  urlparse := Double.parse;
  python_int := Double.int_of_text;
  set_order := λ items, rev items;
  write_error := λ _, None;
  PIL_installed := true;
  PIL_open := Double.open;
  PIL_save := Double.save;
  json_dumps := Double.dumps;
  json_loads := Double.loads;
  b64encode := string_of_list_byte;
  b64decode := λ s, Some (list_byte_of_string s);
  sha1_hexdigest := λ data, "sha1:" +:+ string_of_list_byte data
|}.

(** The test double, with a generation endpoint that answers with one
    prediction that has neither bytes nor a URI. *)
Definition silent_env : Environment := {|
  gcs_blob := Double.blob;
  image_generation_endpoint := λ _ _, inr [mkPrediction None None];
  image_text_endpoint := λ _ _, inr [VStr "a cat"];
  embedding_endpoint := λ _ _, inr [];
  requests_get := web_page;
  urlparse := Double.parse;
  python_int := Double.int_of_text;
  set_order := λ items, rev items;
  write_error := λ _, None;
  PIL_installed := true;
  PIL_open := Double.open;
  PIL_save := Double.save;
  json_dumps := Double.dumps;
  json_loads := Double.loads;
  b64encode := string_of_list_byte;
  b64decode := λ s, Some (list_byte_of_string s);
  sha1_hexdigest := λ data, "sha1:" +:+ string_of_list_byte data
|}.

(** ** Vocabulary of the remote calls *)

(** A method that builds its request without a remote call and then
    makes exactly one, with the instance and the parameters of the
    request as [sent] gives them; when the request cannot be built, the
    method ends with the exception of the request and no call was made. *)
Definition calls_once_built {R A} (request : M R) (sent : R → dict * dict)
    (method : M A) : Prop :=
  ∀ w, match request w with
       | (inl e, w1) =>
           method w = (inl e, w1) ∧ predict_calls w1 = predict_calls w
       | (inr x, w1) =>
           predict_calls w1 = predict_calls w ∧
           predict_calls (snd (method w))
             = predict_calls w ++ [([VDict (sent x).1], (sent x).2)]
       end.

(** The [videoSegmentConfig] entry of a video. *)
Definition segment_entry (c : VideoSegmentConfig) : value :=
  VDict (<["intervalSec" := VInt (interval_sec c)]>
           (<["endOffsetSec" := VInt (end_offset_sec c)]>
              {["startOffsetSec" := VInt (start_offset_sec c)]})).

(** * Properties *)

(** ** Running the monad *)

Lemma run_bind {A B} (m : M A) (f : A → M B) (w : world) :
  (m ≫= f) w = match m w with
               | (inl e, w') => (inl e, w')
               | (inr x, w') => f x w'
               end.
Proof. reflexivity. Qed.

Lemma run_bind_inr {A B} (m : M A) (f : A → M B) (w w' : world) (x : A) :
  m w = (inr x, w') → (m ≫= f) w = f x w'.
Proof. intros E. rewrite run_bind, E. reflexivity. Qed.

Lemma run_bind_inl {A B} (m : M A) (f : A → M B) (w w' : world) (e : exn) :
  m w = (inl e, w') → (m ≫= f) w = (inl e, w').
Proof. intros E. rewrite run_bind, E. reflexivity. Qed.

Lemma run_get_image (r : ref) (im : Image.t) (w : world) :
  image_heap w !! r = Some im → get_image r w = (inr im, w).
Proof. intros E. unfold get_image. rewrite E. reflexivity. Qed.

Lemma run_get_video (r : ref) (v : Video.t) (w : world) :
  video_heap w !! r = Some v → get_video r w = (inr v, w).
Proof. intros E. unfold get_video. rewrite E. reflexivity. Qed.

Lemma run_get_dict (r : ref) (v : value) (w : world) :
  dict_heap w !! r = Some v → get_dict r w = (inr v, w).
Proof. intros E. unfold get_dict. rewrite E. reflexivity. Qed.

(** A call that returns [x] and leaves the store as it is, does so every time. *)
Lemma times_stable {A} (m : M A) (x : A) (w : world) (n : nat) :
  m w = (inr x, w) → times n m w = (inr (replicate n x), w).
Proof.
  intros E. induction n as [|n IH]; [reflexivity|].
  cbn [times]. rewrite (run_bind_inr _ _ _ _ _ E).
  rewrite (run_bind_inr _ _ _ _ _ IH). reflexivity.
Qed.

Section media_reference.
Context `{env : Environment}.

(** ** Construction *)

Lemma given_dec {A} `{PyBool A} (x : option A) : given x ∨ ¬ given x.
Proof. unfold given. destruct (py_bool x); [left|right]; congruence. Qed.

Lemma eqb_given {A B} `{PyBool A} `{PyBool B} (x : option A) (y : option B) :
  Bool.eqb (py_bool x) (py_bool y) = true ↔
  (given x ∧ given y) ∨ (¬ given x ∧ ¬ given y).
Proof.
  unfold given. destruct (py_bool x), (py_bool y); cbn; split; intros Hc;
    try discriminate; try (left; split; congruence); try (right; split; congruence);
    destruct Hc as [[? ?]|[? ?]]; congruence.
Qed.

(** C4. Constructing an [Image] or a [Video] raises the construction
    error exactly when both of the inline bytes and the Cloud Storage URI
    are given or neither is; with exactly one of them given the object is
    made, with the bytes in its cache and the URI kept. *)
Theorem construction_fails_iff_both_or_neither
    (data : option bytes) (gcs_uri : option string) (w : world) :
  (Image__init__ data gcs_uri = inl InvalidConstructionError_Image ↔
     (given data ∧ given gcs_uri) ∨ (¬ given data ∧ ¬ given gcs_uri)) ∧
  (Video__init__ data gcs_uri = inl InvalidConstructionError_Video ↔
     (given data ∧ given gcs_uri) ∨ (¬ given data ∧ ¬ given gcs_uri)) ∧
  ((given data ∧ ¬ given gcs_uri) ∨ (¬ given data ∧ given gcs_uri) ↔
     Image__init__ data gcs_uri = inr (Image.mk data None gcs_uri None)) ∧
  ((given data ∧ ¬ given gcs_uri) ∨ (¬ given data ∧ given gcs_uri) ↔
     Video__init__ data gcs_uri = inr (Video.mk data gcs_uri)) ∧
  (Image__init__ data gcs_uri = inl InvalidConstructionError_Image →
     Image_new data gcs_uri w = (inl InvalidConstructionError_Image, w)) ∧
  (Video__init__ data gcs_uri = inl InvalidConstructionError_Video →
     Video_new data gcs_uri w = (inl InvalidConstructionError_Video, w)).
Proof.
  unfold Image_new, Video_new, Image__init__, Video__init__.
  pose proof (eqb_given data gcs_uri) as Hb.
  destruct (Bool.eqb (py_bool data) (py_bool gcs_uri)) eqn:E.
  - assert (Hc : (given data ∧ given gcs_uri) ∨ (¬ given data ∧ ¬ given gcs_uri))
      by (apply Hb; reflexivity).
    repeat split; try (intros; assumption); try reflexivity; try discriminate;
      intros [[? ?]|[? ?]]; destruct Hc as [[? ?]|[? ?]]; contradiction.
  - assert (Hc : ¬ ((given data ∧ given gcs_uri) ∨ (¬ given data ∧ ¬ given gcs_uri)))
      by (intros Hc; apply Hb in Hc; discriminate).
    repeat split; try discriminate; try reflexivity; try (intros; contradiction).
    + intros _. destruct (given_dec data), (given_dec gcs_uri); tauto.
    + intros _. destruct (given_dec data), (given_dec gcs_uri); tauto.
Qed.

(** Empty bytes are not given: with a URI they are accepted and kept as
    the cache; alone they are refused. *)
Example empty_bytes_are_not_given :
  Image__init__ (Some []) (Some "gs://b/o") = inr (Image.mk (Some []) None (Some "gs://b/o") None) ∧
  Image__init__ (Some []) None = inl InvalidConstructionError_Image ∧
  Image__init__ (Some [Byte.x89]) None = inr (Image.mk (Some [Byte.x89]) None None None) ∧
  Image__init__ None (Some "gs://b/o") = inr (Image.mk None None (Some "gs://b/o") None) ∧
  Image__init__ (Some [Byte.x89]) (Some "gs://b/o") = inl InvalidConstructionError_Image ∧
  Image__init__ None None = inl InvalidConstructionError_Image.
Proof. repeat split. Qed.

(** ** The byte cache *)

Lemma cached_image_bytes (self : ref) (im : Image.t) (data : bytes) (w : world) :
  image_heap w !! self = Some im →
  Image._loaded_bytes im = Some data →
  _image_bytes self w = (inr data, w).
Proof.
  intros Hl Hc. unfold _image_bytes.
  rewrite (run_bind_inr _ _ _ _ _ (run_get_image _ _ _ Hl)), Hc. reflexivity.
Qed.

Lemma cached_video_bytes (self : ref) (v : Video.t) (data : bytes) (w : world) :
  video_heap w !! self = Some v →
  Video._loaded_bytes v = Some data →
  _video_bytes self w = (inr data, w).
Proof.
  intros Hl Hc. unfold _video_bytes.
  rewrite (run_bind_inr _ _ _ _ _ (run_get_video _ _ _ Hl)), Hc. reflexivity.
Qed.

(** The first access to the bytes of an object whose cache is empty. *)
Lemma first_image_bytes (self : ref) (im : Image.t) (u : string) (w : world) :
  image_heap w !! self = Some im →
  Image._loaded_bytes im = None →
  Image._gcs_uri im = Some u →
  _image_bytes self w =
    match gcs_blob u with
    | Some data =>
        (inr data,
         set_image_heap (λ h, <[self := Image.mk (Some data) (Image._loaded_image im)
                                          (Some u) (Image._generation_parameters im)]> h)
           (set_gcs_fetches (λ l, l ++ [u]) w))
    | None => (inl (StorageError (Some u)), set_gcs_fetches (λ l, l ++ [u]) w)
    end.
Proof.
  intros Hl Hc Hu. unfold _image_bytes.
  rewrite (run_bind_inr _ _ _ _ _ (run_get_image _ _ _ Hl)), Hc, Hu.
  unfold download_as_bytes. destruct (gcs_blob u); reflexivity.
Qed.

Lemma first_video_bytes (self : ref) (v : Video.t) (u : string) (w : world) :
  video_heap w !! self = Some v →
  Video._loaded_bytes v = None →
  Video._gcs_uri v = Some u →
  _video_bytes self w =
    match gcs_blob u with
    | Some data =>
        (inr data,
         set_video_heap (λ h, <[self := Video.mk (Some data) (Some u)]> h)
           (set_gcs_fetches (λ l, l ++ [u]) w))
    | None => (inl (StorageError (Some u)), set_gcs_fetches (λ l, l ++ [u]) w)
    end.
Proof.
  intros Hl Hc Hu. unfold _video_bytes.
  rewrite (run_bind_inr _ _ _ _ _ (run_get_video _ _ _ Hl)), Hc, Hu.
  unfold download_as_bytes. destruct (gcs_blob u); reflexivity.
Qed.

Lemma image_bytes_fetch_once (self : ref) (im : Image.t) (u : string) (n : nat) (w : world) :
  image_heap w !! self = Some im →
  Image._loaded_bytes im = None →
  Image._gcs_uri im = Some u →
  ∃ w', fetched_once u w w' ∧
    times (S n) (_image_bytes self) w =
      (match gcs_blob u with
       | Some data => inr (replicate (S n) data)
       | None => inl (StorageError (Some u))
       end, w') ∧
    (∀ data, gcs_blob u = Some data →
       ∃ im', image_heap w' !! self = Some im' ∧ Image._loaded_bytes im' = Some data).
Proof.
  intros Hl Hc Hu. cbn [times]. rewrite run_bind.
  rewrite (first_image_bytes _ _ _ _ Hl Hc Hu).
  destruct (gcs_blob u) as [data|].
  - eexists. split; [|split].
    2:{ rewrite run_bind. erewrite times_stable; [reflexivity|].
        eapply cached_image_bytes;
          [cbn; apply list_lookup_insert_eq; eapply lookup_lt_Some, Hl | reflexivity]. }
    + reflexivity.
    + intros d [= <-]. eexists. split;
        [cbn; apply list_lookup_insert_eq; eapply lookup_lt_Some, Hl | reflexivity].
  - exists (set_gcs_fetches (λ l, l ++ [u]) w).
    split; [|split]; [reflexivity|reflexivity|discriminate].
Qed.

Lemma video_bytes_fetch_once (self : ref) (v : Video.t) (u : string) (n : nat) (w : world) :
  video_heap w !! self = Some v →
  Video._loaded_bytes v = None →
  Video._gcs_uri v = Some u →
  ∃ w', fetched_once u w w' ∧
    times (S n) (_video_bytes self) w =
      (match gcs_blob u with
       | Some data => inr (replicate (S n) data)
       | None => inl (StorageError (Some u))
       end, w') ∧
    (∀ data, gcs_blob u = Some data →
       ∃ v', video_heap w' !! self = Some v' ∧ Video._loaded_bytes v' = Some data).
Proof.
  intros Hl Hc Hu. cbn [times]. rewrite run_bind.
  rewrite (first_video_bytes _ _ _ _ Hl Hc Hu).
  destruct (gcs_blob u) as [data|].
  - eexists. split; [|split].
    2:{ rewrite run_bind. erewrite times_stable; [reflexivity|].
        eapply cached_video_bytes;
          [cbn; apply list_lookup_insert_eq; eapply lookup_lt_Some, Hl | reflexivity]. }
    + reflexivity.
    + intros d [= <-]. eexists. split;
        [cbn; apply list_lookup_insert_eq; eapply lookup_lt_Some, Hl | reflexivity].
  - exists (set_gcs_fetches (λ l, l ++ [u]) w).
    split; [|split]; [reflexivity|reflexivity|discriminate].
Qed.

(** The object a successful constructor call makes. *)
Lemma Image_new_inr (data : option bytes) (gcs_uri : option string) (self : ref) (w w1 : world) :
  Image_new data gcs_uri w = (inr self, w1) →
  image_heap w1 !! self = Some (Image.mk data None gcs_uri None) ∧
  gcs_fetches w1 = gcs_fetches w ∧ py_bool data ≠ py_bool gcs_uri.
Proof.
  unfold Image_new, Image__init__.
  destruct (Bool.eqb (py_bool data) (py_bool gcs_uri)) eqn:E; [discriminate|].
  intros [= <- <-]. cbn. split; [|split; [reflexivity|]].
  - rewrite lookup_app_r by lia. rewrite Nat.sub_diag. reflexivity.
  - intros Heq. rewrite Heq, Bool.eqb_reflx in E. discriminate.
Qed.

Lemma Video_new_inr (data : option bytes) (gcs_uri : option string) (self : ref) (w w1 : world) :
  Video_new data gcs_uri w = (inr self, w1) →
  video_heap w1 !! self = Some (Video.mk data gcs_uri) ∧
  gcs_fetches w1 = gcs_fetches w ∧ py_bool data ≠ py_bool gcs_uri.
Proof.
  unfold Video_new, Video__init__.
  destruct (Bool.eqb (py_bool data) (py_bool gcs_uri)) eqn:E; [discriminate|].
  intros [= <- <-]. cbn. split; [|split; [reflexivity|]].
  - rewrite lookup_app_r by lia. rewrite Nat.sub_diag. reflexivity.
  - intros Heq. rewrite Heq, Bool.eqb_reflx in E. discriminate.
Qed.

(** C3. A media reference made from a URI alone asks Cloud Storage for its
    bytes exactly once, however often the bytes are read: the first read
    fetches and fills the cache, the later ones return the cached bytes;
    a reference made with inline bytes never fetches, and reading it
    leaves the store as it is. This holds for [Image] and for [Video]. *)
Theorem resolved_bytes_fetched_once (data : option bytes) (gcs_uri : option string)
    (n : nat) (w : world) :
  (∀ self w1, Image_new data gcs_uri w = (inr self, w1) →
     match data with
     | None =>
         ∃ u w', gcs_uri = Some u ∧
           times (S n) (_image_bytes self) w1 =
             (match gcs_blob u with
              | Some fetched => inr (replicate (S n) fetched)
              | None => inl (StorageError (Some u))
              end, w') ∧
           gcs_fetches w' = gcs_fetches w ++ [u]
     | Some inline =>
         times n (_image_bytes self) w1 = (inr (replicate n inline), w1) ∧
         gcs_fetches w1 = gcs_fetches w
     end) ∧
  (∀ self w1, Video_new data gcs_uri w = (inr self, w1) →
     match data with
     | None =>
         ∃ u w', gcs_uri = Some u ∧
           times (S n) (_video_bytes self) w1 =
             (match gcs_blob u with
              | Some fetched => inr (replicate (S n) fetched)
              | None => inl (StorageError (Some u))
              end, w') ∧
           gcs_fetches w' = gcs_fetches w ++ [u]
     | Some inline =>
         times n (_video_bytes self) w1 = (inr (replicate n inline), w1) ∧
         gcs_fetches w1 = gcs_fetches w
     end).
Proof.
  split; intros self w1 Hnew.
  - apply Image_new_inr in Hnew as (Hl & Hf & Hne).
    destruct data as [inline|].
    + split; [|exact Hf].
      apply times_stable. eapply cached_image_bytes; [exact Hl|reflexivity].
    + destruct gcs_uri as [u|]; [|exfalso; apply Hne; reflexivity].
      destruct (image_bytes_fetch_once self _ u n w1 Hl eq_refl eq_refl)
        as (w' & Hlog & Hrun & _).
      exists u, w'. split; [reflexivity|]. split; [exact Hrun|].
      unfold fetched_once in Hlog. rewrite Hlog, Hf. reflexivity.
  - apply Video_new_inr in Hnew as (Hl & Hf & Hne).
    destruct data as [inline|].
    + split; [|exact Hf].
      apply times_stable. eapply cached_video_bytes; [exact Hl|reflexivity].
    + destruct gcs_uri as [u|]; [|exfalso; apply Hne; reflexivity].
      destruct (video_bytes_fetch_once self _ u n w1 Hl eq_refl eq_refl)
        as (w' & Hlog & Hrun & _).
      exists u, w'. split; [reflexivity|]. split; [exact Hrun|].
      unfold fetched_once in Hlog. rewrite Hlog, Hf. reflexivity.
Qed.

End media_reference.

Section request_builders.
Context `{env : Environment}.

(** ** Entries of media arguments *)

Lemma image_entry_ready (image : ref) (im : Image.t) (w : world) :
  Image_ready w image im →
  image_entry image w =
    (inr (serialized_entry (Image._gcs_uri im) (Image._loaded_bytes im)), w).
Proof.
  intros [Hl Hb]. unfold image_entry, serialized_entry.
  rewrite (run_bind_inr _ _ _ _ _ (run_get_image _ _ _ Hl)).
  destruct (py_bool (Image._gcs_uri im)); [reflexivity|].
  destruct Hb as [data Hd]; [reflexivity|].
  unfold _as_base64_string.
  rewrite (run_bind_inr _ _ _ _ _ (run_bind_inr _ _ _ _ _
             (cached_image_bytes _ _ _ _ Hl Hd))).
  rewrite Hd. reflexivity.
Qed.

Lemma video_entry_ready (video : ref) (v : Video.t) (w : world) :
  Video_ready w video v →
  video_entry video w =
    (inr (serialized_entry (Video._gcs_uri v) (Video._loaded_bytes v)), w).
Proof.
  intros [Hl Hb]. unfold video_entry, serialized_entry.
  rewrite (run_bind_inr _ _ _ _ _ (run_get_video _ _ _ Hl)).
  destruct (py_bool (Video._gcs_uri v)); [reflexivity|].
  destruct Hb as [data Hd]; [reflexivity|].
  unfold Video_as_base64_string.
  rewrite (run_bind_inr _ _ _ _ _ (run_bind_inr _ _ _ _ _
             (cached_video_bytes _ _ _ _ Hl Hd))).
  rewrite Hd. reflexivity.
Qed.

Lemma download_errors (uri : option string) (w w' : world) (e : exn) :
  download_as_bytes uri w = (inl e, w') → access_error e.
Proof.
  unfold download_as_bytes, access_error. destruct uri as [u|]; cbn.
  - destruct (gcs_blob u); cbn; intros [= <- <-]. eauto.
  - intros [= <- <-]. eauto.
Qed.

Lemma image_bytes_errors (self : ref) (w w' : world) (e : exn) :
  _image_bytes self w = (inl e, w') → access_error e.
Proof.
  unfold _image_bytes, get_image. rewrite run_bind.
  destruct (image_heap w !! self) as [im|]; [|intros [= <- <-]; left; reflexivity].
  destruct (Image._loaded_bytes im); [discriminate|].
  rewrite run_bind.
  destruct (download_as_bytes (Image._gcs_uri im) w) as [[e'|data] w1] eqn:E.
  - intros [= <- <-]. eapply download_errors, E.
  - discriminate.
Qed.

Lemma video_bytes_errors (self : ref) (w w' : world) (e : exn) :
  _video_bytes self w = (inl e, w') → access_error e.
Proof.
  unfold _video_bytes, get_video. rewrite run_bind.
  destruct (video_heap w !! self) as [v|]; [|intros [= <- <-]; left; reflexivity].
  destruct (Video._loaded_bytes v); [discriminate|].
  rewrite run_bind.
  destruct (download_as_bytes (Video._gcs_uri v) w) as [[e'|data] w1] eqn:E.
  - intros [= <- <-]. eapply download_errors, E.
  - discriminate.
Qed.

Lemma image_entry_errors (image : ref) (w w' : world) (e : exn) :
  image_entry image w = (inl e, w') → access_error e.
Proof.
  unfold image_entry, get_image. rewrite run_bind.
  destruct (image_heap w !! image) as [im|]; [|intros [= <- <-]; left; reflexivity].
  destruct (py_bool (Image._gcs_uri im)); [discriminate|].
  unfold _as_base64_string. rewrite !run_bind.
  destruct (_image_bytes image w) as [[e'|data] w1] eqn:E.
  - intros [= <- <-]. eapply image_bytes_errors, E.
  - discriminate.
Qed.

Lemma video_entry_errors (video : ref) (w w' : world) (e : exn) :
  video_entry video w = (inl e, w') → access_error e.
Proof.
  unfold video_entry, get_video. rewrite run_bind.
  destruct (video_heap w !! video) as [v|]; [|intros [= <- <-]; left; reflexivity].
  destruct (py_bool (Video._gcs_uri v)); [discriminate|].
  unfold Video_as_base64_string. rewrite !run_bind.
  destruct (_video_bytes video w) as [[e'|data] w1] eqn:E.
  - intros [= <- <-]. eapply video_bytes_errors, E.
  - discriminate.
Qed.

Lemma access_error_not_missing_input (e : exn) :
  access_error e → e ≠ MissingInputError.
Proof. intros [->|[u ->]]; discriminate. Qed.

(** ** get_embeddings *)

Lemma get_embeddings_request_ready (image video : option ref)
    (contextual_text : option string) (dimension : option Z)
    (cfg : option VideoSegmentConfig) (w : world) :
  ¬ no_embedding_input image video contextual_text →
  (∀ i, image = Some i → ∃ im, Image_ready w i im) →
  (∀ v, video = Some v → ∃ vo, Video_ready w v vo) →
  ∃ instance parameters,
    get_embeddings_request image video contextual_text dimension cfg w =
      (inr (instance, parameters), w).
Proof.
  intros Hin Hi Hv. unfold get_embeddings_request.
  destruct (negb (object_bool image) && negb (object_bool video)
            && negb (py_bool contextual_text)) eqn:E.
  { exfalso. apply Hin. unfold no_embedding_input, given.
    destruct image, video, (py_bool contextual_text); try discriminate.
    repeat split; congruence. }
  destruct image as [i|], video as [v|].
  - destruct (Hi i eq_refl) as [im Him]. destruct (Hv v eq_refl) as [vo Hvo].
    rewrite (run_bind_inr _ _ _ _ _ (run_bind_inr _ _ _ _ _ (image_entry_ready _ _ _ Him))).
    rewrite (run_bind_inr _ _ _ _ _ (run_bind_inr _ _ _ _ _ (video_entry_ready _ _ _ Hvo))).
    eexists _, _. reflexivity.
  - destruct (Hi i eq_refl) as [im Him].
    rewrite (run_bind_inr _ _ _ _ _ (run_bind_inr _ _ _ _ _ (image_entry_ready _ _ _ Him))).
    eexists _, _. reflexivity.
  - destruct (Hv v eq_refl) as [vo Hvo].
    rewrite run_bind. cbn [mret M_ret].
    rewrite (run_bind_inr _ _ _ _ _ (run_bind_inr _ _ _ _ _ (video_entry_ready _ _ _ Hvo))).
    eexists _, _. reflexivity.
  - eexists _, _. reflexivity.
Qed.

Lemma get_embeddings_logs_request (image video : option ref)
    (contextual_text : option string) (dimension : option Z)
    (cfg : option VideoSegmentConfig) (instance parameters : dict) (w w1 : world) :
  get_embeddings_request image video contextual_text dimension cfg w =
    (inr (instance, parameters), w1) →
  predict_calls (snd (get_embeddings image video contextual_text dimension cfg w)) =
    predict_calls w1 ++ [([VDict instance], parameters)].
Proof.
  intros E. unfold get_embeddings. rewrite (run_bind_inr _ _ _ _ _ E).
  unfold predict. rewrite !run_bind. cbn [modify].
  destruct (embedding_endpoint [VDict instance] parameters) as [e|predictions];
    [reflexivity|].
  cbn [lift_sum mret M_ret]. rewrite run_bind.
  destruct (predictions !! 0%nat) as [first|]; [|reflexivity].
  cbn [lift_option mret M_ret].
  destruct first; try reflexivity.
  rewrite run_bind.
  destruct (d !! "videoEmbeddings") as [[| | | |text|l|keys]|]; try reflexivity.
  - destruct (py_bool text); reflexivity.
  - destruct (video_embeddings_of l); reflexivity.
  - destruct (bool_decide (keys = ∅)); reflexivity.
Qed.

(** C10. [get_embeddings] raises the missing-input error exactly when
    there is no image, no video and no contextual text; it then makes no
    remote call. With any of the three present the request is built (for
    media arguments in the state their constructors leave) and sent. *)
Theorem get_embeddings_missing_input_iff (image video : option ref)
    (contextual_text : option string) (dimension : option Z)
    (cfg : option VideoSegmentConfig) (w : world) :
  (fst (get_embeddings_request image video contextual_text dimension cfg w)
     = inl MissingInputError ↔
   no_embedding_input image video contextual_text) ∧
  (no_embedding_input image video contextual_text →
   get_embeddings image video contextual_text dimension cfg w
     = (inl MissingInputError, w)) ∧
  (¬ no_embedding_input image video contextual_text →
   (∀ i, image = Some i → ∃ im, Image_ready w i im) →
   (∀ v, video = Some v → ∃ vo, Video_ready w v vo) →
   ∃ instance parameters,
     get_embeddings_request image video contextual_text dimension cfg w =
       (inr (instance, parameters), w) ∧
     predict_calls (snd (get_embeddings image video contextual_text dimension cfg w)) =
       predict_calls w ++ [([VDict instance], parameters)]).
Proof.
  assert (Hraise : no_embedding_input image video contextual_text →
            get_embeddings_request image video contextual_text dimension cfg w
              = (inl MissingInputError, w)).
  { intros (-> & -> & Ht). unfold get_embeddings_request, given in *.
    destruct (py_bool contextual_text); [congruence|reflexivity]. }
  split; [split|split].
  - intros E. unfold get_embeddings_request in E.
    destruct (negb (object_bool image) && negb (object_bool video)
              && negb (py_bool contextual_text)) eqn:Ec.
    { unfold no_embedding_input, given.
      destruct image, video, (py_bool contextual_text); try discriminate.
      repeat split; congruence. }
    exfalso. revert E. rewrite run_bind.
    destruct image as [i|].
    + rewrite run_bind.
      destruct (image_entry i w) as [[e|entry] w1] eqn:Ei.
      { cbn. intros [= ->].
        eapply access_error_not_missing_input; [eapply image_entry_errors, Ei|reflexivity]. }
      cbn [mret M_ret]. rewrite run_bind.
      destruct video as [v|]; [|discriminate].
      rewrite run_bind.
      destruct (video_entry v w1) as [[e|ventry] w2] eqn:Ev; [|discriminate].
      cbn. intros [= ->].
      eapply access_error_not_missing_input; [eapply video_entry_errors, Ev|reflexivity].
    + cbn [mret M_ret]. rewrite run_bind.
      destruct video as [v|]; [|discriminate].
      rewrite run_bind.
      destruct (video_entry v w) as [[e|ventry] w2] eqn:Ev; [|discriminate].
      cbn. intros [= ->].
      eapply access_error_not_missing_input; [eapply video_entry_errors, Ev|reflexivity].
  - intros Hno. rewrite (Hraise Hno). reflexivity.
  - intros Hno. unfold get_embeddings.
    rewrite (run_bind_inl _ _ _ _ _ (Hraise Hno)). reflexivity.
  - intros Hin Hi Hv.
    destruct (get_embeddings_request_ready image video contextual_text dimension cfg w
                Hin Hi Hv) as (instance & parameters & E).
    exists instance, parameters. split; [exact E|].
    apply (get_embeddings_logs_request _ _ _ _ _ _ _ _ _ E).
Qed.

(** ** Optional arguments and parameter keys *)

(** C2, as the module has it. In the parameters of a generation or edit
    request, [seed], [guidanceScale], [language] and [storageUri] are
    present exactly when the argument is not [None], with the value given
    (zero and the empty string included); [negativePrompt] is present
    exactly when the argument is a non-empty string; in the parameters of
    an embedding request, [dimension] is present exactly when the argument
    is a non-zero number. *)
Theorem optional_parameter_keys (prompt : string)
    (negative_prompt : option string) (number_of_images : Z)
    (width height : option Z) (guidance_scale : option float)
    (seed : option Z) (base_image mask : option ref)
    (language output_gcs_uri : option string)
    (image video : option ref) (contextual_text : option string)
    (dimension : option Z) (cfg : option VideoSegmentConfig) (w : world) :
  (∀ instance parameters shared w',
     _generate_images_request prompt negative_prompt number_of_images width height
       guidance_scale seed base_image mask language output_gcs_uri w
       = (inr (instance, parameters, shared), w') →
     parameters !! "negativePrompt" =
       (if py_bool negative_prompt then VStr <$> negative_prompt else None) ∧
     parameters !! "seed" = VInt <$> seed ∧
     parameters !! "guidanceScale" = VFloat <$> guidance_scale ∧
     parameters !! "language" = VStr <$> language ∧
     parameters !! "storageUri" = VStr <$> output_gcs_uri) ∧
  (∀ instance parameters w',
     get_embeddings_request image video contextual_text dimension cfg w
       = (inr (instance, parameters), w') →
     parameters !! "dimension" =
       (if py_bool dimension then VInt <$> dimension else None)).
Proof.
  split.
  - intros instance parameters shared w'.
    unfold _generate_images_request. rewrite run_bind.
    match goal with |- context [match ?m w with _ => _ end] =>
      destruct (m w) as [[e|[i s]] w1] end; [discriminate|].
    rewrite run_bind.
    match goal with |- context [match ?m w1 with _ => _ end] =>
      destruct (m w1) as [[e|[i2 s2]] w2] end; [discriminate|].
    match goal with |- context [<["sampleCount" := _]> ?sp] =>
      assert (Hsp : ∀ key, key ≠ "sampleImageSize" → key ≠ "aspectRatio" → sp !! key = None)
        by (intros key ? ?;
            destruct (py_bool (Z.max (default 0%Z width) (default 0%Z height)));
            [destruct height, width; try destruct (negb (_ =? _)%Z)|];
            by simplify_map_eq);
      revert Hsp; generalize sp; intros size_parameters Hsp end.
    destruct negative_prompt as [[|]|], seed, guidance_scale, language, output_gcs_uri;
      cbn [py_bool PyBool_option PyBool_string default];
      intros [= <- <- <- <-]; repeat split;
      rewrite ?lookup_insert_ne by done; rewrite ?lookup_insert_eq;
      rewrite ?Hsp by done; reflexivity.
  - intros instance parameters w'.
    unfold get_embeddings_request.
    destruct (negb (object_bool image) && negb (object_bool video)
              && negb (py_bool contextual_text)); [discriminate|].
    rewrite run_bind.
    match goal with |- context [match ?m w with _ => _ end] =>
      destruct (m w) as [[e|i] w1] end; [discriminate|].
    rewrite run_bind.
    match goal with |- context [match ?m w1 with _ => _ end] =>
      destruct (m w1) as [[e|i2] w2] end; [discriminate|].
    destruct dimension as [[| |]|]; cbn; intros [= <- <- <-]; by simplify_map_eq.
Qed.

End request_builders.

(** An empty negative prompt and a zero dimension are supplied and still
    left out of the parameters, so the claim C2 does not hold as stated. *)
Lemma supplied_but_left_out :
  (∃ instance parameters shared,
     fst (_generate_images_request (env := Double.env) "x" (Some "") 1
            None None None None None None None None empty_world)
       = inr (instance, parameters, shared) ∧
     is_Some (Some "" : option string) ∧
     parameters !! "negativePrompt" = None) ∧
  (∃ instance parameters,
     fst (get_embeddings_request (env := Double.env) None None (Some "x")
            (Some 0%Z) None empty_world)
       = inr (instance, parameters) ∧
     is_Some (Some 0%Z : option Z) ∧
     parameters !! "dimension" = None).
Proof.
  split.
  - eexists _, _, _. split; [reflexivity|]. split; [eexists; reflexivity|].
    vm_compute. reflexivity.
  - eexists _, _. split; [reflexivity|]. split; [eexists; reflexivity|].
    vm_compute. reflexivity.
Qed.

(** What the two requests of the counterexample hold. *)
Example empty_negative_prompt_request :
  fst (_generate_images_request (env := Double.env) "x" (Some "") 1
         None None None (Some 0%Z) None None (Some "") None empty_world)
  = inr ({["prompt" := VStr "x"]},
         <["language" := VStr ""]> (<["seed" := VInt 0]> {["sampleCount" := VInt 1]}),
         <["language" := VStr ""]>
           (<["seed" := VInt 0]>
              (<["number_of_images_in_batch" := VInt 1]> {["prompt" := VStr "x"]}))).
Proof. vm_compute. reflexivity. Qed.

Example zero_dimension_request :
  fst (get_embeddings_request (env := Double.env) None None (Some "x")
         (Some 0%Z) None empty_world)
  = inr ({["text" := VStr "x"]}, ∅).
Proof. vm_compute. reflexivity. Qed.

(** A request with a zero seed, an empty language and a non-empty negative
    prompt, and an embedding request with dimension 128. *)
Lemma optional_parameter_keys_witness :
  let parameters : dict :=
    <["language" := VStr ""]>
      (<["seed" := VInt 0]>
         (<["negativePrompt" := VStr "blurry"]> {["sampleCount" := VInt 1]})) in
  (parameters !! "negativePrompt" = Some (VStr "blurry") ∧
   parameters !! "seed" = Some (VInt 0) ∧
   parameters !! "guidanceScale" = None ∧
   parameters !! "language" = Some (VStr "") ∧
   parameters !! "storageUri" = None) ∧
  ({["dimension" := VInt 128]} : dict) !! "dimension" = Some (VInt 128).
Proof.
  pose proof (optional_parameter_keys (env := Double.env) "x" (Some "blurry") 1
                None None None (Some 0%Z) None None (Some "") None
                None None (Some "x") (Some 128%Z) None empty_world) as [Hg He].
  split.
  - exact (Hg _ _ _ _ eq_refl).
  - exact (He _ _ _ eq_refl).
Defined.

Section generation_requests.
Context `{env : Environment}.

(** ** The request of generate_images and edit_image *)

Lemma as_base64_string_cached (self : ref) (im : Image.t) (data : bytes) (w : world) :
  image_heap w !! self = Some im →
  Image._loaded_bytes im = Some data →
  _as_base64_string self w = (inr (b64encode data), w).
Proof.
  intros Hl Hd. unfold _as_base64_string.
  rewrite (run_bind_inr _ _ _ _ _ (cached_image_bytes _ _ _ _ Hl Hd)). reflexivity.
Qed.

(** One step of a run whose outcome [E] is known. *)
Ltac mstep E := rewrite run_bind, E; cbv beta iota.

(** The end of [_generate_images_request], by cases on the optional
    arguments that reach [shared_generation_parameters]. *)
Ltac request_tail negative_prompt seed guidance_scale language output_gcs_uri :=
  cbn [mret M_ret];
  destruct negative_prompt as [[|]|], seed, guidance_scale, language, output_gcs_uri;
  cbn [py_bool PyBool_option PyBool_string default].

Lemma generation_request_ready (prompt : string)
    (negative_prompt : option string) (number_of_images : Z)
    (width height : option Z) (guidance_scale : option float)
    (seed : option Z) (base_image mask : option ref)
    (language output_gcs_uri : option string) (w : world) :
  images_ready w base_image → images_ready w mask →
  ∃ instance parameters shared,
    _generate_images_request prompt negative_prompt number_of_images width height
      guidance_scale seed base_image mask language output_gcs_uri w
      = (inr (instance, parameters, shared), w) ∧
    instance !! "image" = VDict <$> entry_at w base_image ∧
    instance !! "mask" = (λ e, VDict {["image" := VDict e]}) <$> entry_at w mask ∧
    shared !! "base_image_uri" = uri_recorded w base_image ∧
    shared !! "base_image_hash" = hash_recorded w base_image ∧
    shared !! "mask_uri" = uri_recorded w mask ∧
    shared !! "mask_hash" = hash_recorded w mask ∧
    shared !! "prompt" = Some (VStr prompt) ∧
    shared !! "number_of_images_in_batch" = Some (VInt number_of_images).
Proof.
  intros Hb Hm. unfold _generate_images_request.
  unfold entry_at, uri_recorded, hash_recorded, entry_of_image, serialized_entry.
  rewrite run_bind.
  assert (Hmask : ∀ m, mask = Some m → ∃ im, image_heap w !! m = Some im ∧
            (py_bool (Image._gcs_uri im) = true ∨
             ∃ data, py_bool (Image._gcs_uri im) = false ∧
                     Image._loaded_bytes im = Some data)).
  { intros m ->. destruct (Hm m eq_refl) as (im & Hl & Hr). exists im. split; [exact Hl|].
    destruct (py_bool (Image._gcs_uri im)); [left; reflexivity|].
    right. destruct Hr as [data Hd]; [reflexivity|]. eauto. }
  clear Hm.
  destruct base_image as [b|].
  - destruct (Hb b eq_refl) as (ib & Hlb & Hrb).
    cbn [mbind option_bind]. rewrite Hlb. cbn [mbind option_bind].
    mstep (run_get_image _ _ _ Hlb).
    destruct (py_bool (Image._gcs_uri ib)) eqn:Eb.
    + cbn [mret M_ret]. rewrite run_bind.
      destruct mask as [m|].
      * destruct (Hmask m eq_refl) as (im & Hlm & [Em|(data & Em & Hd)]);
          cbn [mbind option_bind]; rewrite Hlm; cbn [mbind option_bind];
          mstep (run_get_image _ _ _ Hlm); rewrite Em.
        -- request_tail negative_prompt seed guidance_scale language output_gcs_uri;
             (eexists _, _, _; split; [reflexivity|]); repeat split; by simplify_map_eq.
        -- mstep (as_base64_string_cached _ _ _ _ Hlm Hd).
           mstep (cached_image_bytes _ _ _ _ Hlm Hd). rewrite Hd.
           request_tail negative_prompt seed guidance_scale language output_gcs_uri;
             (eexists _, _, _; split; [reflexivity|]); repeat split; by simplify_map_eq.
      * request_tail negative_prompt seed guidance_scale language output_gcs_uri;
          (eexists _, _, _; split; [reflexivity|]); repeat split; by simplify_map_eq.
    + destruct Hrb as [bdata Hbd]; [reflexivity|].
      mstep (as_base64_string_cached _ _ _ _ Hlb Hbd).
      mstep (cached_image_bytes _ _ _ _ Hlb Hbd). rewrite Hbd.
      cbn [mret M_ret]. rewrite run_bind.
      destruct mask as [m|].
      * destruct (Hmask m eq_refl) as (im & Hlm & [Em|(data & Em & Hd)]);
          cbn [mbind option_bind]; rewrite Hlm; cbn [mbind option_bind];
          mstep (run_get_image _ _ _ Hlm); rewrite Em.
        -- request_tail negative_prompt seed guidance_scale language output_gcs_uri;
             (eexists _, _, _; split; [reflexivity|]); repeat split; by simplify_map_eq.
        -- mstep (as_base64_string_cached _ _ _ _ Hlm Hd).
           mstep (cached_image_bytes _ _ _ _ Hlm Hd). rewrite Hd.
           request_tail negative_prompt seed guidance_scale language output_gcs_uri;
             (eexists _, _, _; split; [reflexivity|]); repeat split; by simplify_map_eq.
      * request_tail negative_prompt seed guidance_scale language output_gcs_uri;
          (eexists _, _, _; split; [reflexivity|]); repeat split; by simplify_map_eq.
  - cbn [mbind option_bind mret M_ret]. rewrite run_bind.
    destruct mask as [m|].
    + destruct (Hmask m eq_refl) as (im & Hlm & [Em|(data & Em & Hd)]);
        cbn [mbind option_bind]; rewrite Hlm; cbn [mbind option_bind];
        mstep (run_get_image _ _ _ Hlm); rewrite Em.
      * request_tail negative_prompt seed guidance_scale language output_gcs_uri;
          (eexists _, _, _; split; [reflexivity|]); repeat split; by simplify_map_eq.
      * mstep (as_base64_string_cached _ _ _ _ Hlm Hd).
        mstep (cached_image_bytes _ _ _ _ Hlm Hd). rewrite Hd.
        request_tail negative_prompt seed guidance_scale language output_gcs_uri;
          (eexists _, _, _; split; [reflexivity|]); repeat split; by simplify_map_eq.
    + request_tail negative_prompt seed guidance_scale language output_gcs_uri;
        (eexists _, _, _; split; [reflexivity|]); repeat split; by simplify_map_eq.
Qed.

End generation_requests.

Section pictures.
Context `{env : Environment}.

(** ** Reading the bytes and the picture of an image *)

Lemma image_kept_refl (im : Image.t) : image_kept im im.
Proof. repeat split; auto. Qed.

Lemma image_kept_trans (im im1 im2 : Image.t) :
  image_kept im im1 → image_kept im1 im2 → image_kept im im2.
Proof.
  intros (Hu & Hg & Hb) (Hu' & Hg' & Hb'). repeat split.
  - congruence.
  - congruence.
  - auto.
Qed.

Lemma only_images_touched_refl (w : world) : only_images_touched w w.
Proof. repeat split. Qed.

Lemma only_images_touched_trans (w w1 w2 : world) :
  only_images_touched w w1 → only_images_touched w1 w2 → only_images_touched w w2.
Proof. unfold only_images_touched. intros (?&?&?) (?&?&?). repeat split; congruence. Qed.

Lemma image_bytes_frame (self : ref) (w w1 : world) (r : exn + bytes) :
  _image_bytes self w = (r, w1) →
  only_images_touched w w1 ∧
  ∀ im, image_heap w !! self = Some im →
    ∃ im1, image_heap w1 !! self = Some im1 ∧ image_kept im im1 ∧
      Image._loaded_image im1 = Image._loaded_image im ∧
      ∀ data, r = inr data → Image._loaded_bytes im1 = Some data.
Proof.
  unfold _image_bytes, get_image. rewrite run_bind.
  destruct (image_heap w !! self) as [im|] eqn:Hl.
  2:{ intros [= <- <-]. split; [apply only_images_touched_refl|]. discriminate. }
  destruct (Image._loaded_bytes im) as [data|] eqn:Hd.
  { intros [= <- <-]. split; [apply only_images_touched_refl|].
    intros ? [= <-]. exists im. split; [exact Hl|]. split; [apply image_kept_refl|].
    split; [reflexivity|]. intros ? [= <-]. exact Hd. }
  rewrite run_bind. unfold download_as_bytes.
  destruct (Image._gcs_uri im) as [u|] eqn:Hu.
  2:{ intros [= <- <-]. split; [apply only_images_touched_refl|].
      intros ? [= <-]. exists im. split; [exact Hl|]. split; [apply image_kept_refl|].
      split; [reflexivity|]. discriminate. }
  rewrite run_bind. cbn [modify].
  destruct (gcs_blob u) as [data|]; cbn.
  - intros [= <- <-]. split; [repeat split|].
    intros ? [= <-]. eexists. split.
    { cbn. apply list_lookup_insert_eq. eapply lookup_lt_Some, Hl. }
    split; [|split; [reflexivity|intros ? [= <-]; reflexivity]].
    unfold image_kept. cbn. rewrite Hu, Hd. repeat split. discriminate.
  - intros [= <- <-]. split; [repeat split|].
    intros ? [= <-]. exists im. split; [exact Hl|]. split; [apply image_kept_refl|].
    split; [reflexivity|]. discriminate.
Qed.

Lemma pil_image_frame (self : ref) (w w1 : world) (r : exn + PIL_Image) :
  _pil_image self w = (r, w1) →
  only_images_touched w w1 ∧
  ∀ im, image_heap w !! self = Some im →
    ∃ im1, image_heap w1 !! self = Some im1 ∧ image_kept im im1 ∧
      ∀ pim, r = inr pim → Image._loaded_image im1 = Some pim.
Proof.
  unfold _pil_image. rewrite run_bind. unfold get_image at 1.
  destruct (image_heap w !! self) as [im|] eqn:Hl.
  2:{ intros [= <- <-]. split; [apply only_images_touched_refl|]. discriminate. }
  destruct (Image._loaded_image im) as [pim|] eqn:Hp.
  { intros [= <- <-]. split; [apply only_images_touched_refl|].
    intros ? [= <-]. exists im. split; [exact Hl|]. split; [apply image_kept_refl|].
    intros ? [= <-]. exact Hp. }
  destruct PIL_installed.
  2:{ intros [= <- <-]. split; [apply only_images_touched_refl|].
      intros ? [= <-]. exists im. split; [exact Hl|]. split; [apply image_kept_refl|].
      discriminate. }
  rewrite run_bind.
  destruct (_image_bytes self w) as [[e|data] w0] eqn:Eb;
    destruct (image_bytes_frame _ _ _ _ Eb) as (Hf & Hk);
    destruct (Hk im Hl) as (im0 & Hl0 & Hk0 & Hp0 & Hd0).
  { intros [= <- <-]. split; [exact Hf|]. intros ? [= <-].
    exists im0. split; [exact Hl0|]. split; [exact Hk0|]. discriminate. }
  rewrite run_bind.
  destruct (PIL_open data) as [pim|]; cbn [lift_option mret M_ret raise].
  2:{ intros [= <- <-]. split; [exact Hf|]. intros ? [= <-].
      exists im0. split; [exact Hl0|]. split; [exact Hk0|]. discriminate. }
  rewrite (run_bind_inr _ _ _ _ _ (run_get_image _ _ _ Hl0)).
  rewrite run_bind. cbn [put_image modify mret M_ret].
  intros [= <- <-]. split.
  { destruct Hf as (?&?&?). repeat split; assumption. }
  intros ? [= <-]. eexists. split.
  { cbn. apply list_lookup_insert_eq. eapply lookup_lt_Some, Hl0. }
  split; [|intros ? [= <-]; reflexivity].
  destruct Hk0 as (?&?&?). repeat split; cbn; auto.
Qed.

(** Once read, the size is read again from the cached picture. *)
Lemma size_again (self : ref) (w w1 : world) (size : Z * Z) :
  _size self w = (inr size, w1) → _size self w1 = (inr size, w1).
Proof.
  unfold _size. rewrite run_bind.
  destruct (_pil_image self w) as [[e|pim] w0] eqn:Ep; [discriminate|].
  intros [= <- <-].
  destruct (pil_image_frame _ _ _ _ Ep) as (_ & Hk).
  assert (∃ im, image_heap w !! self = Some im) as [im Hl].
  { revert Ep. unfold _pil_image, get_image. rewrite run_bind.
    destruct (image_heap w !! self); [eauto|discriminate]. }
  destruct (Hk im Hl) as (im1 & Hl1 & _ & Hp).
  assert (E : _pil_image self w0 = (inr pim, w0)).
  { unfold _pil_image. rewrite (run_bind_inr _ _ _ _ _ (run_get_image _ _ _ Hl1)).
    rewrite (Hp pim eq_refl). reflexivity. }
  rewrite (run_bind_inr _ _ _ _ _ E). reflexivity.
Qed.

Lemma size_frame (self : ref) (w w1 : world) (r : exn + Z * Z) :
  _size self w = (r, w1) →
  only_images_touched w w1 ∧
  ∀ im, image_heap w !! self = Some im →
    ∃ im1, image_heap w1 !! self = Some im1 ∧ image_kept im im1.
Proof.
  unfold _size. rewrite run_bind.
  destruct (_pil_image self w) as [[e|pim] w0] eqn:Ep;
    destruct (pil_image_frame _ _ _ _ Ep) as (Hf & Hk); intros [= <- <-];
    (split; [exact Hf|]); intros im Hl;
    destruct (Hk im Hl) as (im1 & Hl1 & Hk1 & _); eauto.
Qed.

End pictures.

Section upscaling.
Context `{env : Environment}.

(** ** Computations that make no remote call *)

Lemma keeps_calls_ret {A} (x : A) : keeps_calls (mret x).
Proof. intros w. reflexivity. Qed.

Lemma keeps_calls_raise {A} (e : exn) : keeps_calls (raise e : M A).
Proof. intros w. reflexivity. Qed.

Lemma keeps_calls_bind {A B} (m : M A) (f : A → M B) :
  keeps_calls m → (∀ x, keeps_calls (f x)) → keeps_calls (m ≫= f).
Proof.
  intros Hm Hf w. rewrite run_bind. specialize (Hm w).
  destruct (m w) as [[e|x] w1]; cbn in *; [exact Hm|].
  rewrite Hf. exact Hm.
Qed.

Lemma keeps_calls_lift_option {A} (e : exn) (o : option A) : keeps_calls (lift_option e o).
Proof. destruct o; intros w; reflexivity. Qed.

Lemma keeps_calls_lift_sum {A} (r : exn + A) : keeps_calls (lift_sum r).
Proof. destruct r; intros w; reflexivity. Qed.

Lemma keeps_calls_get_image (r : ref) : keeps_calls (get_image r).
Proof. intros w. unfold get_image. destruct (image_heap w !! r); reflexivity. Qed.

Lemma keeps_calls_get_dict (r : ref) : keeps_calls (get_dict r).
Proof. intros w. unfold get_dict. destruct (dict_heap w !! r); reflexivity. Qed.

Lemma keeps_calls_new_dict (v : value) : keeps_calls (new_dict v).
Proof. intros w. reflexivity. Qed.

Lemma keeps_calls_new_image (im : Image.t) : keeps_calls (new_image im).
Proof. intros w. reflexivity. Qed.

Create HintDb calls discriminated.
#[local] Hint Resolve keeps_calls_ret keeps_calls_raise keeps_calls_lift_option
  keeps_calls_lift_sum keeps_calls_get_image keeps_calls_get_dict keeps_calls_new_dict
  keeps_calls_new_image : calls.

(** A chain of steps makes no remote call when no step does. *)
Ltac keeps_calls_steps :=
  repeat (apply keeps_calls_bind; [auto with calls | intros ?]); auto with calls.

Lemma keeps_calls_dict_setitem (r : ref) (key : string) (v : value) :
  keeps_calls (dict_setitem r key v).
Proof.
  unfold dict_setitem. apply keeps_calls_bind; [auto with calls|].
  intros []; auto with calls. intros w. reflexivity.
Qed.

Lemma keeps_calls_GeneratedImage_new (data : option bytes) (gp : ref) (uri : option string) :
  keeps_calls (GeneratedImage_new data gp uri).
Proof. unfold GeneratedImage_new. keeps_calls_steps. Qed.

Lemma keeps_calls_decoded (encoded_bytes : option string) :
  keeps_calls (if py_bool encoded_bytes
               then data ← lift_option Base64Error (b64decode (default "" encoded_bytes));
                    mret (Some data)
               else mret None).
Proof. destruct (py_bool encoded_bytes); keeps_calls_steps. Qed.

#[local] Hint Resolve keeps_calls_dict_setitem keeps_calls_GeneratedImage_new
  keeps_calls_decoded : calls.

Lemma keeps_calls_generated_images_from (shared : dict) (predictions : list image_prediction)
    (idx : Z) :
  keeps_calls (generated_images_from shared idx predictions).
Proof.
  revert idx. induction predictions as [|p ps IH]; intros idx; cbn [generated_images_from];
    keeps_calls_steps.
Qed.

(** A remote call adds its request to the log, whatever comes back. *)
Lemma predict_then {A B} (endpoint : list value → dict → exn + list A)
    (instance parameters : dict) (f : list A → M B) (w : world) :
  (∀ x, keeps_calls (f x)) →
  predict_calls (snd ((predict endpoint instance parameters ≫= f) w)) =
    predict_calls w ++ [([VDict instance], parameters)].
Proof.
  intros Hf. unfold predict. rewrite !run_bind. cbn [modify].
  destruct (endpoint [VDict instance] parameters) as [e|x]; cbn [lift_sum raise mret M_ret];
    [reflexivity|].
  rewrite Hf. reflexivity.
Qed.

(** ** The checks of upscale_image *)

(** After its size was read, an object in the state its constructor left
    is still in that state, with the same URI and the same inline bytes. *)
Lemma ready_after_size (image : ref) (im : Image.t) (w w1 : world) (r : exn + Z * Z) :
  Image_ready w image im → _size image w = (r, w1) →
  ∃ im1, Image_ready w1 image im1 ∧ entry_of_image im1 = entry_of_image im.
Proof.
  intros [Hl Hr] Es. destruct (size_frame _ _ _ _ Es) as (_ & Hk).
  destruct (Hk im Hl) as (im1 & Hl1 & Hu & Hg & Hb).
  exists im1. unfold Image_ready, entry_of_image, serialized_entry. rewrite Hu.
  destruct (py_bool (Image._gcs_uri im)).
  - split; [|reflexivity]. split; [exact Hl1|discriminate].
  - destruct Hr as [data Hd]; [reflexivity|]. rewrite Hd, (Hb data Hd).
    split; [|reflexivity]. split; [exact Hl1|]. intros _. eauto.
Qed.

(** The two checks, once the size of the source is known. *)
Lemma upscale_checks (image : ref) (new_size : option Z) (output_gcs_uri : option string)
    (w w1 : world) (width height : Z) :
  _size image w = (inr (width, height), w1) →
  upscale_image_request image new_size output_gcs_uri w =
    if negb (width =? 1024)%Z && negb (height =? 1024)%Z
    then (inl UnsupportedSizeError_source, w1)
    else match new_size with
         | None => (inl UnsupportedSizeError_target, w1)
         | Some n =>
             if negb (Z_in n _SUPPORTED_UPSCALING_SIZES)
             then (inl UnsupportedSizeError_target, w1)
             else
               (entry ← image_entry image;
                mret (<["image" := VDict entry]> {["prompt" := VStr ""]},
                      match output_gcs_uri with
                      | Some u =>
                          <["storageUri" := VStr u]>
                            (<["mode" := VStr "upscale"]>
                               (<["sampleCount" := VInt 1]>
                                  {["sampleImageSize" := VStr (pretty n)]}))
                      | None =>
                          <["mode" := VStr "upscale"]>
                            (<["sampleCount" := VInt 1]>
                               {["sampleImageSize" := VStr (pretty n)]})
                      end, n)) w1
         end.
Proof.
  intros Es. unfold upscale_image_request.
  rewrite (run_bind_inr _ _ _ _ _ Es). cbn [fst snd].
  destruct (negb (width =? 1024)%Z).
  - rewrite run_bind, (run_bind_inr _ _ _ _ _ (size_again _ _ _ _ Es)).
    cbn [mret M_ret snd andb].
    destruct (negb (height =? 1024)%Z); [reflexivity|].
    destruct new_size as [n|]; [|reflexivity].
    destruct (negb (Z_in n _SUPPORTED_UPSCALING_SIZES)); [reflexivity|].
    destruct output_gcs_uri; reflexivity.
  - rewrite run_bind. cbn [mret M_ret andb].
    destruct new_size as [n|]; [|reflexivity].
    destruct (negb (Z_in n _SUPPORTED_UPSCALING_SIZES)); [reflexivity|].
    destruct output_gcs_uri; reflexivity.
Qed.

Lemma upscale_image_after_request (image : ref) (new_size : option Z)
    (output_gcs_uri : option string) (instance parameters : dict) (n : Z) (w w1 : world) :
  upscale_image_request image new_size output_gcs_uri w =
    (inr (instance, parameters, n), w1) →
  predict_calls (snd (upscale_image image new_size output_gcs_uri w)) =
    predict_calls w1 ++ [([VDict instance], parameters)].
Proof.
  intros E. unfold upscale_image. rewrite (run_bind_inr _ _ _ _ _ E).
  apply predict_then. intros predictions.
  apply keeps_calls_bind; [auto with calls|]. intros p.
  apply keeps_calls_bind; [auto with calls|]. intros im.
  apply keeps_calls_bind; [destruct (Image._generation_parameters im); auto with calls|].
  intros gp. keeps_calls_steps.
Qed.

(** C8. With the size of the source image read as [width] x [height]:
    when neither is 1024, [upscale_image] raises the size error of the
    source: when one is 1024 and the target is not 2048 or 4096, it
    raises the size error of the target; in both cases no remote call
    was made. When one is 1024 and the target is 2048 or 4096, neither
    error is raised, and for an image in the state its constructor left
    the request is built and sent. *)
Theorem upscale_image_size_checks (image : ref) (new_size : option Z)
    (output_gcs_uri : option string) (w w1 : world) (width height : Z) :
  _size image w = (inr (width, height), w1) →
  (width ≠ 1024%Z ∧ height ≠ 1024%Z →
     upscale_image image new_size output_gcs_uri w = (inl UnsupportedSizeError_source, w1) ∧
     predict_calls w1 = predict_calls w) ∧
  (width = 1024%Z ∨ height = 1024%Z →
   new_size ≠ Some 2048%Z ∧ new_size ≠ Some 4096%Z →
     upscale_image image new_size output_gcs_uri w = (inl UnsupportedSizeError_target, w1) ∧
     predict_calls w1 = predict_calls w) ∧
  (width = 1024%Z ∨ height = 1024%Z →
   new_size = Some 2048%Z ∨ new_size = Some 4096%Z →
     fst (upscale_image_request image new_size output_gcs_uri w)
       ≠ inl UnsupportedSizeError_source ∧
     fst (upscale_image_request image new_size output_gcs_uri w)
       ≠ inl UnsupportedSizeError_target ∧
     ∀ im, Image_ready w image im →
       ∃ instance parameters n,
         new_size = Some n ∧
         upscale_image_request image new_size output_gcs_uri w =
           (inr (instance, parameters, n), w1) ∧
         parameters !! "sampleImageSize" = Some (VStr (pretty n)) ∧
         predict_calls (snd (upscale_image image new_size output_gcs_uri w)) =
           predict_calls w ++ [([VDict instance], parameters)]).
Proof.
  intros Es. pose proof (upscale_checks image new_size output_gcs_uri _ _ _ _ Es) as Hc.
  destruct (size_frame _ _ _ _ Es) as ((Hcalls & _ & _) & Hk).
  split; [|split].
  - intros [Hw Hh]. split; [|exact Hcalls].
    apply Z.eqb_neq in Hw, Hh. rewrite Hw, Hh in Hc. cbn [negb andb] in Hc.
    unfold upscale_image. apply (run_bind_inl _ _ _ _ _ Hc).
  - intros Hax [Hn1 Hn2]. split; [|exact Hcalls].
    assert (Hok : negb (width =? 1024)%Z && negb (height =? 1024)%Z = false).
    { destruct Hax as [->| ->]; cbn; [reflexivity|apply andb_false_r]. }
    rewrite Hok in Hc.
    unfold upscale_image. apply (run_bind_inl _ _ _ _ _).
    rewrite Hc. destruct new_size as [n|]; [|reflexivity].
    assert (Hin : Z_in n _SUPPORTED_UPSCALING_SIZES = false).
    { unfold Z_in, _SUPPORTED_UPSCALING_SIZES. cbn [existsb].
      destruct (Z.eqb_spec n 2048) as [->|_]; [congruence|].
      destruct (Z.eqb_spec n 4096) as [->|_]; [congruence|]. reflexivity. }
    rewrite Hin. reflexivity.
  - intros Hax Hn.
    assert (Hok : negb (width =? 1024)%Z && negb (height =? 1024)%Z = false).
    { destruct Hax as [->| ->]; cbn; [reflexivity|apply andb_false_r]. }
    rewrite Hok in Hc.
    assert (∃ n, new_size = Some n ∧ Z_in n _SUPPORTED_UPSCALING_SIZES = true)
      as (n & -> & Hin).
    { destruct Hn as [->| ->]; eexists; split; reflexivity. }
    rewrite Hin in Hc. cbn [negb] in Hc. rewrite run_bind in Hc.
    assert (Herr : ∀ e, fst (upscale_image_request image (Some n) output_gcs_uri w) = inl e →
              access_error e).
    { intros e. rewrite Hc.
      destruct (image_entry image w1) as [[e'|entry] w2] eqn:Ee; [|discriminate].
      cbn. intros [= <-]. eapply image_entry_errors, Ee. }
    split; [|split].
    + intros E. destruct (Herr _ E) as [?|[? ?]]; discriminate.
    + intros E. destruct (Herr _ E) as [?|[? ?]]; discriminate.
    + intros im Hr.
      destruct (ready_after_size _ _ _ _ _ Hr Es) as (im1 & Hr1 & _).
      rewrite (image_entry_ready _ _ _ Hr1) in Hc. cbn [mret M_ret] in Hc.
      eexists _, _, n. split; [reflexivity|]. split; [exact Hc|]. split.
      * destruct output_gcs_uri; by simplify_map_eq.
      * rewrite (upscale_image_after_request _ _ _ _ _ _ _ _ Hc), Hcalls. reflexivity.
Qed.

End upscaling.

Section media_entries.
Context `{env : Environment}.

(** ** What a request holds of its media arguments *)

Lemma serialized_entry_one_key (gcs_uri : option string) (loaded : option bytes) :
  one_media_key (serialized_entry gcs_uri loaded).
Proof.
  unfold one_media_key, serialized_entry. destruct (py_bool gcs_uri).
  - left. split; [eexists|]; by simplify_map_eq.
  - right. split; [|eexists]; by simplify_map_eq.
Qed.

Lemma serialized_entry_remote (gcs_uri : option string) (loaded : option bytes) :
  py_bool gcs_uri = true →
  ∃ u, gcs_uri = Some u ∧ serialized_entry gcs_uri loaded = {["gcsUri" := VStr u]}.
Proof.
  intros E. unfold serialized_entry. rewrite E.
  destruct gcs_uri as [u|]; [|discriminate]. exists u. split; reflexivity.
Qed.

Lemma serialized_entry_inline (gcs_uri : option string) (data : bytes) :
  py_bool gcs_uri = false →
  serialized_entry gcs_uri (Some data) = {["bytesBase64Encoded" := VStr (b64encode data)]}.
Proof. intros E. unfold serialized_entry. rewrite E. reflexivity. Qed.

Lemma entry_at_ready (w : world) (image : ref) (im : Image.t) :
  Image_ready w image im → entry_at w (Some image) = Some (entry_of_image im).
Proof. intros [Hl _]. unfold entry_at. cbn. rewrite Hl. reflexivity. Qed.

Lemma images_ready_Some (w : world) (image : ref) (im : Image.t) :
  Image_ready w image im → images_ready w (Some image).
Proof. intros H r [= <-]. eauto. Qed.

Lemma images_ready_None (w : world) : images_ready w None.
Proof. intros r [=]. Qed.

(** The constructors leave their objects ready, and filling a cache
    keeps them so. *)
Lemma Image_new_ready (data : option bytes) (gcs_uri : option string) (self : ref)
    (w w1 : world) :
  Image_new data gcs_uri w = (inr self, w1) →
  Image_ready w1 self (Image.mk data None gcs_uri None).
Proof.
  intros E. apply Image_new_inr in E as (Hl & _ & Hne). split; [exact Hl|].
  cbn. intros Hu. rewrite Hu in Hne. destruct data as [d|]; [eauto|].
  exfalso. apply Hne. reflexivity.
Qed.

Lemma Video_new_ready (data : option bytes) (gcs_uri : option string) (self : ref)
    (w w1 : world) :
  Video_new data gcs_uri w = (inr self, w1) →
  Video_ready w1 self (Video.mk data gcs_uri).
Proof.
  intros E. apply Video_new_inr in E as (Hl & _ & Hne). split; [exact Hl|].
  cbn. intros Hu. rewrite Hu in Hne. destruct data as [d|]; [eauto|].
  exfalso. apply Hne. reflexivity.
Qed.

Lemma ready_kept (w w1 : world) (self : ref) (im im1 : Image.t) :
  Image_ready w self im → image_heap w1 !! self = Some im1 → image_kept im im1 →
  Image_ready w1 self im1.
Proof.
  intros [_ Hr] Hl1 (Hu & _ & Hb). split; [exact Hl1|].
  rewrite Hu. intros E. destruct (Hr E) as [data Hd]. rewrite (Hb _ Hd). eauto.
Qed.

Lemma videos_ready_Some (w : world) (video : ref) (vo : Video.t) :
  Video_ready w video vo → videos_ready w (Some video).
Proof. intros H r [= <-]. eauto. Qed.

Lemma videos_ready_None (w : world) : videos_ready w None.
Proof. intros r [=]. Qed.

(** The instance of an embedding request, for any combination of its
    optional media arguments. *)
Lemma embeddings_request_entries (image video : option ref)
    (contextual_text : option string) (dimension : option Z)
    (cfg : option VideoSegmentConfig) (w : world) :
  ¬ no_embedding_input image video contextual_text →
  images_ready w image → videos_ready w video →
  ∃ instance parameters,
    get_embeddings_request image video contextual_text dimension cfg w
      = (inr (instance, parameters), w) ∧
    instance !! "image" = VDict <$> entry_at w image ∧
    match video_entry_at w video with
    | None => video = None ∧ instance !! "video" = None
    | Some of_video =>
        ∃ entry, instance !! "video" = Some (VDict entry) ∧
          one_media_key entry ∧
          ∀ key, key ≠ "videoSegmentConfig" → entry !! key = of_video !! key
    end.
Proof.
  intros Hin Hi Hv. unfold get_embeddings_request.
  destruct (negb (object_bool image) && negb (object_bool video)
            && negb (py_bool contextual_text)) eqn:E.
  { exfalso. apply Hin. unfold no_embedding_input, given.
    destruct image, video, (py_bool contextual_text); try discriminate.
    repeat split; congruence. }
  clear E Hin. unfold entry_at, video_entry_at.
  assert (Hkey : ∀ vo : Video.t, one_media_key (entry_of_video vo))
    by (intros vo; apply serialized_entry_one_key).
  destruct image as [i|], video as [v|]; cbn [mbind option_bind].
  - destruct (Hi i eq_refl) as [im Him]. destruct (Hv v eq_refl) as [vo Hvo].
    rewrite (run_bind_inr _ _ _ _ _ (run_bind_inr _ _ _ _ _ (image_entry_ready _ _ _ Him))).
    rewrite (run_bind_inr _ _ _ _ _ (run_bind_inr _ _ _ _ _ (video_entry_ready _ _ _ Hvo))).
    destruct Him as [Hli _], Hvo as [Hlv _]. rewrite Hli, Hlv. cbn [mbind option_bind].
    fold (entry_of_image im). fold (entry_of_video vo).
    specialize (Hkey vo). unfold one_media_key in *.
    cbn [mret M_ret].
    destruct cfg as [c|], (py_bool contextual_text); eexists _, _;
      (split; [reflexivity|]); (split; [by simplify_map_eq|]);
      eexists; (split; [by simplify_map_eq|]);
      (split; [|intros key Hne; rewrite ?lookup_insert_ne by done; reflexivity]);
      rewrite ?lookup_insert_ne by done; exact Hkey.
  - destruct (Hi i eq_refl) as [im Him].
    rewrite (run_bind_inr _ _ _ _ _ (run_bind_inr _ _ _ _ _ (image_entry_ready _ _ _ Him))).
    destruct Him as [Hli _]. rewrite Hli. cbn [mbind option_bind].
    fold (entry_of_image im). rewrite run_bind. cbn [mret M_ret].
    destruct (py_bool contextual_text); eexists _, _;
      (split; [reflexivity|]); (split; [by simplify_map_eq|]);
      (split; [reflexivity|by simplify_map_eq]).
  - destruct (Hv v eq_refl) as [vo Hvo].
    rewrite run_bind. cbn [mret M_ret].
    rewrite (run_bind_inr _ _ _ _ _ (run_bind_inr _ _ _ _ _ (video_entry_ready _ _ _ Hvo))).
    destruct Hvo as [Hlv _]. rewrite Hlv. cbn [mbind option_bind].
    fold (entry_of_video vo).
    specialize (Hkey vo). unfold one_media_key in *.
    cbn [mret M_ret].
    destruct cfg as [c|], (py_bool contextual_text); eexists _, _;
      (split; [reflexivity|]); (split; [by simplify_map_eq|]);
      eexists; (split; [by simplify_map_eq|]);
      (split; [|intros key Hne; rewrite ?lookup_insert_ne by done; reflexivity]);
      rewrite ?lookup_insert_ne by done; exact Hkey.
  - rewrite !run_bind. cbn [mret M_ret].
    destruct (py_bool contextual_text); eexists _, _;
      (split; [reflexivity|]); (split; [by simplify_map_eq|]);
      (split; [reflexivity|by simplify_map_eq]).
Qed.

(** C6. For media arguments in the state their constructors leave, every
    request builder puts into the instance the entry of each media
    argument it is given, and nothing for an optional argument that is
    absent. The entry of an object has one key: [gcsUri] with the URI
    when the object has one, and [bytesBase64Encoded] with the base64
    text of its bytes when it has none; the video entry of an embedding
    request may carry the segment configuration besides. The base image
    and the mask of a generation, and the image and the video of an
    embedding request, are optional, each on its own. *)
Theorem media_entries_have_one_key (w : world)
    (prompt : string) (negative_prompt : option string) (number_of_images : Z)
    (width height : option Z) (guidance_scale : option float) (seed : option Z)
    (language output_gcs_uri : option string) (new_size : option Z)
    (number_of_results : Z) (caption_language question : string)
    (contextual_text : option string) (dimension : option Z)
    (cfg : option VideoSegmentConfig) :
  (* the entries *)
  (∀ image im, Image_ready w image im →
     one_media_key (entry_of_image im) ∧
     (py_bool (Image._gcs_uri im) = true →
        ∃ u, Image._gcs_uri im = Some u ∧ entry_of_image im = {["gcsUri" := VStr u]}) ∧
     (py_bool (Image._gcs_uri im) = false →
        ∃ data, Image._loaded_bytes im = Some data ∧
          entry_of_image im = {["bytesBase64Encoded" := VStr (b64encode data)]})) ∧
  (∀ video vo, Video_ready w video vo →
     one_media_key (entry_of_video vo) ∧
     (py_bool (Video._gcs_uri vo) = true →
        ∃ u, Video._gcs_uri vo = Some u ∧ entry_of_video vo = {["gcsUri" := VStr u]}) ∧
     (py_bool (Video._gcs_uri vo) = false →
        ∃ data, Video._loaded_bytes vo = Some data ∧
          entry_of_video vo = {["bytesBase64Encoded" := VStr (b64encode data)]})) ∧
  (* generate_images, edit_image: with or without a base image and a mask *)
  (∀ base_image mask, images_ready w base_image → images_ready w mask →
     ∃ instance parameters shared,
       _generate_images_request prompt negative_prompt number_of_images width height
         guidance_scale seed base_image mask language output_gcs_uri w
         = (inr (instance, parameters, shared), w) ∧
       instance !! "image" = VDict <$> entry_at w base_image ∧
       instance !! "mask" = (λ e, VDict {["image" := VDict e]}) <$> entry_at w mask) ∧
  (* upscale_image *)
  (∀ image im, Image_ready w image im →
     ∀ instance parameters n w1,
       upscale_image_request image new_size output_gcs_uri w
         = (inr (instance, parameters, n), w1) →
       instance = <["image" := VDict (entry_of_image im)]> {["prompt" := VStr ""]}) ∧
  (* get_captions, ask_question *)
  (∀ image im, Image_ready w image im →
     (∃ parameters,
        get_captions_request image number_of_results caption_language output_gcs_uri w
          = (inr ({["image" := VDict (entry_of_image im)]}, parameters), w)) ∧
     (∃ parameters,
        ask_question_request image question number_of_results w
          = (inr (<["image" := VDict (entry_of_image im)]> {["prompt" := VStr question]},
                  parameters), w))) ∧
  (* get_embeddings: with or without an image and a video *)
  (∀ image video,
     ¬ no_embedding_input image video contextual_text →
     images_ready w image → videos_ready w video →
     ∃ instance parameters,
       get_embeddings_request image video contextual_text dimension cfg w
         = (inr (instance, parameters), w) ∧
       instance !! "image" = VDict <$> entry_at w image ∧
       match video_entry_at w video with
       | None => video = None ∧ instance !! "video" = None
       | Some of_video =>
           ∃ entry, instance !! "video" = Some (VDict entry) ∧
             one_media_key entry ∧
             ∀ key, key ≠ "videoSegmentConfig" → entry !! key = of_video !! key
       end).
Proof.
  split.
  { intros image im Hi. split; [apply serialized_entry_one_key|].
    split; [apply serialized_entry_remote|].
    intros E. destruct Hi as [_ [data Hd]]; [exact E|]. exists data.
    split; [exact Hd|]. unfold entry_of_image. rewrite Hd.
    apply serialized_entry_inline, E. }
  split.
  { intros video vo Hv. split; [apply serialized_entry_one_key|].
    split; [apply serialized_entry_remote|].
    intros E. destruct Hv as [_ [data Hd]]; [exact E|]. exists data.
    split; [exact Hd|]. unfold entry_of_video. rewrite Hd.
    apply serialized_entry_inline, E. }
  split.
  { intros base_image mask Hb Hm.
    destruct (generation_request_ready prompt negative_prompt number_of_images width
                height guidance_scale seed base_image mask language
                output_gcs_uri w Hb Hm)
      as (instance & parameters & shared & E & Hii & Him & _).
    exists instance, parameters, shared. split; [exact E|]. split; assumption. }
  split.
  { intros image im Hi instance parameters n w1.
    destruct (_size image w) as [[e|[width' height']] w0] eqn:Es.
    { unfold upscale_image_request. rewrite (run_bind_inl _ _ _ _ _ Es). discriminate. }
    rewrite (upscale_checks _ _ _ _ _ _ _ Es).
    destruct (ready_after_size _ _ _ _ _ Hi Es) as (im1 & Hr1 & He).
    destruct (negb (width' =? 1024)%Z && negb (height' =? 1024)%Z); [discriminate|].
    destruct new_size as [n'|]; [|discriminate].
    destruct (negb (Z_in n' _SUPPORTED_UPSCALING_SIZES)); [discriminate|].
    rewrite (run_bind_inr _ _ _ _ _ (image_entry_ready _ _ _ Hr1)).
    cbn [mret M_ret]. intros [= <- _ _ _]. fold (entry_of_image im1). rewrite He.
    reflexivity. }
  split.
  { intros image im Hi. split.
    - unfold get_captions_request.
      rewrite (run_bind_inr _ _ _ _ _ (image_entry_ready _ _ _ Hi)).
      eexists. reflexivity.
    - unfold ask_question_request.
      rewrite (run_bind_inr _ _ _ _ _ (image_entry_ready _ _ _ Hi)).
      eexists. reflexivity. }
  intros image video Hin Hi Hv. apply embeddings_request_entries; assumption.
Qed.

(** C7. For image arguments in the state their constructors leave, the
    request of generation and editing is built, and for the base image:
    with a URI, the shared parameters hold it under [base_image_uri], hold
    no [base_image_hash], and the instance refers to the URI; without one,
    the shared parameters hold the digest of the bytes under
    [base_image_hash], hold no [base_image_uri], and the instance carries
    the bytes in base64. The mask is recorded in the same way under
    [mask_uri] and [mask_hash]. Without the argument neither key is
    there. *)
Theorem base_image_and_mask_recorded (w : world) (base_image mask : option ref)
    (prompt : string) (negative_prompt : option string) (number_of_images : Z)
    (width height : option Z) (guidance_scale : option float) (seed : option Z)
    (language output_gcs_uri : option string) :
  images_ready w base_image → images_ready w mask →
  ∃ instance parameters shared,
    _generate_images_request prompt negative_prompt number_of_images width height
      guidance_scale seed base_image mask language output_gcs_uri w
      = (inr (instance, parameters, shared), w) ∧
    match base_image with
    | None =>
        shared !! "base_image_uri" = None ∧ shared !! "base_image_hash" = None ∧
        instance !! "image" = None
    | Some b =>
        ∃ im, Image_ready w b im ∧
          if py_bool (Image._gcs_uri im)
          then ∃ uri, Image._gcs_uri im = Some uri ∧
                 shared !! "base_image_uri" = Some (VStr uri) ∧
                 shared !! "base_image_hash" = None ∧
                 instance !! "image" = Some (VDict {["gcsUri" := VStr uri]})
          else ∃ data, Image._loaded_bytes im = Some data ∧
                 shared !! "base_image_hash" = Some (VStr (sha1_hexdigest data)) ∧
                 shared !! "base_image_uri" = None ∧
                 instance !! "image"
                   = Some (VDict {["bytesBase64Encoded" := VStr (b64encode data)]})
    end ∧
    match mask with
    | None =>
        shared !! "mask_uri" = None ∧ shared !! "mask_hash" = None ∧
        instance !! "mask" = None
    | Some m =>
        ∃ im, Image_ready w m im ∧
          if py_bool (Image._gcs_uri im)
          then ∃ uri, Image._gcs_uri im = Some uri ∧
                 shared !! "mask_uri" = Some (VStr uri) ∧
                 shared !! "mask_hash" = None ∧
                 instance !! "mask"
                   = Some (VDict {["image" := VDict {["gcsUri" := VStr uri]}]})
          else ∃ data, Image._loaded_bytes im = Some data ∧
                 shared !! "mask_hash" = Some (VStr (sha1_hexdigest data)) ∧
                 shared !! "mask_uri" = None ∧
                 instance !! "mask"
                   = Some (VDict {["image" :=
                         VDict {["bytesBase64Encoded" := VStr (b64encode data)]}]})
    end ∧
    ¬ (is_Some (shared !! "base_image_uri") ∧ is_Some (shared !! "base_image_hash")) ∧
    ¬ (is_Some (shared !! "mask_uri") ∧ is_Some (shared !! "mask_hash")).
Proof.
  intros Hb Hm.
  destruct (generation_request_ready prompt negative_prompt number_of_images width
              height guidance_scale seed base_image mask language output_gcs_uri w Hb Hm)
    as (instance & parameters & shared & E & Hii & Him & Hbu & Hbh & Hmu & Hmh & _).
  exists instance, parameters, shared. split; [exact E|].
  rewrite Hii, Him, Hbu, Hbh, Hmu, Hmh.
  assert (Hcase : ∀ o : option ref, images_ready w o →
            match o with
            | None => uri_recorded w o = None ∧ hash_recorded w o = None ∧ entry_at w o = None
            | Some r =>
                ∃ im, Image_ready w r im ∧
                  if py_bool (Image._gcs_uri im)
                  then ∃ uri, Image._gcs_uri im = Some uri ∧
                         uri_recorded w o = Some (VStr uri) ∧ hash_recorded w o = None ∧
                         entry_at w o = Some {["gcsUri" := VStr uri]}
                  else ∃ data, Image._loaded_bytes im = Some data ∧
                         hash_recorded w o = Some (VStr (sha1_hexdigest data)) ∧
                         uri_recorded w o = None ∧
                         entry_at w o
                           = Some {["bytesBase64Encoded" := VStr (b64encode data)]}
            end).
  { intros [r|] Hr; [|repeat split].
    destruct (Hr r eq_refl) as (im & Hl & Hd). exists im. split; [split; assumption|].
    unfold uri_recorded, hash_recorded, entry_at, entry_of_image, serialized_entry.
    cbn [mbind option_bind]. rewrite Hl. cbn [mbind option_bind].
    destruct (py_bool (Image._gcs_uri im)) eqn:Eu.
    - destruct (Image._gcs_uri im) as [uri|]; [|discriminate]. exists uri. repeat split.
    - destruct Hd as [data Hd]; [reflexivity|]. exists data. rewrite Hd. repeat split. }
  assert (Hnot : ∀ o : option ref,
            ¬ (is_Some (uri_recorded w o) ∧ is_Some (hash_recorded w o))).
  { intros o [[x Hx] [y Hy]]. unfold uri_recorded, hash_recorded in *.
    destruct o as [r|]; [|discriminate]. cbn [mbind option_bind] in *.
    destruct (image_heap w !! r) as [im|]; [|discriminate]. cbn [mbind option_bind] in *.
    destruct (py_bool (Image._gcs_uri im)); discriminate. }
  split; [|split; [|split; apply Hnot]].
  - specialize (Hcase base_image Hb). destruct base_image as [b|].
    + destruct Hcase as (im & Hr & Hc). exists im. split; [exact Hr|].
      destruct (py_bool (Image._gcs_uri im)).
      * destruct Hc as (uri & ? & -> & -> & ->). exists uri. repeat split; assumption.
      * destruct Hc as (data & ? & -> & -> & ->). exists data. repeat split; assumption.
    + destruct Hcase as (-> & -> & ->). repeat split.
  - specialize (Hcase mask Hm). destruct mask as [m|].
    + destruct Hcase as (im & Hr & Hc). exists im. split; [exact Hr|].
      destruct (py_bool (Image._gcs_uri im)).
      * destruct Hc as (uri & ? & -> & -> & ->). exists uri. repeat split; assumption.
      * destruct Hc as (data & ? & -> & -> & ->). exists data. repeat split; assumption.
    + destruct Hcase as (-> & -> & ->). repeat split.
Qed.

End media_entries.

Section generation_loop.
Context `{env : Environment}.

(** ** The loop over the predictions *)

Lemma GeneratedImage_new_ok (data : option bytes) (gp : ref) (uri : option string)
    (w : world) :
  py_bool data ≠ py_bool uri →
  GeneratedImage_new data gp uri w =
    (inr (length (image_heap w)),
     set_image_heap (λ h, h ++ [Image.mk data None uri (Some gp)]) w).
Proof.
  intros Hne. unfold GeneratedImage_new, GeneratedImage__init__, Image__init__.
  destruct (Bool.eqb (py_bool data) (py_bool uri)) eqn:E.
  - apply Bool.eqb_prop in E. contradiction.
  - reflexivity.
Qed.

Lemma GeneratedImage_new_inr (data : option bytes) (gp : ref) (uri : option string)
    (w w' : world) (r : ref) :
  GeneratedImage_new data gp uri w = (inr r, w') → py_bool data ≠ py_bool uri.
Proof.
  unfold GeneratedImage_new, GeneratedImage__init__, Image__init__.
  destruct (Bool.eqb (py_bool data) (py_bool uri)) eqn:E; [discriminate|].
  intros _ Heq. rewrite Heq, Bool.eqb_reflx in E. discriminate.
Qed.

(** The assignment of a key in a dictionary that was just made. *)
Lemma setitem_new_dict (d : dict) (key : string) (v : value) (w : world) :
  dict_setitem (length (dict_heap w)) key v (set_dict_heap (λ h, h ++ [VDict d]) w) =
    (inr tt, set_dict_heap (λ h, h ++ [VDict (<[key := v]> d)]) w).
Proof.
  unfold dict_setitem. rewrite run_bind. unfold get_dict. cbn [dict_heap set_dict_heap].
  rewrite lookup_app_r by lia. rewrite Nat.sub_diag. cbn [lookup list_lookup].
  unfold modify, set_dict_heap. cbn.
  rewrite insert_app_r_alt by lia. rewrite Nat.sub_diag. reflexivity.
Qed.

Lemma generated_images_from_ok (shared : dict) (predictions : list image_prediction)
    (idx : Z) (w : world) :
  Forall prediction_ok predictions →
  generated_images_from shared idx predictions w =
    (inr (seq (length (image_heap w)) (length predictions)),
     after_generation shared idx predictions w).
Proof.
  intros Hok. revert idx w.
  induction Hok as [|p ps [Hdec Hne] _ IH]; intros idx w.
  - cbn. unfold after_generation. cbn. rewrite !app_nil_r. destruct w; reflexivity.
  - cbn [generated_images_from].
    rewrite run_bind. cbn [new_dict]. rewrite run_bind, setitem_new_dict.
    fold (bag_of_item shared idx). rewrite run_bind.
    assert (Hdata : (if py_bool (bytesBase64Encoded p)
                     then data ← lift_option Base64Error
                                   (b64decode (default "" (bytesBase64Encoded p)));
                          mret (Some data)
                     else mret None)
                      (set_dict_heap (λ h, h ++ [bag_of_item shared idx]) w) =
                    (inr (inline_bytes p),
                     set_dict_heap (λ h, h ++ [bag_of_item shared idx]) w)).
    { unfold inline_bytes. destruct (py_bool (bytesBase64Encoded p)); [|reflexivity].
      destruct Hdec as [data Hd]; [reflexivity|]. rewrite Hd. reflexivity. }
    rewrite Hdata. rewrite run_bind, (GeneratedImage_new_ok _ _ _ _ Hne).
    rewrite run_bind, IH. unfold mret, M_ret. apply pair_equal_spec. split.
    + f_equal. cbn. rewrite length_app, Nat.add_1_r. reflexivity.
    + unfold after_generation, set_image_heap, set_dict_heap. cbn.
      rewrite !length_app. cbn [length]. rewrite <- !app_assoc. cbn [app].
      f_equal.
      * f_equal. f_equal; [rewrite Nat.add_0_r; reflexivity|].
        apply imap_ext. intros k x _. cbn. do 2 f_equal. lia.
      * f_equal. f_equal; [rewrite Z.add_0_r; reflexivity|].
        apply imap_ext. intros k x _. cbn. f_equal. lia.
Qed.

Lemma generated_images_from_inr (shared : dict) (predictions : list image_prediction)
    (idx : Z) (w w' : world) (refs : list ref) :
  generated_images_from shared idx predictions w = (inr refs, w') →
  Forall prediction_ok predictions.
Proof.
  revert idx w refs w'. induction predictions as [|p ps IH]; intros idx w refs w';
    [constructor|].
  cbn [generated_images_from]. rewrite run_bind. cbn [new_dict].
  rewrite run_bind, setitem_new_dict. rewrite run_bind.
  destruct (py_bool (bytesBase64Encoded p)) eqn:Eb.
  - rewrite run_bind.
    destruct (b64decode (default "" (bytesBase64Encoded p))) as [data|] eqn:Ed;
      [|discriminate].
    cbn [lift_option mret M_ret]. rewrite run_bind.
    destruct (GeneratedImage_new _ _ _ _) as [[e|r] w2] eqn:Eg; [discriminate|].
    rewrite run_bind.
    destruct (generated_images_from shared (idx + 1) ps w2) as [[e|rs] w3] eqn:El;
      [discriminate|].
    intros _. constructor; [|eapply IH, El].
    split; [eauto|]. unfold inline_bytes. rewrite Eb, Ed.
    eapply GeneratedImage_new_inr, Eg.
  - cbn [mret M_ret]. rewrite run_bind.
    destruct (GeneratedImage_new _ _ _ _) as [[e|r] w2] eqn:Eg; [discriminate|].
    rewrite run_bind.
    destruct (generated_images_from shared (idx + 1) ps w2) as [[e|rs] w3] eqn:El;
      [discriminate|].
    intros _. constructor; [|eapply IH, El].
    split; [rewrite Eb; discriminate|]. unfold inline_bytes. rewrite Eb.
    eapply GeneratedImage_new_inr, Eg.
Qed.

Lemma dict_setitem_inr (r : ref) (key : string) (v : value) (w w' : world) :
  dict_setitem r key v w = (inr tt, w') →
  ∃ d, dict_heap w !! r = Some (VDict d) ∧
       w' = set_dict_heap (λ h, <[r := VDict (<[key := v]> d)]> h) w.
Proof.
  unfold dict_setitem, get_dict. rewrite run_bind.
  destruct (dict_heap w !! r) as [[| | | | | |d]|]; try discriminate.
  intros [= <-]. exists d. split; reflexivity.
Qed.

Lemma generate_images_run (prompt : string)
    (negative_prompt : option string) (number_of_images : Z)
    (width height : option Z) (guidance_scale : option float)
    (seed : option Z) (base_image mask : option ref)
    (language output_gcs_uri : option string) (w w1 : world)
    (instance parameters shared : dict) (predictions : list image_prediction) :
  _generate_images_request prompt negative_prompt number_of_images width height
    guidance_scale seed base_image mask language output_gcs_uri w
    = (inr (instance, parameters, shared), w1) →
  image_generation_endpoint [VDict instance] parameters = inr predictions →
  _generate_images prompt negative_prompt number_of_images width height
    guidance_scale seed base_image mask language output_gcs_uri w =
  (refs ← generated_images_from shared 0 predictions;
   mret (mkImageGenerationResponse refs)) (after_predict instance parameters w1).
Proof.
  intros Er Ep. unfold _generate_images. rewrite (run_bind_inr _ _ _ _ _ Er).
  unfold predict. rewrite !run_bind. cbn [modify]. rewrite Ep. reflexivity.
Qed.

(** C5. When the request is built and the endpoint answers with
    [predictions]: the call returns exactly when every prediction can be
    made into a [GeneratedImage], and a returned response has one item per
    prediction, in order. The item of index [i] holds a dictionary of its
    own whose content is the shared bag extended with
    [index_of_image_in_batch = i]; the dictionaries of two items are
    different objects, and an assignment in one leaves the other as it
    is. *)
Theorem generated_images_in_order (prompt : string)
    (negative_prompt : option string) (number_of_images : Z)
    (width height : option Z) (guidance_scale : option float)
    (seed : option Z) (base_image mask : option ref)
    (language output_gcs_uri : option string) (w w1 : world)
    (instance parameters shared : dict) (predictions : list image_prediction) :
  _generate_images_request prompt negative_prompt number_of_images width height
    guidance_scale seed base_image mask language output_gcs_uri w
    = (inr (instance, parameters, shared), w1) →
  image_generation_endpoint [VDict instance] parameters = inr predictions →
  (Forall prediction_ok predictions ↔
   ∃ response w',
     _generate_images prompt negative_prompt number_of_images width height
       guidance_scale seed base_image mask language output_gcs_uri w
       = (inr response, w')) ∧
  ∀ response w',
    _generate_images prompt negative_prompt number_of_images width height
      guidance_scale seed base_image mask language output_gcs_uri w
      = (inr response, w') →
    length (images response) = length predictions ∧
    (∀ i p, predictions !! i = Some p →
       ∃ r, images response !! i = Some r ∧ item_of w' shared i p r) ∧
    (∀ i key d, bag_of_item shared i = VDict d →
       key ≠ "index_of_image_in_batch" → d !! key = shared !! key) ∧
    (∀ i j ri rj gi gj,
       i ≠ j →
       images response !! i = Some ri → images response !! j = Some rj →
       bag_ref w' ri = Some gi → bag_ref w' rj = Some gj →
       gi ≠ gj ∧
       ∀ key v w'',
         dict_setitem gi key v w' = (inr tt, w'') →
         dict_heap w'' !! gj = dict_heap w' !! gj ∧
         dict_heap w'' !! gi
           = Some (VDict (<[key := v]>
                            (<["index_of_image_in_batch" := VInt (Z.of_nat i)]> shared)))).
Proof.
  intros Er Ep. rewrite (generate_images_run _ _ _ _ _ _ _ _ _ _ _ _ _ _ _ _ _ Er Ep).
  generalize (after_predict instance parameters w1). intros w2.
  assert (Hrun : ∀ response w',
            (refs ← generated_images_from shared 0 predictions;
             mret (mkImageGenerationResponse refs)) w2 = (inr response, w') →
            Forall prediction_ok predictions ∧
            images response = seq (length (image_heap w2)) (length predictions) ∧
            w' = after_generation shared 0 predictions w2).
  { intros response w'. rewrite run_bind.
    destruct (generated_images_from shared 0 predictions w2) as [[e|refs] w3] eqn:El;
      [discriminate|].
    pose proof (generated_images_from_inr _ _ _ _ _ _ El) as Hok.
    rewrite (generated_images_from_ok _ _ 0%Z w2 Hok) in El.
    injection El as <- <-. intros [= <- <-]. repeat split. exact Hok. }
  split.
  - split.
    + intros Hok. rewrite run_bind, (generated_images_from_ok _ _ _ _ Hok).
      eexists _, _. reflexivity.
    + intros (response & w' & E). apply (Hrun _ _ E).
  - intros response w' E. destruct (Hrun _ _ E) as (Hok & Hrefs & ->). clear Hrun E.
    assert (Himg : ∀ i p, predictions !! i = Some p →
              image_heap (after_generation shared 0 predictions w2)
                !! (length (image_heap w2) + i)%nat
              = Some (Image.mk (inline_bytes p) None (gcsUri p)
                               (Some (length (dict_heap w2) + i)%nat))).
    { intros i p Hp. unfold after_generation. cbn [image_heap].
      rewrite lookup_app_r by lia.
      replace (length (image_heap w2) + i - length (image_heap w2))%nat with i by lia.
      rewrite list_lookup_imap, Hp. reflexivity. }
    assert (Hbag : ∀ i p, predictions !! i = Some p →
              dict_heap (after_generation shared 0 predictions w2)
                !! (length (dict_heap w2) + i)%nat
              = Some (bag_of_item shared (Z.of_nat i))).
    { intros i p Hp. unfold after_generation. cbn [dict_heap].
      rewrite lookup_app_r by lia.
      replace (length (dict_heap w2) + i - length (dict_heap w2))%nat with i by lia.
      rewrite list_lookup_imap, Hp. reflexivity. }
    assert (Hitem : ∀ i r, images response !! i = Some r →
              ∃ p, predictions !! i = Some p ∧ r = (length (image_heap w2) + i)%nat).
    { intros i r. rewrite Hrefs. intros Hi. apply lookup_seq in Hi as [-> Hlt].
      destruct (lookup_lt_is_Some_2 predictions i Hlt) as [p Hp]. eauto. }
    split; [rewrite Hrefs; apply length_seq|]. split; [|split].
    + intros i p Hp. exists (length (image_heap w2) + i)%nat. split.
      * rewrite Hrefs. apply lookup_seq. split; [reflexivity|].
        eapply lookup_lt_Some, Hp.
      * eexists _, _. split; [apply (Himg _ _ Hp)|]. cbn.
        repeat split. apply (Hbag _ _ Hp).
    + intros i key d [= <-] Hkey. apply lookup_insert_ne. congruence.
    + intros i j ri rj gi gj Hij Hi Hj Hgi Hgj.
      destruct (Hitem _ _ Hi) as (pi & Hpi & ->).
      destruct (Hitem _ _ Hj) as (pj & Hpj & ->).
      unfold bag_ref in Hgi, Hgj.
      rewrite (Himg _ _ Hpi) in Hgi. rewrite (Himg _ _ Hpj) in Hgj.
      cbn in Hgi, Hgj. injection Hgi as <-. injection Hgj as <-.
      split; [lia|].
      intros key v w'' Es. apply dict_setitem_inr in Es as (d & Hd & ->).
      rewrite (Hbag _ _ Hpi) in Hd. injection Hd as <-.
      cbn [dict_heap set_dict_heap]. split.
      * apply list_lookup_insert_ne. lia.
      * apply list_lookup_insert_eq. eapply lookup_lt_Some, (Hbag _ _ Hpi).
Qed.

End generation_loop.

Section upscaled_parameters.
Context `{env : Environment}.

(** ** The parameter bag of an upscaled image *)

Lemma image_entry_frame (image : ref) (w w1 : world) (r : exn + dict) :
  image_entry image w = (r, w1) →
  only_images_touched w w1 ∧
  ∀ im, image_heap w !! image = Some im →
    ∃ im1, image_heap w1 !! image = Some im1 ∧ image_kept im im1.
Proof.
  unfold image_entry, get_image. rewrite run_bind.
  destruct (image_heap w !! image) as [im|] eqn:Hl.
  2:{ intros [= <- <-]. split; [apply only_images_touched_refl|]. discriminate. }
  destruct (py_bool (Image._gcs_uri im)).
  { intros [= <- <-]. split; [apply only_images_touched_refl|].
    intros ? [= <-]. exists im. split; [exact Hl|apply image_kept_refl]. }
  unfold _as_base64_string. rewrite !run_bind.
  destruct (_image_bytes image w) as [[e|data] w0] eqn:Eb;
    destruct (image_bytes_frame _ _ _ _ Eb) as (Hf & Hk); intros [= <- <-];
    (split; [exact Hf|]); intros ? [= <-];
    destruct (Hk im Hl) as (im1 & Hl1 & Hk1 & _); eauto.
Qed.

Lemma upscale_request_frame (image : ref) (new_size : option Z)
    (output_gcs_uri : option string) (instance parameters : dict) (n : Z) (w w1 : world) :
  upscale_image_request image new_size output_gcs_uri w
    = (inr (instance, parameters, n), w1) →
  new_size = Some n ∧ only_images_touched w w1 ∧
  ∀ im, image_heap w !! image = Some im →
    ∃ im1, image_heap w1 !! image = Some im1 ∧ image_kept im im1.
Proof.
  destruct (_size image w) as [[e|[width height]] w0] eqn:Es.
  { unfold upscale_image_request. rewrite (run_bind_inl _ _ _ _ _ Es). discriminate. }
  rewrite (upscale_checks _ _ _ _ _ _ _ Es).
  destruct (size_frame _ _ _ _ Es) as (Hf & Hk).
  destruct (negb (width =? 1024)%Z && negb (height =? 1024)%Z); [discriminate|].
  destruct new_size as [n'|]; [|discriminate].
  destruct (negb (Z_in n' _SUPPORTED_UPSCALING_SIZES)); [discriminate|].
  rewrite run_bind.
  destruct (image_entry image w0) as [[e|entry] w2] eqn:Ee; [discriminate|].
  destruct (image_entry_frame _ _ _ _ Ee) as (Hf' & Hk').
  cbn [mret M_ret]. intros [= _ _ <- <-].
  split; [reflexivity|]. split; [eapply only_images_touched_trans; eassumption|].
  intros im Hl. destruct (Hk im Hl) as (im0 & Hl0 & Hk0).
  destruct (Hk' im0 Hl0) as (im1 & Hl1 & Hk1).
  exists im1. split; [exact Hl1|]. eapply image_kept_trans; eassumption.
Qed.

(** C9, as the module has it. A successful [upscale_image] on a
    [GeneratedImage] returns an image that holds the very dictionary of
    the source image; no dictionary is made; in that dictionary
    [upscaled_image_size] is now the requested size, replacing an earlier
    value if there was one, and every other key has the value it had. *)
Theorem upscale_augments_in_place (image : ref) (new_size : option Z)
    (output_gcs_uri : option string) (w w' : world) (r : ref)
    (im : Image.t) (gp : ref) (bag : dict) :
  image_heap w !! image = Some im →
  Image._generation_parameters im = Some gp →
  dict_heap w !! gp = Some (VDict bag) →
  upscale_image image new_size output_gcs_uri w = (inr r, w') →
  ∃ n, new_size = Some n ∧
    bag_ref w' r = Some gp ∧ bag_ref w' image = Some gp ∧
    dict_heap w' = <[gp := VDict (<["upscaled_image_size" := VInt n]> bag)]> (dict_heap w) ∧
    dict_heap w' !! gp = Some (VDict (<["upscaled_image_size" := VInt n]> bag)) ∧
    (∀ key, key ≠ "upscaled_image_size" →
       (<["upscaled_image_size" := VInt n]> bag) !! key = bag !! key) ∧
    length (dict_heap w') = length (dict_heap w).
Proof.
  intros Hl Hg Hd. unfold upscale_image. rewrite run_bind.
  destruct (upscale_image_request image new_size output_gcs_uri w)
    as [[e|[[instance parameters] n]] w1] eqn:Er; [discriminate|].
  destruct (upscale_request_frame _ _ _ _ _ _ _ _ Er) as (-> & (_ & Hdh & _) & Hk).
  destruct (Hk im Hl) as (im1 & Hl1 & _ & Hg1 & _). rewrite Hg in Hg1.
  unfold predict. rewrite !run_bind. cbn [modify].
  destruct (image_generation_endpoint [VDict instance] parameters) as [e|predictions];
    [discriminate|].
  cbn [lift_sum mret M_ret]. rewrite run_bind.
  destruct (predictions !! 0%nat) as [p|]; [|discriminate].
  cbn [lift_option mret M_ret].
  rewrite run_bind.
  rewrite (run_get_image image im1 (set_predict_calls _ w1) Hl1).
  rewrite Hg1. rewrite run_bind. cbn [mret M_ret]. rewrite run_bind.
  assert (Hd1 : dict_heap (set_predict_calls
                             (λ l, l ++ [([VDict instance], parameters)]) w1) !! gp
                = Some (VDict bag)) by (cbn; rewrite Hdh; exact Hd).
  unfold dict_setitem. rewrite (run_bind_inr _ _ _ _ _ (run_get_dict _ _ _ Hd1)).
  cbn [modify]. rewrite run_bind.
  match goal with |- context [(if ?c then ?a else ?b) ?w0] =>
    assert (Hdec : ∃ data, (if c then a else b) w0 = (inr data, w0) ∨
                           ∃ e, (if c then a else b) w0 = (inl e, w0)) end.
  { destruct (py_bool (bytesBase64Encoded p)); [|eexists; left; reflexivity].
    rewrite run_bind.
    destruct (b64decode (default "" (bytesBase64Encoded p))) as [data|];
      [exists (Some data); left; reflexivity|exists None; right; eexists; reflexivity]. }
  destruct Hdec as (data & [Hdec|[e Hdec]]); rewrite Hdec; [|discriminate].
  intros Enew. pose proof (GeneratedImage_new_inr _ _ _ _ _ _ Enew) as Hne.
  rewrite (GeneratedImage_new_ok _ _ _ _ Hne) in Enew. injection Enew as <- <-.
  exists n. split; [reflexivity|].
  assert (Hlt : (gp < length (dict_heap w))%nat) by (eapply lookup_lt_Some, Hd).
  unfold bag_ref. cbn. rewrite Hdh.
  split; [|split; [|split; [|split; [|split]]]].
  - rewrite lookup_app_r by lia. rewrite Nat.sub_diag. reflexivity.
  - rewrite lookup_app_l by (eapply lookup_lt_Some, Hl1). rewrite Hl1. exact Hg1.
  - reflexivity.
  - apply list_lookup_insert_eq, Hlt.
  - intros key Hkey. apply lookup_insert_ne. congruence.
  - apply length_insert.
Qed.

End upscaled_parameters.

Section metadata_round_trip.
Context `{env : Environment}.

(** ** Saving and loading the generation parameters *)

(** What a successful [save] with the parameters did. *)
Lemma save_with_parameters_inr (self : ref) (location : string) (w w1 : world)
    (im : Image.t) (gp : ref) (parameters : value) :
  image_heap w !! self = Some im →
  Image._generation_parameters im = Some gp →
  dict_heap w !! gp = Some parameters →
  GeneratedImage_save self location true w = (inr tt, w1) →
  py_bool parameters = true ∧ PIL_installed = true ∧
  dict_heap w1 = dict_heap w ∧
  ∃ pim exif data,
    exif !! _EXIF_USER_COMMENT_TAG_IDX = Some (json_dumps (exif_document parameters)) ∧
    PIL_save pim location exif = inr data ∧
    files w1 !! location = Some data.
Proof.
  intros Hl Hg Hd. unfold GeneratedImage_save, generation_parameters.
  rewrite run_bind, (run_bind_inr _ _ _ _ _ (run_get_image _ _ _ Hl)), Hg.
  cbn [lift_option mret M_ret].
  rewrite (run_bind_inr _ _ _ _ _ (run_get_dict _ _ _ Hd)).
  destruct (py_bool parameters); [|discriminate]. cbn [negb].
  destruct PIL_installed; [|discriminate]. cbn [negb].
  rewrite run_bind.
  destruct (_pil_image self w) as [[e|pim] w0] eqn:Ep; [discriminate|].
  destruct (pil_image_frame _ _ _ _ Ep) as ((_ & Hdh & Hfs) & Hk).
  destruct (Hk im Hl) as (im0 & Hl0 & _).
  assert (Hd0 : dict_heap w0 !! gp = Some parameters) by (rewrite Hdh; exact Hd).
  rewrite (run_bind_inr _ _ _ _ _ (run_get_dict _ _ _ Hd0)).
  rewrite (run_bind_inr _ _ _ _ _ (run_get_image _ _ _ Hl0)).
  rewrite run_bind. cbn [put_image modify]. rewrite run_bind.
  match goal with |- context [PIL_save ?p location ?x] =>
    destruct (PIL_save p location x) as [e|data] eqn:Es; [discriminate|];
    set (pim' := p) in *; set (exif := x) in * end.
  cbn [lift_sum mret M_ret modify]. intros [= <-].
  split; [reflexivity|]. split; [reflexivity|]. split; [exact Hdh|].
  exists pim', exif, data. split; [apply lookup_insert_eq|]. split; [exact Es|].
  cbn. apply lookup_insert_eq.
Qed.

Lemma Image_load_from_local_file (location : string) (data : bytes) (w : world) :
  local_path location → files w !! location = Some data → data ≠ [] →
  Image_load_from_file location w =
    (inr (length (image_heap w)),
     set_image_heap (λ h, h ++ [Image.mk (Some data) None None None]) w).
Proof.
  intros (Hs & Hg & Hu) Hf Hne. unfold Image_load_from_file.
  rewrite Hs, Hg, Hu. rewrite run_bind, Hf.
  unfold Image_new, Image__init__.
  destruct data as [|b data]; [contradiction|]. reflexivity.
Qed.

(** Loading a file whose EXIF user comment is the JSON text of a
    parameter document. *)
Lemma load_with_parameters (location : string) (data : bytes) (pim : PIL_Image)
    (comment : string) (parameters : value) (w : world) :
  local_path location → PIL_installed = true →
  files w !! location = Some data → data ≠ [] →
  PIL_open data = Some pim →
  pil_exif pim !! _EXIF_USER_COMMENT_TAG_IDX = Some comment →
  json_loads comment = Some (exif_document parameters) →
  ∃ w2,
    GeneratedImage_load_from_file location w = (inr (S (length (image_heap w))), w2) ∧
    image_heap w2 !! S (length (image_heap w))
      = Some (Image.mk (Some data) None None (Some (length (dict_heap w)))) ∧
    dict_heap w2 = dict_heap w ++ [parameters].
Proof.
  intros Hloc Hpil Hf Hne Ho Hc Hj. unfold GeneratedImage_load_from_file.
  rewrite (run_bind_inr _ _ _ _ _ (Image_load_from_local_file _ _ _ Hloc Hf Hne)).
  set (base := length (image_heap w)).
  set (wa := set_image_heap (λ h, h ++ [Image.mk (Some data) None None None]) w).
  assert (Hla : image_heap wa !! base = Some (Image.mk (Some data) None None None)).
  { cbn. rewrite lookup_app_r by (unfold base; lia). unfold base.
    rewrite Nat.sub_diag. reflexivity. }
  set (wb := set_image_heap
               (λ h, <[base := Image.mk (Some data) (Some pim) None None]> h) wa).
  assert (Hp : _pil_image base wa = (inr pim, wb)).
  { unfold _pil_image. rewrite (run_bind_inr _ _ _ _ _ (run_get_image _ _ _ Hla)).
    cbn [Image._loaded_image]. rewrite Hpil.
    rewrite (run_bind_inr _ _ _ _ _ (cached_image_bytes _ _ _ _ Hla eq_refl)).
    rewrite Ho. cbn [lift_option]. rewrite run_bind. cbn [mret M_ret].
    rewrite (run_bind_inr _ _ _ _ _ (run_get_image _ _ _ Hla)). reflexivity. }
  rewrite (run_bind_inr _ _ _ _ _ Hp). rewrite Hc. cbn [lift_option].
  rewrite run_bind. cbn [mret M_ret]. rewrite Hj. cbn [lift_option].
  rewrite run_bind. cbn [mret M_ret]. unfold exif_document.
  rewrite lookup_singleton_eq. cbn [lift_option]. rewrite run_bind. cbn [mret M_ret].
  rewrite run_bind. cbn [new_dict].
  set (wc := set_dict_heap (λ h, h ++ [parameters]) wb).
  assert (Hlc : image_heap wc !! base = Some (Image.mk (Some data) (Some pim) None None)).
  { cbn. apply list_lookup_insert_eq. rewrite length_app. cbn. unfold base. lia. }
  rewrite (run_bind_inr _ _ _ _ _ (cached_image_bytes _ _ _ _ Hlc eq_refl)).
  rewrite (run_bind_inr _ _ _ _ _ (run_get_image _ _ _ Hlc)).
  cbn [Image._gcs_uri].
  assert (Hdata : py_bool (Some data) ≠ py_bool (None : option string)).
  { destruct data; [contradiction|discriminate]. }
  rewrite (GeneratedImage_new_ok _ _ _ _ Hdata).
  assert (Hlen : length (image_heap wc) = S (length (image_heap w))).
  { cbn. rewrite length_insert, length_app. cbn. lia. }
  rewrite Hlen. eexists. split; [reflexivity|]. split; [|reflexivity].
  cbn [image_heap set_image_heap]. rewrite lookup_app_r by (rewrite Hlen; lia).
  rewrite Hlen, Nat.sub_diag. reflexivity.
Qed.

(** C1, as the module has it. A [GeneratedImage] whose parameters are
    JSON-representable is saved with its generation parameters to a local
    path whose format holds EXIF data; loading that path gives a
    [GeneratedImage] whose generation parameters are equal to the original
    ones (held in a dictionary of its own). The saved parameters were not
    empty. *)
Theorem save_then_load_parameters (self : ref) (location : string) (w w1 : world)
    (im : Image.t) (gp : ref) (parameters : value) :
  PIL_keeps_comment_at location (json_dumps (exif_document parameters)) →
  local_path location →
  json_round_trips (exif_document parameters) →
  image_heap w !! self = Some im →
  Image._generation_parameters im = Some gp →
  dict_heap w !! gp = Some parameters →
  GeneratedImage_save self location true w = (inr tt, w1) →
  py_bool parameters = true ∧
  ∃ loaded w2 gp',
    GeneratedImage_load_from_file location w1 = (inr loaded, w2) ∧
    bag_ref w2 loaded = Some gp' ∧
    dict_heap w2 !! gp' = Some parameters ∧
    gp' ≠ gp ∧ dict_heap w2 !! gp = Some parameters.
Proof.
  intros Hpil Hloc Hjson Hl Hg Hd Hsave.
  destruct (save_with_parameters_inr _ _ _ _ _ _ _ Hl Hg Hd Hsave)
    as (Hne & Hinst & Hdh & pim & exif & data & Hex & Hs & Hf).
  split; [exact Hne|].
  destruct (Hpil _ _ _ Hex Hs) as (Hdata & pim' & Ho & Hc).
  destruct (load_with_parameters location data pim' _ parameters w1
              Hloc Hinst Hf Hdata Ho Hc Hjson) as (w2 & Hload & Himg & Hdh2).
  assert (Hlt : (gp < length (dict_heap w))%nat) by (eapply lookup_lt_Some, Hd).
  exists (S (length (image_heap w1))), w2, (length (dict_heap w1)).
  split; [exact Hload|]. unfold bag_ref. rewrite Himg, Hdh2, Hdh. cbn.
  split; [reflexivity|]. split; [|split].
  - rewrite lookup_app_r by lia. rewrite Nat.sub_diag. reflexivity.
  - lia.
  - rewrite lookup_app_l by lia. exact Hd.
Qed.

End metadata_round_trip.

(** * The properties on examples *)

(** ** The test double keeps its contract *)

Lemma Double_keeps_comment (location comment : string) :
  Double.stores_exif location = true →
  PIL_keeps_comment_at (H := Double.env) location comment.
Proof.
  intros Hexif pim exif data Hcomment. cbn [PIL_save PIL_open Double.env].
  unfold Double.save. rewrite Hexif, Hcomment.
  destruct (negb (Double.has_dot location)); [discriminate|].
  destruct (pil_size pim) as [width height].
  intros [= <-]. split; [discriminate|].
  eexists. split; [reflexivity|]. cbn [pil_exif].
  rewrite lookup_singleton_eq, string_of_list_byte_of_string. reflexivity.
Qed.

(** ** C1: the bag of the specification, saved and loaded *)

Lemma save_then_load_parameters_witness :
  py_bool (VDict cat_parameters) = true ∧
  ∃ loaded w2 gp',
    GeneratedImage_load_from_file (env := Double.env) "cat.png"
      (snd (GeneratedImage_save (env := Double.env) 0 "cat.png" true
              (generated_store cat_parameters)))
      = (inr loaded, w2) ∧
    bag_ref w2 loaded = Some gp' ∧
    dict_heap w2 !! gp' = Some (VDict cat_parameters) ∧
    gp' ≠ 0%nat ∧ dict_heap w2 !! 0%nat = Some (VDict cat_parameters).
Proof.
  apply (save_then_load_parameters (env := Double.env) 0 "cat.png"
           (generated_store cat_parameters) _
           (Image.mk (Some Double.picture_1024) None None (Some 0%nat)) 0
           (VDict cat_parameters)).
  - apply Double_keeps_comment. reflexivity.
  - repeat split.
  - vm_compute. reflexivity.
  - reflexivity.
  - reflexivity.
  - reflexivity.
  - vm_compute. reflexivity.
Defined.

(** Saved under a BMP name, the parameters are not in the file: [save]
    returns, and loading the file raises for the missing EXIF tag, so
    the claim C1 does not hold for every path. *)
Lemma parameters_lost_in_bmp :
  local_path (H := Double.env) "cat.bmp" ∧
  json_round_trips (H := Double.env) (exif_document (VDict cat_parameters)) ∧
  ∃ w1,
    GeneratedImage_save (env := Double.env) 0 "cat.bmp" true
      (generated_store cat_parameters) = (inr tt, w1) ∧
    fst (GeneratedImage_load_from_file (env := Double.env) "cat.bmp" w1)
      = inl (KeyError "37510") ∧
    ¬ ∃ loaded w2 gp',
        GeneratedImage_load_from_file (env := Double.env) "cat.bmp" w1 = (inr loaded, w2) ∧
        bag_ref w2 loaded = Some gp' ∧
        dict_heap w2 !! gp' = Some (VDict cat_parameters).
Proof.
  split; [repeat split|]. split; [vm_compute; reflexivity|].
  eexists. split; [vm_compute; reflexivity|].
  split; [vm_compute; reflexivity|].
  intros (loaded & w2 & gp' & Hload & _).
  apply (f_equal fst) in Hload. vm_compute in Hload. discriminate.
Qed.

(** The text in the EXIF user comment of the saved file. *)
Example saved_comment :
  json_dumps (Environment := Double.env) (exif_document (VDict cat_parameters)) =
  "{" +:+ Double.quoted _IMAGE_GENERATION_PARAMETERS_EXIF_KEY +:+ ": {"
      +:+ Double.quoted "seed" +:+ ": 7, "
      +:+ Double.quoted "prompt" +:+ ": " +:+ Double.quoted "cat" +:+ "}}".
Proof. vm_compute. reflexivity. Qed.

(** Without parameters to save, [save] raises. *)
Example save_without_parameters :
  GeneratedImage_save (env := Double.env) 0 "cat.png" true (generated_store ∅)
  = (inl MissingMetadataError_parameters, generated_store ∅).
Proof. vm_compute. reflexivity. Qed.

(** ** C3: three reads of a remote image, three reads of an inline one *)

Lemma resolved_bytes_fetched_once_witness :
  (∀ self w1,
     Image_new None (Some "gs://bucket/cat.png") empty_world
       = (inr self, w1) →
     ∃ u w', Some "gs://bucket/cat.png" = Some u ∧
       times 3 (_image_bytes (env := Double.env) self) w1 =
         (match gcs_blob (Environment := Double.env) u with
          | Some fetched => inr (replicate 3 fetched)
          | None => inl (StorageError (Some u))
          end, w') ∧
       gcs_fetches w' = gcs_fetches empty_world ++ [u]) ∧
  (∀ self w1,
     Video_new None (Some "gs://bucket/cat.png") empty_world
       = (inr self, w1) →
     ∃ u w', Some "gs://bucket/cat.png" = Some u ∧
       times 3 (_video_bytes (env := Double.env) self) w1 =
         (match gcs_blob (Environment := Double.env) u with
          | Some fetched => inr (replicate 3 fetched)
          | None => inl (StorageError (Some u))
          end, w') ∧
       gcs_fetches w' = gcs_fetches empty_world ++ [u]).
Proof.
  exact (resolved_bytes_fetched_once (env := Double.env) None
           (Some "gs://bucket/cat.png") 2 empty_world).
Defined.

Example remote_image_read_three_times :
  (self ← Image_new None (Some "gs://bucket/cat.png");
   times 3 (_image_bytes (env := Double.env) self)) empty_world
  = (inr [Double.picture_1024; Double.picture_1024; Double.picture_1024],
     mkWorld [Image.mk (Some Double.picture_1024) None (Some "gs://bucket/cat.png") None]
             [] [] ∅ ["gs://bucket/cat.png"] []).
Proof. vm_compute. reflexivity. Qed.

Example inline_image_read_three_times :
  (self ← Image_new (Some Double.picture_800) None;
   times 3 (_image_bytes (env := Double.env) self)) empty_world
  = (inr [Double.picture_800; Double.picture_800; Double.picture_800],
     store [Image.mk (Some Double.picture_800) None None None] [] []).
Proof. vm_compute. reflexivity. Qed.

(** A missing object is asked for once, and the read raises. *)
Example missing_object_read :
  (self ← Image_new None (Some "gs://bucket/none.png");
   times 3 (_image_bytes (env := Double.env) self)) empty_world
  = (inl (StorageError (Some "gs://bucket/none.png")),
     mkWorld [Image.mk None None (Some "gs://bucket/none.png") None]
             [] [] ∅ ["gs://bucket/none.png"] []).
Proof. vm_compute. reflexivity. Qed.

(** ** C5: three images for the prompt "x" *)

Lemma generated_images_in_order_witness :
  let predictions :=
    replicate 3 (mkPrediction (Some (string_of_list_byte Double.picture_1024)) None) in
  let shared : dict :=
    <["number_of_images_in_batch" := VInt 3]> {["prompt" := VStr "x"]} in
  (Forall (prediction_ok (H := Double.env)) predictions ↔
   ∃ response w',
     _generate_images (env := Double.env) "x" None 3 None None None None None None
       None None empty_world = (inr response, w')) ∧
  ∀ response w',
    _generate_images (env := Double.env) "x" None 3 None None None None None None
      None None empty_world = (inr response, w') →
    length (images response) = length predictions ∧
    (∀ i p, predictions !! i = Some p →
       ∃ r, images response !! i = Some r ∧
            item_of (H := Double.env) w' shared i p r) ∧
    (∀ i key d, bag_of_item shared i = VDict d →
       key ≠ "index_of_image_in_batch" → d !! key = shared !! key) ∧
    (∀ i j ri rj gi gj,
       i ≠ j →
       images response !! i = Some ri → images response !! j = Some rj →
       bag_ref w' ri = Some gi → bag_ref w' rj = Some gj →
       gi ≠ gj ∧
       ∀ key v w'',
         dict_setitem gi key v w' = (inr tt, w'') →
         dict_heap w'' !! gj = dict_heap w' !! gj ∧
         dict_heap w'' !! gi
           = Some (VDict (<[key := v]>
                            (<["index_of_image_in_batch" := VInt (Z.of_nat i)]> shared)))).
Proof.
  exact (generated_images_in_order (env := Double.env) "x" None 3 None None None None
           None None None None empty_world empty_world
           {["prompt" := VStr "x"]} {["sampleCount" := VInt 3]}
           (<["number_of_images_in_batch" := VInt 3]> {["prompt" := VStr "x"]})
           (replicate 3 (mkPrediction (Some (string_of_list_byte Double.picture_1024)) None))
           eq_refl eq_refl).
Defined.

Example three_generated_images :
  generate_images (env := Double.env) "x" None 3 None None None None empty_world
  = (inr (mkImageGenerationResponse [0; 1; 2]%nat),
     mkWorld
       [Image.mk (Some Double.picture_1024) None None (Some 0%nat);
        Image.mk (Some Double.picture_1024) None None (Some 1%nat);
        Image.mk (Some Double.picture_1024) None None (Some 2%nat)]
       []
       [VDict (<["index_of_image_in_batch" := VInt 0]>
                 (<["number_of_images_in_batch" := VInt 3]> {["prompt" := VStr "x"]}));
        VDict (<["index_of_image_in_batch" := VInt 1]>
                 (<["number_of_images_in_batch" := VInt 3]> {["prompt" := VStr "x"]}));
        VDict (<["index_of_image_in_batch" := VInt 2]>
                 (<["number_of_images_in_batch" := VInt 3]> {["prompt" := VStr "x"]}))]
       ∅ []
       [([VDict {["prompt" := VStr "x"]}], {["sampleCount" := VInt 3]})]).
Proof. vm_compute. reflexivity. Qed.

(** A prediction with neither bytes nor a URI makes the call raise. *)
Example prediction_without_content :
  generated_images_from (env := Double.env) ∅ 0 [mkPrediction None None] empty_world
  = (inl InvalidConstructionError_Image,
     store [] [] [VDict {["index_of_image_in_batch" := VInt 0]}]).
Proof. vm_compute. reflexivity. Qed.

(** ** C6 and C7: an inline image, a remote mask, an inline video *)

Lemma media_store_image_ready :
  Image_ready media_store 0 (Image.mk (Some Double.picture_1024) None None None).
Proof. split; [reflexivity|]. intros _. eexists. reflexivity. Qed.

Lemma media_store_mask_ready :
  Image_ready media_store 1 (Image.mk None None (Some "gs://bucket/mask.png") None).
Proof. split; [reflexivity|]. discriminate. Qed.

Lemma media_store_video_ready :
  Video_ready media_store 0 (Video.mk (Some [Byte.x00; Byte.x01]) None).
Proof. split; [reflexivity|]. intros _. eexists. reflexivity. Qed.

Lemma media_entries_have_one_key_witness :
  let im := Image.mk (Some Double.picture_1024) None None None in
  let mk := Image.mk None None (Some "gs://bucket/mask.png") None in
  let vo := Video.mk (Some [Byte.x00; Byte.x01]) None in
  one_media_key (entry_of_image (H := Double.env) im) ∧
  one_media_key (entry_of_video (H := Double.env) vo) ∧
  (py_bool (Image._gcs_uri im) = true →
     ∃ u, Image._gcs_uri im = Some u ∧
       entry_of_image (H := Double.env) im = {["gcsUri" := VStr u]}) ∧
  (py_bool (Image._gcs_uri im) = false →
     ∃ data, Image._loaded_bytes im = Some data ∧
       entry_of_image (H := Double.env) im
         = {["bytesBase64Encoded" := VStr (string_of_list_byte data)]}) ∧
  (py_bool (Video._gcs_uri vo) = true →
     ∃ u, Video._gcs_uri vo = Some u ∧
       entry_of_video (H := Double.env) vo = {["gcsUri" := VStr u]}) ∧
  (py_bool (Video._gcs_uri vo) = false →
     ∃ data, Video._loaded_bytes vo = Some data ∧
       entry_of_video (H := Double.env) vo
         = {["bytesBase64Encoded" := VStr (string_of_list_byte data)]}) ∧
  (∃ instance parameters shared,
     _generate_images_request (env := Double.env) "x" None 1 None None None None
       (Some 0%nat) (Some 1%nat) None None media_store
       = (inr (instance, parameters, shared), media_store) ∧
     instance !! "image" = Some (VDict (entry_of_image (H := Double.env) im)) ∧
     instance !! "mask"
       = Some (VDict {["image" := VDict (entry_of_image (H := Double.env) mk)]})) ∧
  (∀ instance parameters n w1,
     upscale_image_request (env := Double.env) 0 (Some 2048%Z) None media_store
       = (inr (instance, parameters, n), w1) →
     instance = <["image" := VDict (entry_of_image (H := Double.env) im)]>
                  {["prompt" := VStr ""]}) ∧
  (∃ parameters,
     get_captions_request (env := Double.env) 0 1 "en" None media_store
       = (inr ({["image" := VDict (entry_of_image (H := Double.env) im)]}, parameters),
          media_store)) ∧
  (∃ parameters,
     ask_question_request (env := Double.env) 0 "what?" 1 media_store
       = (inr (<["image" := VDict (entry_of_image (H := Double.env) im)]>
                 {["prompt" := VStr "what?"]}, parameters), media_store)) ∧
  (∃ instance parameters entry,
     get_embeddings_request (env := Double.env) (Some 0%nat) (Some 0%nat) None None
       (Some VideoSegmentConfig_default) media_store
       = (inr (instance, parameters), media_store) ∧
     instance !! "image" = Some (VDict (entry_of_image (H := Double.env) im)) ∧
     instance !! "video" = Some (VDict entry) ∧
     one_media_key entry ∧
     entry !! "gcsUri" = entry_of_video (H := Double.env) vo !! "gcsUri" ∧
     entry !! "bytesBase64Encoded"
       = entry_of_video (H := Double.env) vo !! "bytesBase64Encoded") ∧
  (* an edit without a mask *)
  (∃ instance parameters shared,
     _generate_images_request (env := Double.env) "x" None 1 None None None None
       (Some 0%nat) None None None media_store
       = (inr (instance, parameters, shared), media_store) ∧
     instance !! "image" = Some (VDict (entry_of_image (H := Double.env) im)) ∧
     instance !! "mask" = None) ∧
  (* the embedding of an image alone, and of a video alone *)
  (∃ instance parameters,
     get_embeddings_request (env := Double.env) (Some 0%nat) None None None
       (Some VideoSegmentConfig_default) media_store
       = (inr (instance, parameters), media_store) ∧
     instance !! "image" = Some (VDict (entry_of_image (H := Double.env) im)) ∧
     instance !! "video" = None) ∧
  (∃ instance parameters entry,
     get_embeddings_request (env := Double.env) None (Some 0%nat) None None
       (Some VideoSegmentConfig_default) media_store
       = (inr (instance, parameters), media_store) ∧
     instance !! "image" = None ∧
     instance !! "video" = Some (VDict entry) ∧
     one_media_key entry ∧
     entry !! "bytesBase64Encoded"
       = entry_of_video (H := Double.env) vo !! "bytesBase64Encoded").
Proof.
  intros im mk vo.
  destruct (media_entries_have_one_key (env := Double.env) media_store
              "x" None 1 None None None None None None (Some 2048%Z) 1 "en" "what?"
              None None (Some VideoSegmentConfig_default))
    as (Hentry & Hventry & Hgen & Hup & Hcap & Hemb).
  destruct (Hentry _ _ media_store_image_ready) as (Hkey & Hremote & Hinline).
  destruct (Hventry _ _ media_store_video_ready) as (Hvkey & Hvremote & Hvinline).
  destruct (Hcap _ _ media_store_image_ready) as (Hcaptions & Hquestion).
  split; [exact Hkey|]. split; [exact Hvkey|].
  split; [exact Hremote|]. split; [exact Hinline|].
  split; [exact Hvremote|]. split; [exact Hvinline|].
  split.
  { apply (Hgen (Some 0%nat) (Some 1%nat));
      [apply (images_ready_Some _ _ _ media_store_image_ready)
      |apply (images_ready_Some _ _ _ media_store_mask_ready)]. }
  split; [exact (Hup _ _ media_store_image_ready)|].
  split; [exact Hcaptions|]. split; [exact Hquestion|].
  split.
  { destruct (Hemb (Some 0%nat) (Some 0%nat)) as (instance & parameters & E & Hi & Hv).
    - intros (H & _). discriminate H.
    - apply (images_ready_Some _ _ _ media_store_image_ready).
    - apply (videos_ready_Some _ _ _ media_store_video_ready).
    - destruct Hv as (entry & Hv & Hone & Hsame).
      exists instance, parameters, entry. split; [exact E|]. split; [exact Hi|].
      split; [exact Hv|]. split; [exact Hone|].
      split; apply Hsame; discriminate. }
  split.
  { apply (Hgen (Some 0%nat) None);
      [apply (images_ready_Some _ _ _ media_store_image_ready)
      |apply images_ready_None]. }
  split.
  { destruct (Hemb (Some 0%nat) None) as (instance & parameters & E & Hi & _ & Hv).
    - intros (H & _). discriminate H.
    - apply (images_ready_Some _ _ _ media_store_image_ready).
    - apply videos_ready_None.
    - exists instance, parameters. split; [exact E|]. split; [exact Hi|exact Hv]. }
  destruct (Hemb None (Some 0%nat)) as (instance & parameters & E & Hi & Hv).
  - intros (_ & H & _). discriminate H.
  - apply images_ready_None.
  - apply (videos_ready_Some _ _ _ media_store_video_ready).
  - destruct Hv as (entry & Hv & Hone & Hsame).
    exists instance, parameters, entry. split; [exact E|]. split; [exact Hi|].
    split; [exact Hv|]. split; [exact Hone|]. apply Hsame. discriminate.
Defined.

(** The request of an edit with an inline base image and a remote mask. *)
Example edit_request :
  _generate_images_request (env := Double.env) "x" None 1 None None None None
    (Some 0%nat) (Some 1%nat) None None media_store
  = (inr (<["mask" := VDict {["image" := VDict {["gcsUri" := VStr "gs://bucket/mask.png"]}]}]>
            (<["image" := VDict {["bytesBase64Encoded" :=
                                    VStr (string_of_list_byte Double.picture_1024)]}]>
               {["prompt" := VStr "x"]}),
          {["sampleCount" := VInt 1]},
          <["mask_uri" := VStr "gs://bucket/mask.png"]>
            (<["base_image_hash" :=
                 VStr ("sha1:" +:+ string_of_list_byte Double.picture_1024)]>
               (<["number_of_images_in_batch" := VInt 1]> {["prompt" := VStr "x"]}))),
     media_store).
Proof. vm_compute. reflexivity. Qed.

(** The bag of the image an edit returns. *)
Example edited_image_parameters :
  (response ← edit_image (env := Double.env) "x" 0 (Some 1%nat) None 1 None None None None;
   item ← lift_sum (ImageGenerationResponse_getitem response 0);
   bag ← generation_parameters item;
   get_dict bag) media_store
  = (inr (VDict (<["index_of_image_in_batch" := VInt 0]>
                   (<["mask_uri" := VStr "gs://bucket/mask.png"]>
                      (<["base_image_hash" :=
                           VStr ("sha1:" +:+ string_of_list_byte Double.picture_1024)]>
                         (<["number_of_images_in_batch" := VInt 1]>
                            {["prompt" := VStr "x"]}))))),
     snd (edit_image (env := Double.env) "x" 0 (Some 1%nat) None 1 None None None None
            media_store)).
Proof. vm_compute. reflexivity. Qed.

Lemma base_image_and_mask_recorded_witness :
  ∃ instance parameters shared,
    _generate_images_request (env := Double.env) "x" None 1 None None None None
      (Some 0%nat) (Some 1%nat) None None media_store
      = (inr (instance, parameters, shared), media_store) ∧
    (∃ im, Image_ready media_store 0 im ∧
       if py_bool (Image._gcs_uri im)
       then ∃ uri, Image._gcs_uri im = Some uri ∧
              shared !! "base_image_uri" = Some (VStr uri) ∧
              shared !! "base_image_hash" = None ∧
              instance !! "image" = Some (VDict {["gcsUri" := VStr uri]})
       else ∃ data, Image._loaded_bytes im = Some data ∧
              shared !! "base_image_hash"
                = Some (VStr (sha1_hexdigest (Environment := Double.env) data)) ∧
              shared !! "base_image_uri" = None ∧
              instance !! "image"
                = Some (VDict {["bytesBase64Encoded" :=
                                  VStr (b64encode (Environment := Double.env) data)]})) ∧
    (∃ im, Image_ready media_store 1 im ∧
       if py_bool (Image._gcs_uri im)
       then ∃ uri, Image._gcs_uri im = Some uri ∧
              shared !! "mask_uri" = Some (VStr uri) ∧
              shared !! "mask_hash" = None ∧
              instance !! "mask"
                = Some (VDict {["image" := VDict {["gcsUri" := VStr uri]}]})
       else ∃ data, Image._loaded_bytes im = Some data ∧
              shared !! "mask_hash"
                = Some (VStr (sha1_hexdigest (Environment := Double.env) data)) ∧
              shared !! "mask_uri" = None ∧
              instance !! "mask"
                = Some (VDict {["image" :=
                      VDict {["bytesBase64Encoded" :=
                                VStr (b64encode (Environment := Double.env) data)]}]})) ∧
    ¬ (is_Some (shared !! "base_image_uri") ∧ is_Some (shared !! "base_image_hash")) ∧
    ¬ (is_Some (shared !! "mask_uri") ∧ is_Some (shared !! "mask_hash")).
Proof.
  exact (base_image_and_mask_recorded (env := Double.env) media_store
           (Some 0%nat) (Some 1%nat) "x" None 1 None None None None None None
           (images_ready_Some _ _ _ media_store_image_ready)
           (images_ready_Some _ _ _ media_store_mask_ready)).
Defined.

(** ** C8: 800x1024 to 2048, 800x800, and a target of 1024 *)

Lemma upscale_image_size_checks_witness :
  let inline (data : bytes) := store [Image.mk (Some data) None None None] [] [] in
  let sized (data : bytes) := snd (_size (env := Double.env) 0 (inline data)) in
  (* 800x1024 and 2048: accepted, the request is sent *)
  (∃ instance parameters n,
     Some 2048%Z = Some n ∧
     upscale_image_request (env := Double.env) 0 (Some 2048%Z) None
       (inline Double.picture_800x1024)
       = (inr (instance, parameters, n), sized Double.picture_800x1024) ∧
     parameters !! "sampleImageSize" = Some (VStr (pretty n)) ∧
     predict_calls (snd (upscale_image (env := Double.env) 0 (Some 2048%Z) None
                           (inline Double.picture_800x1024)))
       = predict_calls (inline Double.picture_800x1024)
           ++ [([VDict instance], parameters)]) ∧
  (* 800x800: refused, nothing was sent *)
  (upscale_image (env := Double.env) 0 (Some 2048%Z) None (inline Double.picture_800)
     = (inl UnsupportedSizeError_source, sized Double.picture_800) ∧
   predict_calls (sized Double.picture_800) = predict_calls (inline Double.picture_800)) ∧
  (* 1024x1024 and a target of 1024: refused, nothing was sent *)
  (upscale_image (env := Double.env) 0 (Some 1024%Z) None (inline Double.picture_1024)
     = (inl UnsupportedSizeError_target, sized Double.picture_1024) ∧
   predict_calls (sized Double.picture_1024) = predict_calls (inline Double.picture_1024)).
Proof.
  intros inline sized. split; [|split].
  - assert (Es : _size (env := Double.env) 0 (inline Double.picture_800x1024)
                 = (inr (800, 1024)%Z, sized Double.picture_800x1024))
      by (vm_compute; reflexivity).
    destruct (upscale_image_size_checks (env := Double.env) 0 (Some 2048%Z) None
                _ _ _ _ Es) as (_ & _ & Hok).
    destruct (Hok (or_intror eq_refl) (or_introl eq_refl)) as (_ & _ & Hsent).
    apply (Hsent (Image.mk (Some Double.picture_800x1024) None None None)).
    split; [reflexivity|]. intros _. eexists. reflexivity.
  - assert (Es : _size (env := Double.env) 0 (inline Double.picture_800)
                 = (inr (800, 800)%Z, sized Double.picture_800))
      by (vm_compute; reflexivity).
    destruct (upscale_image_size_checks (env := Double.env) 0 (Some 2048%Z) None
                _ _ _ _ Es) as (Hsource & _ & _).
    apply Hsource. split; discriminate.
  - assert (Es : _size (env := Double.env) 0 (inline Double.picture_1024)
                 = (inr (1024, 1024)%Z, sized Double.picture_1024))
      by (vm_compute; reflexivity).
    destruct (upscale_image_size_checks (env := Double.env) 0 (Some 1024%Z) None
                _ _ _ _ Es) as (_ & Htarget & _).
    apply Htarget; [left; reflexivity|split; discriminate].
Defined.

(** No target at all is refused as well. *)
Example upscale_without_target :
  fst (upscale_image (env := Double.env) 0 None None
         (store [Image.mk (Some Double.picture_1024) None None None] [] []))
  = inl UnsupportedSizeError_target.
Proof. vm_compute. reflexivity. Qed.

(** ** C9: upscaling a generated image, once and twice *)

(** The image was upscaled before: the earlier [upscaled_image_size] is
    not kept, so the claim C9 does not hold as stated. *)
Lemma earlier_upscaled_size_is_replaced :
  let bag : dict := <["upscaled_image_size" := VInt 2048]> {["prompt" := VStr "x"]} in
  ∃ r w' bag',
    upscale_image (env := Double.env) 0 (Some 4096%Z) None (generated_store bag)
      = (inr r, w') ∧
    bag_ref w' r = Some 0%nat ∧
    dict_heap w' !! 0%nat = Some (VDict bag') ∧
    ¬ (∀ key v, bag !! key = Some v → bag' !! key = Some v).
Proof.
  eexists _, _, _. split; [vm_compute; reflexivity|].
  split; [reflexivity|]. split; [reflexivity|].
  intros H. specialize (H "upscaled_image_size" (VInt 2048) eq_refl).
  vm_compute in H. discriminate.
Qed.

(** Upscaling one generated image twice: the second call changes the
    bag that the result of the first call holds too. *)
Example upscaled_twice :
  let bag : dict := {["prompt" := VStr "x"]} in
  (first ← upscale_image (env := Double.env) 0 (Some 2048%Z) None;
   second ← upscale_image (env := Double.env) 0 (Some 4096%Z) None;
   bag_of_first ← (first_bag ← generation_parameters first; get_dict first_bag);
   mret (first, second, bag_of_first)) (generated_store bag)
  = (inr (1%nat, 2%nat,
          VDict (<["upscaled_image_size" := VInt 4096]> {["prompt" := VStr "x"]})),
     snd ((upscale_image (env := Double.env) 0 (Some 2048%Z) None;;
           upscale_image (env := Double.env) 0 (Some 4096%Z) None)
            (generated_store bag))).
Proof. vm_compute. reflexivity. Qed.

Lemma upscale_augments_in_place_witness :
  ∃ n, Some 2048%Z = Some n ∧
    bag_ref (snd (upscale_image (env := Double.env) 0 (Some 2048%Z) None
                    (generated_store cat_parameters))) 1 = Some 0%nat ∧
    bag_ref (snd (upscale_image (env := Double.env) 0 (Some 2048%Z) None
                    (generated_store cat_parameters))) 0 = Some 0%nat ∧
    dict_heap (snd (upscale_image (env := Double.env) 0 (Some 2048%Z) None
                      (generated_store cat_parameters)))
      = <[0%nat := VDict (<["upscaled_image_size" := VInt n]> cat_parameters)]>
          (dict_heap (generated_store cat_parameters)) ∧
    dict_heap (snd (upscale_image (env := Double.env) 0 (Some 2048%Z) None
                      (generated_store cat_parameters))) !! 0%nat
      = Some (VDict (<["upscaled_image_size" := VInt n]> cat_parameters)) ∧
    (∀ key, key ≠ "upscaled_image_size" →
       (<["upscaled_image_size" := VInt n]> cat_parameters) !! key
         = cat_parameters !! key) ∧
    length (dict_heap (snd (upscale_image (env := Double.env) 0 (Some 2048%Z) None
                              (generated_store cat_parameters))))
      = length (dict_heap (generated_store cat_parameters)).
Proof.
  apply (upscale_augments_in_place (env := Double.env) 0 (Some 2048%Z) None
           (generated_store cat_parameters) _ 1
           (Image.mk (Some Double.picture_1024) None None (Some 0%nat)) 0 cat_parameters).
  - reflexivity.
  - reflexivity.
  - reflexivity.
  - vm_compute. reflexivity.
Defined.

(** ** C10: get_embeddings without input, with an empty text, with a text *)

Example embeddings_without_input :
  get_embeddings (env := Double.env) None None None None None empty_world
  = (inl MissingInputError, empty_world).
Proof. reflexivity. Qed.

Example embeddings_of_empty_text :
  get_embeddings (env := Double.env) None None (Some "") (Some 128%Z) None empty_world
  = (inl MissingInputError, empty_world).
Proof. reflexivity. Qed.

Example embeddings_of_text :
  get_embeddings (env := Double.env) None None (Some "Hello world") (Some 128%Z) None
    empty_world
  = (inr (mkMultiModalEmbeddingResponse
            [VDict {["textEmbedding" := VList [VInt 0]]}] None []
            (Some (VList [VInt 0]))),
     mkWorld [] [] [] ∅ []
       [([VDict {["text" := VStr "Hello world"]}], {["dimension" := VInt 128]})]).
Proof. vm_compute. reflexivity. Qed.

(** A segment configuration is sent under the video entry. *)
Example embeddings_of_video_segments :
  fst (get_embeddings_request (env := Double.env) None (Some 0%nat) None None
         (Some VideoSegmentConfig_default) media_store)
  = inr ({["video" :=
             VDict (<["videoSegmentConfig" :=
                        VDict (<["intervalSec" := VInt 16]>
                                 (<["endOffsetSec" := VInt 120]>
                                    {["startOffsetSec" := VInt 0]}))]>
                      {["bytesBase64Encoded" :=
                          VStr (string_of_list_byte [Byte.x00; Byte.x01])]})]}, ∅).
Proof. vm_compute. reflexivity. Qed.

(** * Tool contexts: the stack discipline *)

Section tool_contexts.
Context {E A : Type}.

Lemma last_snoc_string (s : list string) (x : string) : last (s ++ [x]) = Some x.
Proof. apply last_snoc. Qed.

Lemma pop_snoc (tool_context x : string) (s : list string) :
  telemetry._pop_tool_context (E := E) tool_context (s ++ [x]) =
    (if String.eqb x tool_context then inr tt else inl telemetry.tool_context_error, s).
Proof.
  unfold telemetry._pop_tool_context. rewrite last_snoc, removelast_last.
  destruct (String.eqb x tool_context); reflexivity.
Qed.

(** X17. [_pop_tool_context] removes the last context whether or not it
    is the expected one: on a match it returns, on a mismatch it raises
    the [RuntimeError] with the context already removed; on an empty list
    it raises [IndexError]. Right after [_append_tool_context] of the same
    name it restores the list. *)
Theorem pop_tool_context_cases (tool_context x : string) (s : list string) :
  telemetry._pop_tool_context (E := E) tool_context [] = (inl telemetry.IndexError, []) ∧
  telemetry._pop_tool_context (E := E) tool_context (s ++ [tool_context]) = (inr tt, s) ∧
  (x ≠ tool_context →
   telemetry._pop_tool_context (E := E) tool_context (s ++ [x])
     = (inl telemetry.tool_context_error, s)) ∧
  (telemetry._append_tool_context (E := E) tool_context;;
   telemetry._pop_tool_context tool_context) s = (inr tt, s).
Proof.
  split; [reflexivity|]. split; [|split].
  - rewrite pop_snoc, String.eqb_refl. reflexivity.
  - intros Hne. rewrite pop_snoc. apply String.eqb_neq in Hne. rewrite Hne. reflexivity.
  - unfold mbind, telemetry.T_bind, telemetry._append_tool_context.
    rewrite pop_snoc, String.eqb_refl. reflexivity.
Qed.

Lemma manager_run (tool_context : string) (body : telemetry.T E A) (s s' : list string)
    (outcome : telemetry.exc E + A) :
  body (s ++ [tool_context]) = (outcome, s') →
  telemetry.tool_context_manager tool_context body s =
    match telemetry._pop_tool_context (E := E) tool_context s' with
    | (inl e, s2) => (inl e, s2)
    | (inr _, s2) => (outcome, s2)
    end.
Proof.
  intros Hb. unfold telemetry.tool_context_manager, mbind, telemetry.T_bind,
    telemetry._append_tool_context, telemetry.try_finally.
  rewrite Hb. reflexivity.
Qed.

(** X18. Around a body that leaves the list of contexts as it found it,
    [tool_context_manager] leaves the list as it found it too, and the
    outcome is the outcome of the body run with the context appended: its
    value, or its exception. *)
Theorem tool_context_manager_restores (tool_context : string)
    (body : telemetry.T E A) :
  balanced body →
  balanced (telemetry.tool_context_manager tool_context body) ∧
  ∀ s, telemetry.tool_context_manager tool_context body s
       = (fst (body (s ++ [tool_context])), s).
Proof.
  intros Hb.
  assert (Hrun : ∀ s, telemetry.tool_context_manager tool_context body s
                      = (fst (body (s ++ [tool_context])), s)).
  { intros s. specialize (Hb (s ++ [tool_context])).
    destruct (body (s ++ [tool_context])) as [outcome s'] eqn:E1. cbn in Hb. subst s'.
    rewrite (manager_run _ _ _ _ _ E1), pop_snoc, String.eqb_refl. reflexivity. }
  split; [|exact Hrun]. intros s. rewrite Hrun. reflexivity.
Qed.

(** X19. Contexts nest: under two managers a balanced body runs with
    both contexts appended in order, and afterwards the list is as
    before. *)
Theorem tool_context_managers_nest (outer inner : string) (body : telemetry.T E A)
    (s : list string) :
  balanced body →
  telemetry.tool_context_manager outer (telemetry.tool_context_manager inner body) s
    = (fst (body (s ++ [outer; inner])), s).
Proof.
  intros Hb.
  destruct (tool_context_manager_restores inner body Hb) as [Hbi Hri].
  destruct (tool_context_manager_restores outer _ Hbi) as [_ Hro].
  rewrite Hro, Hri, <- app_assoc. reflexivity.
Qed.

(** X20. A body that leaves one more context [other] on the list: when
    [other] differs from the manager's context, the manager raises the
    [RuntimeError] in place of the outcome of the body (its value or its
    exception), and its own context stays on the list; when [other] has
    the same name, nothing is detected, the outcome of the body is kept,
    and the list stays one longer. *)
Theorem unbalanced_body (tool_context other : string) (body : telemetry.T E A)
    (s : list string) (outcome : telemetry.exc E + A) :
  body (s ++ [tool_context]) = (outcome, s ++ [tool_context; other]) →
  telemetry.tool_context_manager tool_context body s =
    (if String.eqb other tool_context then outcome else inl telemetry.tool_context_error,
     s ++ [tool_context]).
Proof.
  intros Hb. rewrite (manager_run _ _ _ _ _ Hb).
  replace (s ++ [tool_context; other]) with ((s ++ [tool_context]) ++ [other])
    by (rewrite <- app_assoc; reflexivity).
  rewrite pop_snoc. destruct (String.eqb other tool_context); reflexivity.
Qed.

End tool_contexts.

(** * Waiting for a job *)

Lemma wait_while_waiting (statuses rest : list job_polling.JobStatus)
    (t : job_polling.trace) :
  Forall waiting statuses →
  job_polling.wait_for_job (statuses ++ rest) t =
    job_polling.wait_for_job rest
      (job_polling.mkTrace (job_polling.sleeps t + length statuses)
                           (job_polling.job_info_calls t + length statuses)).
Proof.
  intros Hw. revert t. induction Hw as [|st sts Hst _ IH]; intros t.
  - cbn. rewrite !Nat.add_0_r. destruct t; reflexivity.
  - cbn [app job_polling.wait_for_job length].
    destruct Hst as [-> | ->]; rewrite IH; cbn; do 2 f_equal; lia.
Qed.

(** X21. The loop sleeps once per PENDING or RUNNING status and stops at
    the first other status, without reading further: on SUCCEEDED it
    ends normally; on FAILED or STOPPED it asks for the job once more (for
    its message) and raises. *)
Theorem wait_for_job_stops (statuses rest : list job_polling.JobStatus)
    (final : job_polling.JobStatus) (t : job_polling.trace) :
  Forall waiting statuses →
  (final = job_polling.SUCCEEDED →
   job_polling.wait_for_job (statuses ++ final :: rest) t =
     (job_polling.Left_loop,
      job_polling.mkTrace (job_polling.sleeps t + length statuses)
                          (job_polling.job_info_calls t + length statuses + 1))) ∧
  (failing final →
   job_polling.wait_for_job (statuses ++ final :: rest) t =
     (job_polling.Raised_RuntimeError,
      job_polling.mkTrace (job_polling.sleeps t + length statuses)
                          (job_polling.job_info_calls t + length statuses + 2))).
Proof.
  intros Hw. rewrite (wait_while_waiting _ _ _ Hw). split.
  - intros ->. cbn. do 2 f_equal. lia.
  - intros [-> | ->]; cbn; do 2 f_equal; lia.
Qed.

(** X22. The loop has no bound of its own: as long as the job is PENDING
    or RUNNING it keeps asking, one sleep per status. *)
Theorem wait_for_job_keeps_waiting (statuses : list job_polling.JobStatus)
    (t : job_polling.trace) :
  Forall waiting statuses →
  job_polling.wait_for_job statuses t =
    (job_polling.Still_waiting,
     job_polling.mkTrace (job_polling.sleeps t + length statuses)
                         (job_polling.job_info_calls t + length statuses)).
Proof.
  intros Hw. rewrite <- (app_nil_r statuses) at 1.
  rewrite (wait_while_waiting _ _ _ Hw). reflexivity.
Qed.

Section loaders.
Context `{env : Environment}.

(** * Loading and saving media *)

Lemma gs_is_not_https (location : string) :
  String.prefix "gs://" location = true →
  String.prefix "https://storage.googleapis.com/" location = false.
Proof.
  destruct location as [|c l]; [discriminate|].
  change (String.prefix "gs://" (String c l))
    with (if ascii_dec "g" c then String.prefix "s://" l else false).
  destruct (ascii_dec "g" c) as [<-|]; [reflexivity|discriminate].
Qed.

Lemma storage_url_to_gs (location : string) :
  String.prefix "https://storage.googleapis.com/" location = true →
  String.prefix "gs://"
    (str_replace (str_replace location "https://storage.googleapis.com/" "gs://")
                 "%20" " ") = true.
Proof.
  intros Hp. unfold str_replace at 2. destruct location as [|c l]; [discriminate|].
  cbn [replace_from]. rewrite Hp.
  generalize (replace_from "https://storage.googleapis.com/" "gs://"
                (String.length "https://storage.googleapis.com/" - 1) l).
  intros rest. unfold str_replace. cbv [append]. cbn.
  destruct (replace_from "%20" " " 0 rest); reflexivity.
Qed.

Lemma Image_new_remote (uri : string) (w : world) :
  String.prefix "gs://" uri = true →
  Image_new None (Some uri) w =
    (inr (length (image_heap w)),
     set_image_heap (λ h, h ++ [Image.mk None None (Some uri) None]) w).
Proof. destruct uri; [discriminate|]. reflexivity. Qed.


(** X1. A [gs://] location, and a public URL of storage.googleapis.com
    (rewritten to its [gs://] form, with [%20] read as a space), load as a
    remote reference: the new object has the URI and no bytes, and
    loading neither downloads nor reads a file. *)
Theorem load_from_cloud_storage (location : string) (w : world) :
  cloud_storage_location location →
  ∃ uri, String.prefix "gs://" uri = true ∧
    (String.prefix "gs://" location = true → uri = location) ∧
    (String.prefix "https://storage.googleapis.com/" location = true →
     uri = str_replace (str_replace location "https://storage.googleapis.com/" "gs://")
                       "%20" " ") ∧
    Image_load_from_file location w =
      (inr (length (image_heap w)),
       set_image_heap (λ h, h ++ [Image.mk None None (Some uri) None]) w) ∧
    gcs_fetches (snd (Image_load_from_file location w)) = gcs_fetches w ∧
    files (snd (Image_load_from_file location w)) = files w.
Proof.
  intros [Hg|Hs].
  - exists location. pose proof (gs_is_not_https _ Hg) as Hs.
    assert (Hrun : Image_load_from_file location w =
              (inr (length (image_heap w)),
               set_image_heap (λ h, h ++ [Image.mk None None (Some location) None]) w)).
    { unfold Image_load_from_file. rewrite Hs, Hg. apply Image_new_remote, Hg. }
    split; [exact Hg|]. split; [reflexivity|]. split; [rewrite Hs; discriminate|].
    split; [exact Hrun|]. rewrite Hrun. split; reflexivity.
  - set (uri := str_replace
                  (str_replace location "https://storage.googleapis.com/" "gs://")
                  "%20" " ").
    assert (Hrun : Image_load_from_file location w =
              (inr (length (image_heap w)),
               set_image_heap (λ h, h ++ [Image.mk None None (Some uri) None]) w)).
    { unfold Image_load_from_file. rewrite Hs, (storage_url_to_gs _ Hs).
      apply Image_new_remote, storage_url_to_gs, Hs. }
    exists uri. split; [apply (storage_url_to_gs _ Hs)|].
    split.
    { intros Hg. rewrite (gs_is_not_https _ Hg) in Hs. discriminate. }
    split; [reflexivity|]. split; [exact Hrun|]. rewrite Hrun. split; reflexivity.
Qed.

Lemma Image_new_inline (data : bytes) (w : world) :
  Image_new (Some data) None w =
    if py_bool data
    then (inr (length (image_heap w)),
          set_image_heap (λ h, h ++ [Image.mk (Some data) None None None]) w)
    else (inl InvalidConstructionError_Image, w).
Proof. destruct data; reflexivity. Qed.

Lemma Video_new_inline (data : bytes) (w : world) :
  Video_new (Some data) None w =
    if py_bool data
    then (inr (length (video_heap w)),
          set_video_heap (λ h, h ++ [Video.mk (Some data) None]) w)
    else (inl InvalidConstructionError_Video, w).
Proof. destruct data; reflexivity. Qed.

Lemma py_bool_bytes (data : bytes) : py_bool data = true ↔ data ≠ [].
Proof. destruct data; cbn; split; congruence. Qed.

Lemma load_from_url_run (location : string) (response : Response) (w : world) :
  url_location location → requests_get location = inr response →
  Image_load_from_file location w =
    if negb (resp_ok response) then (inl HTTPError, w)
    else match declared_length response with
         | inl e => (inl e, w)
         | inr n =>
             if (n >? 20 * 1024 * 1024)%Z then (inl SizeLimitExceeded, w)
             else if negb (str_in (default "" (resp_content_type response))
                                  _SUPPORTED_MIME_TYPES)
             then (inl UnsupportedMediaType, w)
             else Image_new (Some (resp_content response)) None w
         end.
Proof.
  intros (Hs & Hg & Hu) Hr. unfold Image_load_from_file. rewrite Hs, Hg, Hu.
  rewrite run_bind, Hr. cbn [lift_sum mret M_ret].
  destruct (negb (resp_ok response)); [reflexivity|].
  rewrite run_bind. fold (declared_length response).
  destruct (declared_length response) as [e|n]; [reflexivity|].
  cbn [lift_sum mret M_ret].
  destruct (n >? 20 * 1024 * 1024)%Z; [reflexivity|].
  destruct (negb (str_in _ _)); reflexivity.
Qed.

(** X2. A location with a scheme and a host, outside Cloud Storage, is
    fetched over HTTP. The load returns exactly when the response has a
    success status, a content-length header that [int] reads as at most
    20 MiB (no header counts as 0, whatever the size of the body), one of
    the four supported content types and a body that is not empty; the
    new object then holds the body inline. Otherwise the first failing
    check raises, in this order: the status, [int] on the header, the
    declared length, the content type (with a message that prints the
    set of types in the order of the run), the empty body; and the store
    is unchanged. *)
Theorem load_from_url (location : string) (w : world) :
  url_location location →
  (∀ r w', Image_load_from_file location w = (inr r, w') ↔
     ∃ response, requests_get location = inr response ∧ acceptable_response response ∧
       r = length (image_heap w) ∧
       w' = set_image_heap
              (λ h, h ++ [Image.mk (Some (resp_content response)) None None None]) w) ∧
  (∀ e, requests_get location = inl e → Image_load_from_file location w = (inl e, w)) ∧
  (∀ response, requests_get location = inr response →
     (resp_ok response = false →
      Image_load_from_file location w = (inl HTTPError, w)) ∧
     (resp_ok response = true →
      ∀ e, declared_length response = inl e →
      Image_load_from_file location w = (inl e, w)) ∧
     (resp_ok response = true →
      ∀ n, declared_length response = inr n → (n > 20 * 1024 * 1024)%Z →
      Image_load_from_file location w = (inl SizeLimitExceeded, w)) ∧
     (resp_ok response = true →
      ∀ n, declared_length response = inr n → (n ≤ 20 * 1024 * 1024)%Z →
      str_in (default "" (resp_content_type response)) _SUPPORTED_MIME_TYPES = false →
      Image_load_from_file location w = (inl UnsupportedMediaType, w)) ∧
     (resp_ok response = true →
      ∀ n, declared_length response = inr n → (n ≤ 20 * 1024 * 1024)%Z →
      str_in (default "" (resp_content_type response)) _SUPPORTED_MIME_TYPES = true →
      resp_content response = [] →
      Image_load_from_file location w = (inl InvalidConstructionError_Image, w))).
Proof.
  intros Hu. split; [|split].
  - intros r w'. split.
    + destruct (requests_get location) as [e|response] eqn:Hr.
      { destruct Hu as (Hs & Hg & Hp). unfold Image_load_from_file.
        rewrite Hs, Hg, Hp, run_bind, Hr. discriminate. }
      rewrite (load_from_url_run _ _ _ Hu Hr), Image_new_inline.
      destruct (resp_ok response) eqn:Hok; [|discriminate]. cbn [negb].
      destruct (declared_length response) as [e|n] eqn:Hn; [discriminate|].
      destruct (n >? 20 * 1024 * 1024)%Z eqn:Hlen; [discriminate|].
      destruct (str_in _ _) eqn:Hty; [|discriminate]. cbn [negb].
      destruct (py_bool (resp_content response)) eqn:Hb; [|discriminate].
      intros [= <- <-]. exists response. split; [reflexivity|].
      split; [|split; reflexivity].
      split; [exact Hok|]. split; [exists n; split; [exact Hn|lia]|].
      split; [exact Hty|]. apply py_bool_bytes, Hb.
    + intros (response & Hr & (Hok & (n & Hn & Hlen) & Hty & Hb) & -> & ->).
      rewrite (load_from_url_run _ _ _ Hu Hr), Image_new_inline, Hok, Hn, Hty.
      apply py_bool_bytes in Hb. rewrite Hb. cbn [negb].
      destruct (n >? 20 * 1024 * 1024)%Z eqn:E; [lia|reflexivity].
  - intros e Hr. destruct Hu as (Hs & Hg & Hp). unfold Image_load_from_file.
    rewrite Hs, Hg, Hp, run_bind, Hr. reflexivity.
  - intros response Hr. rewrite (load_from_url_run _ _ _ Hu Hr).
    split; [|split; [|split; [|split]]].
    + intros ->. reflexivity.
    + intros -> e ->. reflexivity.
    + intros -> n -> Hlen. cbn [negb].
      destruct (n >? 20 * 1024 * 1024)%Z eqn:E; [reflexivity|lia].
    + intros -> n -> Hlen ->. cbn [negb].
      destruct (n >? 20 * 1024 * 1024)%Z eqn:E; [lia|reflexivity].
    + intros -> n -> Hlen -> Hb. cbn [negb].
      destruct (n >? 20 * 1024 * 1024)%Z eqn:E; [lia|].
      rewrite Image_new_inline, Hb. reflexivity.
Qed.

Lemma load_local_run (location : string) (w : world) :
  local_path location →
  Image_load_from_file location w =
    match files w !! location with
    | None => (inl (FileNotFoundError location), w)
    | Some data => Image_new (Some data) None w
    end.
Proof.
  intros (Hs & Hg & Hu). unfold Image_load_from_file. rewrite Hs, Hg, Hu, run_bind.
  destruct (files w !! location); reflexivity.
Qed.

Lemma image_bytes_inr (self : ref) (data : bytes) (w w1 : world) :
  _image_bytes self w = (inr data, w1) →
  ∃ im1, image_heap w1 !! self = Some im1 ∧ Image._loaded_bytes im1 = Some data.
Proof.
  intros E. destruct (image_bytes_frame _ _ _ _ E) as (_ & Hk).
  assert (∃ im, image_heap w !! self = Some im) as [im Hl].
  { revert E. unfold _image_bytes, get_image. rewrite run_bind.
    destruct (image_heap w !! self); [eauto|discriminate]. }
  destruct (Hk im Hl) as (im1 & Hl1 & _ & _ & Hd). eauto.
Qed.

Lemma video_bytes_inr (self : ref) (data : bytes) (w w1 : world) :
  _video_bytes self w = (inr data, w1) →
  ∃ v1, video_heap w1 !! self = Some v1 ∧ Video._loaded_bytes v1 = Some data ∧
        files w1 = files w.
Proof.
  unfold _video_bytes, get_video. rewrite run_bind.
  destruct (video_heap w !! self) as [v|] eqn:Hl; [|discriminate].
  destruct (Video._loaded_bytes v) as [d|] eqn:Hd.
  { intros [= <- <-]. eauto. }
  rewrite run_bind. unfold download_as_bytes.
  destruct (Video._gcs_uri v) as [u|]; [|discriminate].
  rewrite run_bind. cbn [modify].
  destruct (gcs_blob u) as [d|]; cbn; [|discriminate].
  intros [= <- <-]. eexists. split.
  { cbn. apply list_lookup_insert_eq. eapply lookup_lt_Some, Hl. }
  split; reflexivity.
Qed.

(** X3. [Image.save] to a local path, then [Image.load_from_file] of that
    path: the file holds the bytes of the image, and loading it makes a
    new object, without a URI, whose bytes are those of the saved image,
    with no download for either object. The one exception is an image
    whose bytes are empty: its file is written, and loading it raises
    the construction error. *)
Theorem Image_save_then_load (self : ref) (location : string) (w w1 : world) :
  local_path location →
  Image_save self location w = (inr tt, w1) →
  ∃ data, files w1 !! location = Some data ∧
    _image_bytes self w1 = (inr data, w1) ∧
    if py_bool data
    then ∃ loaded w2,
           Image_load_from_file location w1 = (inr loaded, w2) ∧
           loaded ≠ self ∧
           image_heap w2 !! loaded = Some (Image.mk (Some data) None None None) ∧
           _image_bytes loaded w2 = (inr data, w2) ∧
           _image_bytes self w2 = (inr data, w2)
    else Image_load_from_file location w1 = (inl InvalidConstructionError_Image, w1).
Proof.
  intros Hp. unfold Image_save, write_bytes. rewrite run_bind.
  destruct (_image_bytes self w) as [[e|data] w0] eqn:Eb; [discriminate|].
  destruct (write_error location); [discriminate|].
  cbn [modify]. intros [= <-].
  destruct (image_bytes_inr _ _ _ _ Eb) as (im1 & Hl1 & Hd1).
  exists data. split; [cbn; apply lookup_insert_eq|].
  split; [eapply cached_image_bytes; [exact Hl1|exact Hd1]|].
  rewrite (load_local_run _ _ Hp). cbn [files set_files].
  rewrite lookup_insert_eq, Image_new_inline.
  destruct (py_bool data); [|reflexivity].
  do 2 eexists. split; [reflexivity|].
  pose proof (lookup_lt_Some _ _ _ Hl1) as Hlt. cbn [image_heap set_files].
  split; [lia|]. split.
  { cbn. rewrite lookup_app_r by lia. rewrite Nat.sub_diag. reflexivity. }
  split.
  - eapply cached_image_bytes;
      [cbn; rewrite lookup_app_r by lia; rewrite Nat.sub_diag; reflexivity|reflexivity].
  - eapply cached_image_bytes;
      [cbn; rewrite lookup_app_l by exact Hlt; exact Hl1|exact Hd1].
Qed.

(** X4. [Video.save], then [Video.load_from_file]: the same round trip
    for every location that does not start with [gs://]; a video has no
    URL branch, so an [http(s)] location is a file name here. *)
Theorem Video_save_then_load (self : ref) (location : string) (w w1 : world) :
  String.prefix "gs://" location = false →
  Video_save self location w = (inr tt, w1) →
  ∃ data, files w1 !! location = Some data ∧
    _video_bytes self w1 = (inr data, w1) ∧
    if py_bool data
    then ∃ loaded w2,
           Video_load_from_file location w1 = (inr loaded, w2) ∧
           loaded ≠ self ∧
           video_heap w2 !! loaded = Some (Video.mk (Some data) None) ∧
           _video_bytes loaded w2 = (inr data, w2) ∧
           _video_bytes self w2 = (inr data, w2)
    else Video_load_from_file location w1 = (inl InvalidConstructionError_Video, w1).
Proof.
  intros Hp. unfold Video_save, write_bytes. rewrite run_bind.
  destruct (_video_bytes self w) as [[e|data] w0] eqn:Eb; [discriminate|].
  destruct (write_error location); [discriminate|].
  cbn [modify]. intros [= <-].
  destruct (video_bytes_inr _ _ _ _ Eb) as (v1 & Hl1 & Hd1 & _).
  exists data. split; [cbn; apply lookup_insert_eq|].
  split; [eapply cached_video_bytes; [exact Hl1|exact Hd1]|].
  unfold Video_load_from_file. rewrite Hp, run_bind. cbn [files set_files].
  rewrite lookup_insert_eq, Video_new_inline.
  destruct (py_bool data); [|reflexivity].
  do 2 eexists. split; [reflexivity|].
  pose proof (lookup_lt_Some _ _ _ Hl1) as Hlt. cbn [video_heap set_files].
  split; [lia|]. split.
  { cbn. rewrite lookup_app_r by lia. rewrite Nat.sub_diag. reflexivity. }
  split.
  - eapply cached_video_bytes;
      [cbn; rewrite lookup_app_r by lia; rewrite Nat.sub_diag; reflexivity|reflexivity].
  - eapply cached_video_bytes;
      [cbn; rewrite lookup_app_l by exact Hlt; exact Hl1|exact Hd1].
Qed.

End loaders.

Section generated_files.
Context `{env : Environment}.

(** * Files of generated images *)

(** X5. [GeneratedImage.save] with the parameters checks the dictionary
    first and PIL second: an empty dictionary raises the error of the
    missing parameters whether or not PIL is there, PIL missing raises
    its own error, both before anything is read or written: the store is
    unchanged. A save that returns has passed both checks. Without the
    parameters neither check is made: the call is [Image.save]. *)
Theorem save_parameters_checks (self : ref) (location : string) (w : world)
    (im : Image.t) (gp : ref) (parameters : value) :
  image_heap w !! self = Some im →
  Image._generation_parameters im = Some gp →
  dict_heap w !! gp = Some parameters →
  (py_bool parameters = false →
   GeneratedImage_save self location true w = (inl MissingMetadataError_parameters, w)) ∧
  (py_bool parameters = true → PIL_installed = false →
   GeneratedImage_save self location true w = (inl MissingMetadataError_PIL, w)) ∧
  (∀ w1, GeneratedImage_save self location true w = (inr tt, w1) →
     py_bool parameters = true ∧ PIL_installed = true) ∧
  GeneratedImage_save self location false w = Image_save self location w.
Proof.
  intros Hl Hg Hd.
  split; [|split; [|split; [|reflexivity]]].
  - unfold GeneratedImage_save, generation_parameters.
    rewrite run_bind, (run_bind_inr _ _ _ _ _ (run_get_image _ _ _ Hl)), Hg.
    cbn [lift_option mret M_ret].
    rewrite (run_bind_inr _ _ _ _ _ (run_get_dict _ _ _ Hd)).
    intros ->. reflexivity.
  - unfold GeneratedImage_save, generation_parameters.
    rewrite run_bind, (run_bind_inr _ _ _ _ _ (run_get_image _ _ _ Hl)), Hg.
    cbn [lift_option mret M_ret].
    rewrite (run_bind_inr _ _ _ _ _ (run_get_dict _ _ _ Hd)).
    intros -> ->. reflexivity.
  - intros w1 Hsave.
    destruct (save_with_parameters_inr _ _ _ _ _ _ _ Hl Hg Hd Hsave) as (Hp & Hpil & _).
    split; assumption.
Qed.


Lemma image_bytes_fetches (self : ref) (w w1 : world) (r : exn + bytes) :
  _image_bytes self w = (r, w1) →
  gcs_fetches w1 = gcs_fetches w ∨ ∃ u, gcs_fetches w1 = gcs_fetches w ++ [u].
Proof.
  unfold _image_bytes, get_image. rewrite run_bind.
  destruct (image_heap w !! self) as [im|]; [|intros [= <- <-]; left; reflexivity].
  destruct (Image._loaded_bytes im); [intros [= <- <-]; left; reflexivity|].
  rewrite run_bind. unfold download_as_bytes.
  destruct (Image._gcs_uri im) as [u|]; [|intros [= <- <-]; left; reflexivity].
  rewrite run_bind. cbn [modify].
  destruct (gcs_blob u); cbn; intros [= <- <-]; right; exists u; reflexivity.
Qed.

Lemma pil_image_fetches (self : ref) (w w1 : world) (r : exn + PIL_Image) :
  _pil_image self w = (r, w1) →
  gcs_fetches w1 = gcs_fetches w ∨ ∃ u, gcs_fetches w1 = gcs_fetches w ++ [u].
Proof.
  unfold _pil_image. rewrite run_bind. unfold get_image at 1.
  destruct (image_heap w !! self) as [im|]; [|intros [= <- <-]; left; reflexivity].
  destruct (Image._loaded_image im); [intros [= <- <-]; left; reflexivity|].
  destruct PIL_installed; [|intros [= <- <-]; left; reflexivity].
  rewrite run_bind.
  destruct (_image_bytes self w) as [[e|data] w0] eqn:Eb;
    pose proof (image_bytes_fetches _ _ _ _ Eb) as Hf; [intros [= <- <-]; exact Hf|].
  rewrite run_bind.
  destruct (PIL_open data); cbn [lift_option mret M_ret raise];
    [|intros [= <- <-]; exact Hf].
  destruct (image_bytes_inr _ _ _ _ Eb) as (im1 & Hl1 & _).
  rewrite (run_bind_inr _ _ _ _ _ (run_get_image _ _ _ Hl1)).
  rewrite run_bind. cbn [put_image modify mret M_ret].
  intros [= <- <-]. exact Hf.
Qed.

(** X7. The decoded picture of an image is kept: when [_size] returns,
    any number of reads from the start return that same size and end in
    the same store, every further read leaves the store as it is, and
    all the reads together asked Cloud Storage at most once. *)
Theorem size_read_again (self : ref) (w w1 : world) (size : Z * Z) (n : nat) :
  _size self w = (inr size, w1) →
  times (S n) (_size self) w = (inr (replicate (S n) size), w1) ∧
  times n (_size self) w1 = (inr (replicate n size), w1) ∧
  (gcs_fetches w1 = gcs_fetches w ∨ ∃ u, gcs_fetches w1 = gcs_fetches w ++ [u]).
Proof.
  intros Es.
  pose proof (times_stable _ _ _ n (size_again _ _ _ _ Es)) as Hagain.
  split; [|split; [exact Hagain|]].
  - cbn [times]. rewrite (run_bind_inr _ _ _ _ _ Es).
    rewrite (run_bind_inr _ _ _ _ _ Hagain). reflexivity.
  - revert Es. unfold _size. rewrite run_bind.
    destruct (_pil_image self w) as [[e|pim] w0] eqn:Ep; [discriminate|].
    intros [= _ <-]. apply (pil_image_fetches _ _ _ _ Ep).
Qed.

End generated_files.

Section upscaled.
Context `{env : Environment}.

(** * More on upscale_image *)

Lemma decoded_outcome (encoded_bytes : option string) (w : world) :
  (if py_bool encoded_bytes
   then data ← lift_option Base64Error (b64decode (default "" encoded_bytes));
        mret (Some data)
   else mret None) w =
  (if py_bool encoded_bytes
   then match b64decode (default "" encoded_bytes) with
        | Some data => inr (Some data)
        | None => inl Base64Error
        end
   else inr None, w).
Proof.
  destruct (py_bool encoded_bytes); [|reflexivity]. rewrite run_bind.
  destruct (b64decode (default "" encoded_bytes)); reflexivity.
Qed.

(** X8. A successful [upscale_image] on an image that is not a
    [GeneratedImage] makes one new dictionary, [{upscaled_image_size: n}],
    for the returned image; the source image still has none. *)
Theorem upscale_plain_image (image : ref) (new_size : option Z)
    (output_gcs_uri : option string) (w w' : world) (r : ref) (im : Image.t) :
  image_heap w !! image = Some im →
  Image._generation_parameters im = None →
  upscale_image image new_size output_gcs_uri w = (inr r, w') →
  ∃ n, new_size = Some n ∧
    bag_ref w' r = Some (length (dict_heap w)) ∧
    dict_heap w' = dict_heap w ++ [VDict {["upscaled_image_size" := VInt n]}] ∧
    bag_ref w' image = None ∧ r ≠ image.
Proof.
  intros Hl Hg. unfold upscale_image. rewrite run_bind.
  destruct (upscale_image_request image new_size output_gcs_uri w)
    as [[e|[[instance parameters] n]] w1] eqn:Er; [discriminate|].
  destruct (upscale_request_frame _ _ _ _ _ _ _ _ Er) as (-> & (_ & Hdh & _) & Hk).
  destruct (Hk im Hl) as (im1 & Hl1 & _ & Hg1 & _). rewrite Hg in Hg1.
  unfold predict. rewrite !run_bind. cbn [modify].
  destruct (image_generation_endpoint [VDict instance] parameters) as [e|predictions];
    [discriminate|].
  cbn [lift_sum mret M_ret]. rewrite run_bind.
  destruct (predictions !! 0%nat) as [p|]; [|discriminate].
  cbn [lift_option mret M_ret].
  rewrite run_bind.
  rewrite (run_get_image image im1 (set_predict_calls _ w1) Hl1).
  rewrite Hg1. rewrite run_bind. cbn [new_dict]. rewrite run_bind.
  match goal with |- context [set_dict_heap _ (set_predict_calls ?g w1)] =>
    rewrite (setitem_new_dict ∅ "upscaled_image_size" (VInt n) (set_predict_calls g w1))
  end.
  rewrite run_bind, decoded_outcome.
  match goal with |- context [if ?c then ?a else ?b] =>
    destruct (if c then a else b) as [e|data]; [discriminate|] end.
  intros Enew. pose proof (GeneratedImage_new_inr _ _ _ _ _ _ Enew) as Hne.
  rewrite (GeneratedImage_new_ok _ _ _ _ Hne) in Enew. injection Enew as <- <-.
  exists n. split; [reflexivity|].
  pose proof (lookup_lt_Some _ _ _ Hl1) as Hlt.
  unfold bag_ref. cbn. rewrite Hdh.
  split; [|split; [|split]].
  - rewrite lookup_app_r by lia. rewrite Nat.sub_diag. reflexivity.
  - rewrite insert_empty. reflexivity.
  - rewrite lookup_app_l by exact Hlt. rewrite Hl1. exact Hg1.
  - lia.
Qed.

(** X9. What a failing [upscale_image] leaves behind, once the request
    of a [GeneratedImage] was sent. When the endpoint raises, or answers
    with no prediction ([IndexError]), the dictionaries are as before.
    When the first prediction cannot be made into an image, the call
    raises after the assignment: the dictionary of the source image has
    [upscaled_image_size] set although no image was returned. *)
Theorem failed_upscale (image : ref) (new_size : option Z)
    (output_gcs_uri : option string) (w w1 : world) (im : Image.t) (gp : ref)
    (bag instance parameters : dict) (n : Z) :
  image_heap w !! image = Some im →
  Image._generation_parameters im = Some gp →
  dict_heap w !! gp = Some (VDict bag) →
  upscale_image_request image new_size output_gcs_uri w
    = (inr (instance, parameters, n), w1) →
  (∀ e, image_generation_endpoint [VDict instance] parameters = inl e →
     upscale_image image new_size output_gcs_uri w
       = (inl e, after_predict instance parameters w1) ∧
     dict_heap w1 = dict_heap w) ∧
  (image_generation_endpoint [VDict instance] parameters = inr [] →
     upscale_image image new_size output_gcs_uri w
       = (inl IndexError, after_predict instance parameters w1) ∧
     dict_heap w1 = dict_heap w) ∧
  (∀ p rest, image_generation_endpoint [VDict instance] parameters = inr (p :: rest) →
     ¬ prediction_ok p →
     ∃ e w', upscale_image image new_size output_gcs_uri w = (inl e, w') ∧
       dict_heap w' = <[gp := VDict (<["upscaled_image_size" := VInt n]> bag)]> (dict_heap w) ∧
       dict_heap w' !! gp = Some (VDict (<["upscaled_image_size" := VInt n]> bag))).
Proof.
  intros Hl Hg Hd Er.
  destruct (upscale_request_frame _ _ _ _ _ _ _ _ Er) as (-> & (_ & Hdh & _) & Hk).
  destruct (Hk im Hl) as (im1 & Hl1 & _ & Hg1 & _). rewrite Hg in Hg1.
  unfold upscale_image. rewrite (run_bind_inr _ _ _ _ _ Er).
  unfold predict. rewrite !run_bind. cbn [modify].
  split; [|split].
  - intros e ->. split; [reflexivity|exact Hdh].
  - intros ->. split; [reflexivity|exact Hdh].
  - intros p rest -> Hbad. cbn [lift_sum mret M_ret]. rewrite run_bind.
    cbn [lookup list_lookup lift_option mret M_ret].
    rewrite run_bind.
    rewrite (run_get_image image im1 (set_predict_calls _ w1) Hl1).
    rewrite Hg1. rewrite run_bind. cbn [mret M_ret]. rewrite run_bind.
    assert (Hd1 : dict_heap (set_predict_calls
                               (λ l, l ++ [([VDict instance], parameters)]) w1) !! gp
                  = Some (VDict bag)) by (cbn; rewrite Hdh; exact Hd).
    unfold dict_setitem. rewrite (run_bind_inr _ _ _ _ _ (run_get_dict _ _ _ Hd1)).
    cbn [modify]. rewrite run_bind, decoded_outcome.
    assert (Hlt : (gp < length (dict_heap w))%nat) by (eapply lookup_lt_Some, Hd).
    destruct (py_bool (bytesBase64Encoded p)) eqn:Eb.
    + destruct (b64decode (default "" (bytesBase64Encoded p))) as [data|] eqn:Ed.
      * unfold GeneratedImage_new, GeneratedImage__init__, Image__init__.
        destruct (Bool.eqb (py_bool (Some data)) (py_bool (gcsUri p))) eqn:E.
        -- do 2 eexists. split; [reflexivity|]. cbn. rewrite Hdh.
           split; [reflexivity|apply list_lookup_insert_eq, Hlt].
        -- exfalso. apply Hbad. split; [rewrite Ed; eauto|].
           unfold inline_bytes. rewrite Eb, Ed. intros Heq.
           rewrite Heq, Bool.eqb_reflx in E. discriminate.
      * do 2 eexists. split; [reflexivity|]. cbn. rewrite Hdh.
        split; [reflexivity|apply list_lookup_insert_eq, Hlt].
    + unfold GeneratedImage_new, GeneratedImage__init__, Image__init__.
      destruct (Bool.eqb (py_bool (@None bytes)) (py_bool (gcsUri p))) eqn:E.
      * do 2 eexists. split; [reflexivity|]. cbn. rewrite Hdh.
        split; [reflexivity|apply list_lookup_insert_eq, Hlt].
      * exfalso. apply Hbad. split; [rewrite Eb; discriminate|].
        unfold inline_bytes. rewrite Eb. intros Heq.
        rewrite Heq, Bool.eqb_reflx in E. discriminate.
Qed.

End upscaled.

Section request_contents.
Context `{env : Environment}.

(** * More on the requests of generate_images and edit_image *)

(** The two blocks on the optional images change only their own keys. *)
Lemma image_block_keys (image : option ref) (instance shared instance1 shared1 : dict)
    (key uri_key hash_key : string) (wrap : dict → value) (w w1 : world) :
  match image with
  | Some image =>
      im ← get_image image;
      if py_bool (Image._gcs_uri im) then
        let uri := default "" (Image._gcs_uri im) in
        mret (<[key := wrap {["gcsUri" := VStr uri]}]> instance,
              <[uri_key := VStr uri]> shared)
      else
        s ← _as_base64_string image;
        data ← _image_bytes image;
        mret (<[key := wrap {["bytesBase64Encoded" := VStr s]}]> instance,
              <[hash_key := VStr (sha1_hexdigest data)]> shared)
  | None => mret (instance, shared)
  end w = (inr (instance1, shared1), w1) →
  (∀ k, k ≠ key → instance1 !! k = instance !! k) ∧
  (∀ k, k ≠ uri_key → k ≠ hash_key → shared1 !! k = shared !! k).
Proof.
  destruct image as [image|].
  2:{ intros [= <- <- <-]. split; reflexivity. }
  rewrite run_bind. destruct (get_image image w) as [[e|im] w0]; [discriminate|].
  destruct (py_bool (Image._gcs_uri im)).
  { intros [= <- <- <-]. split; intros; rewrite lookup_insert_ne by done; reflexivity. }
  rewrite run_bind. destruct (_as_base64_string image w0) as [[e|s] w2]; [discriminate|].
  rewrite run_bind. destruct (_image_bytes image w2) as [[e|data] w3]; [discriminate|].
  intros [= <- <- <-]. split; intros; rewrite lookup_insert_ne by done; reflexivity.
Qed.

Ltac request_blocks Hi1 Hs1 Hi2 Hs2 :=
  unfold _generate_images_request; rewrite run_bind;
  match goal with |- context [match ?m ?w0 with _ => _ end] =>
    destruct (m w0) as [[?|[?i1 ?s1]] ?w1] eqn:?E1; [discriminate|];
    match goal with E : m w0 = _ |- _ =>
      destruct (image_block_keys _ _ _ _ _ "image" "base_image_uri" "base_image_hash"
                  VDict _ _ E) as [Hi1 Hs1]; clear E end
  end;
  rewrite run_bind;
  match goal with |- context [match ?m ?w0 with _ => _ end] =>
    destruct (m w0) as [[?|[?i2 ?s2]] ?w2] eqn:?E2; [discriminate|];
    match goal with E : m w0 = _ |- _ =>
      destruct (image_block_keys _ _ _ _ _ "mask" "mask_uri" "mask_hash"
                  (λ e, VDict {["image" := VDict e]}) _ _ E) as [Hi2 Hs2]; clear E end
  end.

(** X10. The size keys of a generation request: [sampleCount] is always
    there; [sampleImageSize] is the larger of width and height, as text,
    when that is not 0; [aspectRatio] is there exactly when both width
    and height are given, differ, and the larger is not 0. Called
    without width and height, as [generate_images] and [edit_image] do,
    the request has neither key. The sizes are never recorded in the
    shared generation parameters. *)
Theorem generation_size_keys (prompt : string)
    (negative_prompt : option string) (number_of_images : Z)
    (width height : option Z) (guidance_scale : option float)
    (seed : option Z) (base_image mask : option ref)
    (language output_gcs_uri : option string) (w w1 : world)
    (instance parameters shared : dict) :
  _generate_images_request prompt negative_prompt number_of_images width height
    guidance_scale seed base_image mask language output_gcs_uri w
    = (inr (instance, parameters, shared), w1) →
  let max_size := Z.max (default 0%Z width) (default 0%Z height) in
  parameters !! "sampleCount" = Some (VInt number_of_images) ∧
  parameters !! "sampleImageSize" =
    (if py_bool max_size then Some (VStr (pretty max_size)) else None) ∧
  parameters !! "aspectRatio" =
    match height, width with
    | Some h, Some wd =>
        if py_bool max_size && negb (h =? wd)%Z
        then Some (VStr (pretty wd +:+ ":" +:+ pretty h)) else None
    | _, _ => None
    end ∧
  (width = None → height = None →
   parameters !! "sampleImageSize" = None ∧ parameters !! "aspectRatio" = None) ∧
  shared !! "width" = None ∧ shared !! "height" = None ∧
  shared !! "sampleImageSize" = None ∧ shared !! "aspectRatio" = None.
Proof.
  request_blocks Hi1 Hs1 Hi2 Hs2.
  match goal with |- context [if py_bool (Z.max ?a ?b) then ?x else ?y] =>
    set (sp := if py_bool (Z.max a b) then x else y);
    assert (Hsp : ∀ k, k ≠ "sampleImageSize" → k ≠ "aspectRatio" → sp !! k = None);
    [ subst sp; intros k Hk1 Hk2; destruct (py_bool (Z.max a b)); [|reflexivity];
      destruct height as [h|], width as [wd|];
      try destruct (negb (h =? wd)%Z);
      rewrite ?lookup_insert_ne by done; reflexivity
    | assert (Hsize : sp !! "sampleImageSize" =
                if py_bool (Z.max a b) then Some (VStr (pretty (Z.max a b))) else None);
      [ subst sp; destruct (py_bool (Z.max a b)); [|reflexivity];
        destruct height as [h|], width as [wd|];
        try destruct (negb (h =? wd)%Z);
        rewrite ?lookup_insert_ne by done; rewrite ?lookup_insert_eq; reflexivity
      | assert (Hratio : sp !! "aspectRatio" =
                  match height, width with
                  | Some h, Some wd =>
                      if py_bool (Z.max a b) && negb (h =? wd)%Z
                      then Some (VStr (pretty wd +:+ ":" +:+ pretty h)) else None
                  | _, _ => None
                  end);
        [ subst sp; destruct (py_bool (Z.max a b));
          destruct height as [h|], width as [wd|]; try reflexivity;
          cbn [andb]; destruct (negb (h =? wd)%Z);
          rewrite ?lookup_insert_eq; rewrite ?lookup_insert_ne by done; reflexivity
        | clearbody sp ] ] ]
  end.
  assert (Hshared : ∀ k, k ≠ "base_image_uri" → k ≠ "base_image_hash" →
            k ≠ "mask_uri" → k ≠ "mask_hash" → k ≠ "prompt" →
            k ≠ "number_of_images_in_batch" → s2 !! k = None).
  { intros k ? ? ? ? ? ?. rewrite Hs2, Hs1 by done.
    rewrite !lookup_insert_ne by done. apply lookup_singleton_ne. congruence. }
  clear Hi1 Hs1 Hi2 Hs2.
  cbn [mret M_ret].
  destruct negative_prompt as [[|]|], seed, guidance_scale, language, output_gcs_uri;
    cbn [py_bool PyBool_option PyBool_string default];
    intros [= <- <- <- <-]; cbv zeta;
    (split; [rewrite ?lookup_insert_ne by discriminate; apply lookup_insert_eq|]);
    (split; [rewrite ?lookup_insert_ne by discriminate; exact Hsize|]);
    (split; [rewrite ?lookup_insert_ne by discriminate; exact Hratio|]);
    (split; [intros -> ->; rewrite ?lookup_insert_ne by discriminate;
             rewrite Hsize, Hratio; split; reflexivity|]);
    repeat split; rewrite ?lookup_insert_ne by discriminate; apply Hshared; discriminate.
Qed.

(** X11. The shared generation parameters mirror the request: the prompt
    of the instance, and under their snake-case names the values of
    [sampleCount], [negativePrompt], [seed], [guidanceScale], [language]
    and [storageUri], each present in the one exactly when it is in the
    other. *)
Theorem shared_parameters_mirror_request (prompt : string)
    (negative_prompt : option string) (number_of_images : Z)
    (width height : option Z) (guidance_scale : option float)
    (seed : option Z) (base_image mask : option ref)
    (language output_gcs_uri : option string) (w w1 : world)
    (instance parameters shared : dict) :
  _generate_images_request prompt negative_prompt number_of_images width height
    guidance_scale seed base_image mask language output_gcs_uri w
    = (inr (instance, parameters, shared), w1) →
  instance !! "prompt" = Some (VStr prompt) ∧
  shared !! "prompt" = Some (VStr prompt) ∧
  shared !! "number_of_images_in_batch" = parameters !! "sampleCount" ∧
  shared !! "negative_prompt" = parameters !! "negativePrompt" ∧
  shared !! "seed" = parameters !! "seed" ∧
  shared !! "guidance_scale" = parameters !! "guidanceScale" ∧
  shared !! "language" = parameters !! "language" ∧
  shared !! "storage_uri" = parameters !! "storageUri".
Proof.
  request_blocks Hi1 Hs1 Hi2 Hs2.
  match goal with |- context [if py_bool (Z.max ?a ?b) then ?x else ?y] =>
    set (sp := if py_bool (Z.max a b) then x else y);
    assert (Hsp : ∀ k, k ≠ "sampleImageSize" → k ≠ "aspectRatio" → sp !! k = None);
    [ subst sp; intros k Hk1 Hk2; destruct (py_bool (Z.max a b)); [|reflexivity];
      destruct height as [h|], width as [wd|];
      try destruct (negb (h =? wd)%Z);
      rewrite ?lookup_insert_ne by done; reflexivity
    | clearbody sp ]
  end.
  assert (Hinstance : i2 !! "prompt" = Some (VStr prompt)).
  { rewrite Hi2, Hi1 by done. apply lookup_singleton_eq. }
  assert (Hprompt : s2 !! "prompt" = Some (VStr prompt)).
  { rewrite Hs2, Hs1 by done. rewrite lookup_insert_ne by done. apply lookup_singleton_eq. }
  assert (Hnumber : s2 !! "number_of_images_in_batch" = Some (VInt number_of_images)).
  { rewrite Hs2, Hs1 by done. apply lookup_insert_eq. }
  assert (Hshared : ∀ k, k ≠ "base_image_uri" → k ≠ "base_image_hash" →
            k ≠ "mask_uri" → k ≠ "mask_hash" → k ≠ "prompt" →
            k ≠ "number_of_images_in_batch" → s2 !! k = None).
  { intros k ? ? ? ? ? ?. rewrite Hs2, Hs1 by done.
    rewrite !lookup_insert_ne by done. apply lookup_singleton_ne. congruence. }
  clear Hi1 Hs1 Hi2 Hs2.
  cbn [mret M_ret].
  destruct negative_prompt as [[|]|], seed, guidance_scale, language, output_gcs_uri;
    cbn [py_bool PyBool_option PyBool_string default];
    intros [= <- <- <- <-];
    (split; [exact Hinstance|]);
    repeat split;
    rewrite ?lookup_insert_ne by discriminate; rewrite ?lookup_insert_eq;
    rewrite ?lookup_insert_ne by discriminate; rewrite ?lookup_insert_eq;
    rewrite ?Hprompt, ?Hnumber; rewrite ?Hsp by discriminate; rewrite ?Hshared by discriminate;
    reflexivity.
Qed.

End request_contents.

Section remote_calls.
Context `{env : Environment}.

(** * Remote calls of the model methods *)

Create HintDb no_calls discriminated.
#[local] Hint Resolve keeps_calls_ret keeps_calls_raise keeps_calls_lift_option
  keeps_calls_lift_sum keeps_calls_get_image keeps_calls_get_dict keeps_calls_new_dict
  keeps_calls_new_image keeps_calls_dict_setitem keeps_calls_GeneratedImage_new
  keeps_calls_decoded keeps_calls_generated_images_from : no_calls.

Ltac calls_steps :=
  repeat (apply keeps_calls_bind; [auto with no_calls | intros ?]); auto with no_calls.

Lemma keeps_calls_of_frame {A} (m : M A) :
  (∀ w w1 r, m w = (r, w1) → only_images_touched w w1) → keeps_calls m.
Proof.
  intros Hf w. destruct (m w) as [r w1] eqn:E. destruct (Hf _ _ _ E) as (Hc & _).
  exact Hc.
Qed.

Lemma keeps_calls_image_bytes (self : ref) : keeps_calls (_image_bytes self).
Proof. apply keeps_calls_of_frame. intros w w1 r E. apply (image_bytes_frame _ _ _ _ E). Qed.

Lemma keeps_calls_size (self : ref) : keeps_calls (_size self).
Proof. apply keeps_calls_of_frame. intros w w1 r E. apply (size_frame _ _ _ _ E). Qed.

Lemma keeps_calls_image_entry (image : ref) : keeps_calls (image_entry image).
Proof. apply keeps_calls_of_frame. intros w w1 r E. apply (image_entry_frame _ _ _ _ E). Qed.

Lemma keeps_calls_as_base64_string (self : ref) : keeps_calls (_as_base64_string self).
Proof.
  unfold _as_base64_string. apply keeps_calls_bind; [apply keeps_calls_image_bytes|].
  intros data. apply keeps_calls_ret.
Qed.

Lemma keeps_calls_video_entry (video : ref) : keeps_calls (video_entry video).
Proof.
  intros w. unfold video_entry, get_video. rewrite run_bind.
  destruct (video_heap w !! video) as [v|]; [|reflexivity].
  destruct (py_bool (Video._gcs_uri v)); [reflexivity|].
  unfold Video_as_base64_string, _video_bytes, get_video. rewrite !run_bind.
  destruct (video_heap w !! video) as [v'|]; [|reflexivity].
  destruct (Video._loaded_bytes v'); [reflexivity|].
  rewrite run_bind. unfold download_as_bytes.
  destruct (Video._gcs_uri v') as [u|]; [|reflexivity].
  rewrite run_bind. cbn [modify]. destruct (gcs_blob u); reflexivity.
Qed.

#[local] Hint Resolve keeps_calls_image_bytes keeps_calls_size keeps_calls_image_entry
  keeps_calls_as_base64_string keeps_calls_video_entry : no_calls.

Lemma keeps_calls_image_block (image : option ref) (instance shared : dict)
    (key uri_key hash_key : string) (wrap : dict → value) :
  keeps_calls
    match image with
    | Some image =>
        im ← get_image image;
        if py_bool (Image._gcs_uri im) then
          let uri := default "" (Image._gcs_uri im) in
          mret (<[key := wrap {["gcsUri" := VStr uri]}]> instance,
                <[uri_key := VStr uri]> shared)
        else
          s ← _as_base64_string image;
          data ← _image_bytes image;
          mret (<[key := wrap {["bytesBase64Encoded" := VStr s]}]> instance,
                <[hash_key := VStr (sha1_hexdigest data)]> shared)
    | None => mret (instance, shared)
    end.
Proof.
  destruct image as [image|]; [|auto with no_calls].
  apply keeps_calls_bind; [auto with no_calls|]. intros im.
  destruct (py_bool (Image._gcs_uri im)); calls_steps.
Qed.

Lemma keeps_calls_generate_images_request (prompt : string)
    (negative_prompt : option string) (number_of_images : Z)
    (width height : option Z) (guidance_scale : option float)
    (seed : option Z) (base_image mask : option ref)
    (language output_gcs_uri : option string) :
  keeps_calls (_generate_images_request prompt negative_prompt number_of_images
                 width height guidance_scale seed base_image mask language output_gcs_uri).
Proof.
  unfold _generate_images_request.
  apply keeps_calls_bind;
    [apply (keeps_calls_image_block _ _ _ "image" "base_image_uri" "base_image_hash" VDict)|].
  intros [i1 s1].
  apply keeps_calls_bind;
    [apply (keeps_calls_image_block _ _ _ "mask" "mask_uri" "mask_hash"
              (λ e, VDict {["image" := VDict e]}))|].
  intros [i2 s2] w0.
  destruct (py_bool negative_prompt), seed, guidance_scale, language, output_gcs_uri;
    reflexivity.
Qed.

Lemma keeps_calls_upscale_image_request (image : ref) (new_size : option Z)
    (output_gcs_uri : option string) :
  keeps_calls (upscale_image_request image new_size output_gcs_uri).
Proof.
  unfold upscale_image_request.
  apply keeps_calls_bind; [auto with no_calls|]. intros size.
  apply keeps_calls_bind.
  { destruct (negb (fst size =? 1024)%Z); calls_steps. }
  intros [|]; [auto with no_calls|].
  destruct new_size as [n|]; [|auto with no_calls].
  destruct (negb (Z_in n _SUPPORTED_UPSCALING_SIZES)); calls_steps.
Qed.

Lemma keeps_calls_get_captions_request (image : ref) (number_of_results : Z)
    (language : string) (output_gcs_uri : option string) :
  keeps_calls (get_captions_request image number_of_results language output_gcs_uri).
Proof. unfold get_captions_request. calls_steps. Qed.

Lemma keeps_calls_ask_question_request (image : ref) (question : string)
    (number_of_results : Z) :
  keeps_calls (ask_question_request image question number_of_results).
Proof. unfold ask_question_request. calls_steps. Qed.

Lemma keeps_calls_get_embeddings_request (image video : option ref)
    (contextual_text : option string) (dimension : option Z)
    (cfg : option VideoSegmentConfig) :
  keeps_calls (get_embeddings_request image video contextual_text dimension cfg).
Proof.
  unfold get_embeddings_request.
  destruct (negb (object_bool image) && negb (object_bool video)
            && negb (py_bool contextual_text)); [auto with no_calls|].
  apply keeps_calls_bind; [destruct image; calls_steps|]. intros i1.
  apply keeps_calls_bind; [destruct video; calls_steps|]. intros i2.
  auto with no_calls.
Qed.

(** The run of a method up to its remote call. *)
Lemma calls_once_built_intro {R A} (request : M R) (sent : R → dict * dict)
    (method : M A) :
  keeps_calls request →
  (∀ w e w1, request w = (inl e, w1) → method w = (inl e, w1)) →
  (∀ w x w1, request w = (inr x, w1) →
     predict_calls (snd (method w))
       = predict_calls w1 ++ [([VDict (sent x).1], (sent x).2)]) →
  calls_once_built request sent method.
Proof.
  intros Hk Hfail Hsent w. specialize (Hk w).
  destruct (request w) as [[e|x] w1] eqn:Er; cbn [snd] in Hk.
  - split; [apply (Hfail _ _ _ Er)|exact Hk].
  - split; [exact Hk|]. rewrite <- Hk. apply (Hsent _ _ _ Er).
Qed.

Lemma generate_images_calls_once (prompt : string)
    (negative_prompt : option string) (number_of_images : Z)
    (width height : option Z) (guidance_scale : option float)
    (seed : option Z) (base_image mask_image : option ref)
    (language output_gcs_uri : option string) :
  calls_once_built
    (_generate_images_request prompt negative_prompt number_of_images width height
       guidance_scale seed base_image mask_image language output_gcs_uri)
    (λ request, (request.1.1, request.1.2))
    (_generate_images prompt negative_prompt number_of_images width height
       guidance_scale seed base_image mask_image language output_gcs_uri).
Proof.
  apply calls_once_built_intro.
  - apply keeps_calls_generate_images_request.
  - intros w e w1 Er. unfold _generate_images. apply (run_bind_inl _ _ _ _ _ Er).
  - intros w [[instance parameters] shared] w1 Er. unfold _generate_images.
    rewrite (run_bind_inr _ _ _ _ _ Er).
    apply predict_then. intros predictions. calls_steps.
Qed.

(** X12. Every method of the models builds its request without a remote
    call and then makes exactly one, with exactly one instance: the
    instance and the parameters of the request it built, whatever the
    endpoint answers and however the call ends after that, also when
    the response fails to decode. When the request cannot be built the
    method raises what the request raised and no call was made. *)
Theorem model_methods_call_once :
  (∀ prompt negative_prompt number_of_images width height guidance_scale seed
     base_image mask_image language output_gcs_uri,
     calls_once_built
       (_generate_images_request prompt negative_prompt number_of_images width height
          guidance_scale seed base_image mask_image language output_gcs_uri)
       (λ request, (request.1.1, request.1.2))
       (_generate_images prompt negative_prompt number_of_images width height
          guidance_scale seed base_image mask_image language output_gcs_uri)) ∧
  (∀ prompt negative_prompt number_of_images guidance_scale language seed output_gcs_uri,
     calls_once_built
       (_generate_images_request prompt negative_prompt number_of_images None None
          guidance_scale seed None None language output_gcs_uri)
       (λ request, (request.1.1, request.1.2))
       (generate_images prompt negative_prompt number_of_images guidance_scale
          language seed output_gcs_uri)) ∧
  (∀ prompt base_image mask_image negative_prompt number_of_images guidance_scale
     language seed output_gcs_uri,
     calls_once_built
       (_generate_images_request prompt negative_prompt number_of_images None None
          guidance_scale seed (Some base_image) mask_image language output_gcs_uri)
       (λ request, (request.1.1, request.1.2))
       (edit_image prompt base_image mask_image negative_prompt number_of_images
          guidance_scale language seed output_gcs_uri)) ∧
  (∀ image new_size output_gcs_uri,
     calls_once_built
       (upscale_image_request image new_size output_gcs_uri)
       (λ request, (request.1.1, request.1.2))
       (upscale_image image new_size output_gcs_uri)) ∧
  (∀ image number_of_results language output_gcs_uri,
     calls_once_built
       (get_captions_request image number_of_results language output_gcs_uri)
       (λ request, request)
       (get_captions image number_of_results language output_gcs_uri)) ∧
  (∀ image question number_of_results,
     calls_once_built
       (ask_question_request image question number_of_results)
       (λ request, request)
       (ask_question image question number_of_results)) ∧
  (∀ image video contextual_text dimension video_segment_config,
     calls_once_built
       (get_embeddings_request image video contextual_text dimension
          video_segment_config)
       (λ request, request)
       (get_embeddings image video contextual_text dimension video_segment_config)).
Proof.
  split; [|split; [|split; [|split; [|split; [|split]]]]].
  - intros prompt negative_prompt number_of_images width height guidance_scale seed
      base_image mask_image language output_gcs_uri.
    apply generate_images_calls_once.
  - intros prompt negative_prompt number_of_images guidance_scale language seed
      output_gcs_uri.
    apply generate_images_calls_once.
  - intros prompt base_image mask_image negative_prompt number_of_images guidance_scale
      language seed output_gcs_uri.
    apply generate_images_calls_once.
  - intros image new_size output_gcs_uri. apply calls_once_built_intro.
    + apply keeps_calls_upscale_image_request.
    + intros w e w1 Er. unfold upscale_image. apply (run_bind_inl _ _ _ _ _ Er).
    + intros w [[instance parameters] n] w1 Er.
      apply (upscale_image_after_request _ _ _ _ _ _ _ _ Er).
  - intros image number_of_results language output_gcs_uri.
    apply calls_once_built_intro.
    + apply keeps_calls_get_captions_request.
    + intros w e w1 Er. unfold get_captions. apply (run_bind_inl _ _ _ _ _ Er).
    + intros w [instance parameters] w1 Er. unfold get_captions.
      rewrite (run_bind_inr _ _ _ _ _ Er).
      unfold predict. rewrite run_bind. cbn [modify].
      destruct (image_text_endpoint [VDict instance] parameters); reflexivity.
  - intros image question number_of_results. apply calls_once_built_intro.
    + apply keeps_calls_ask_question_request.
    + intros w e w1 Er. unfold ask_question. apply (run_bind_inl _ _ _ _ _ Er).
    + intros w [instance parameters] w1 Er. unfold ask_question.
      rewrite (run_bind_inr _ _ _ _ _ Er).
      unfold predict. rewrite run_bind. cbn [modify].
      destruct (image_text_endpoint [VDict instance] parameters); reflexivity.
  - intros image video contextual_text dimension video_segment_config.
    apply calls_once_built_intro.
    + apply keeps_calls_get_embeddings_request.
    + intros w e w1 Er. unfold get_embeddings. apply (run_bind_inl _ _ _ _ _ Er).
    + intros w [instance parameters] w1 Er.
      apply (get_embeddings_logs_request _ _ _ _ _ _ _ _ _ Er).
Qed.

(** * Captions and answers *)

(** X13. For an image in the state its constructor left, [get_captions]
    and [ask_question] send the entry of the image (with the question as
    the prompt, for a question) and hand back what the endpoint answered,
    predictions or exception, as it is. [ask_question] sends [sampleCount]
    alone; [get_captions] adds the language, and [storageUri] when an
    output URI is given. *)
Theorem captions_and_answers (image : ref) (im : Image.t) (w : world)
    (number_of_results : Z) (language question : string)
    (output_gcs_uri : option string) :
  Image_ready w image im →
  let captions_instance : dict := {["image" := VDict (entry_of_image im)]} in
  let captions_parameters : dict :=
    match output_gcs_uri with
    | Some u => <["storageUri" := VStr u]>
                  (<["language" := VStr language]>
                     {["sampleCount" := VInt number_of_results]})
    | None => <["language" := VStr language]> {["sampleCount" := VInt number_of_results]}
    end in
  let question_instance : dict :=
    <["image" := VDict (entry_of_image im)]> {["prompt" := VStr question]} in
  let question_parameters : dict := {["sampleCount" := VInt number_of_results]} in
  get_captions image number_of_results language output_gcs_uri w =
    (image_text_endpoint [VDict captions_instance] captions_parameters,
     after_predict captions_instance captions_parameters w) ∧
  ask_question image question number_of_results w =
    (image_text_endpoint [VDict question_instance] question_parameters,
     after_predict question_instance question_parameters w).
Proof.
  intros Hr. cbv zeta. split.
  - unfold get_captions, get_captions_request.
    rewrite run_bind, (run_bind_inr _ _ _ _ _ (image_entry_ready _ _ _ Hr)).
    cbn [mret M_ret]. unfold predict. rewrite run_bind. cbn [modify].
    unfold entry_of_image, after_predict. rewrite insert_empty.
    destruct output_gcs_uri;
      match goal with |- context [image_text_endpoint ?i ?p] =>
        destruct (image_text_endpoint i p); reflexivity end.
  - unfold ask_question, ask_question_request.
    rewrite run_bind, (run_bind_inr _ _ _ _ _ (image_entry_ready _ _ _ Hr)).
    cbn [mret M_ret]. unfold predict. rewrite run_bind. cbn [modify].
    unfold entry_of_image, after_predict.
    match goal with |- context [image_text_endpoint ?i ?p] =>
      destruct (image_text_endpoint i p); reflexivity end.
Qed.

End remote_calls.

Section embeddings.
Context `{env : Environment}.

(** * More on get_embeddings *)

(** X14. The instance of an embedding request that was built: it has
    [image] exactly when an image is passed, [video] exactly when a video
    is passed, [text] exactly when the text is not empty, and no other
    key; the entry of the video carries [videoSegmentConfig] exactly when
    a configuration is passed, with its three offsets; the parameters
    have no key but [dimension]. Without a video the segment
    configuration is not read at all. *)
Theorem embedding_instance_keys (image video : option ref)
    (contextual_text : option string) (dimension : option Z)
    (video_segment_config : option VideoSegmentConfig) (w w1 : world)
    (instance parameters : dict) :
  get_embeddings_request image video contextual_text dimension video_segment_config w
    = (inr (instance, parameters), w1) →
  (is_Some (instance !! "image") ↔ is_Some image) ∧
  (is_Some (instance !! "video") ↔ is_Some video) ∧
  instance !! "text" = (if py_bool contextual_text then VStr <$> contextual_text else None) ∧
  (∀ k, k ≠ "image" → k ≠ "video" → k ≠ "text" → instance !! k = None) ∧
  (∀ v, video = Some v →
     ∃ entry, instance !! "video" = Some (VDict entry) ∧
       entry !! "videoSegmentConfig" = segment_entry <$> video_segment_config) ∧
  (∀ k, k ≠ "dimension" → parameters !! k = None) ∧
  (video = None →
   ∀ other, get_embeddings_request image None contextual_text dimension other w
            = (inr (instance, parameters), w1)).
Proof.
  intros E.
  assert (Hlast : video = None →
    ∀ other, get_embeddings_request image None contextual_text dimension other w
             = (inr (instance, parameters), w1)).
  { intros -> other. exact E. }
  revert E Hlast. generalize (get_embeddings_request image None contextual_text dimension).
  intros g. unfold get_embeddings_request.
  destruct (negb (object_bool image) && negb (object_bool video)
            && negb (py_bool contextual_text)); [discriminate|].
  rewrite run_bind.
  assert (Hentry : ∀ v w0 w2 entry, video_entry v w0 = (inr entry, w2) →
            entry !! "videoSegmentConfig" = None).
  { intros v w0 w2 entry. unfold video_entry, get_video. rewrite run_bind.
    destruct (video_heap w0 !! v) as [vo|]; [|discriminate].
    destruct (py_bool (Video._gcs_uri vo)).
    - intros [= <- <-]. apply lookup_singleton_ne. discriminate.
    - rewrite run_bind. destruct (Video_as_base64_string v w0) as [[e|s] w3]; [discriminate|].
      intros [= <- <-]. apply lookup_singleton_ne. discriminate. }
  destruct image as [i|].
  - rewrite run_bind. destruct (image_entry i w) as [[e|ientry] w0]; [discriminate|].
    cbn [mret M_ret]. rewrite run_bind.
    destruct video as [v|].
    + rewrite run_bind. destruct (video_entry v w0) as [[e|ventry] w2] eqn:Ev; [discriminate|].
      pose proof (Hentry _ _ _ _ Ev) as Hcfg.
      cbn [mret M_ret].
      destruct (py_bool contextual_text) eqn:Et, (py_bool dimension),
        contextual_text as [text|], video_segment_config as [c|];
        try discriminate Et; intros [= <- <- <-] Hlast;
        (split; [split; intros _; eauto; by simplify_map_eq|]);
        (split; [split; intros _; eauto; by simplify_map_eq|]);
        (split; [by simplify_map_eq|]);
        (split; [intros k ? ? ?; by simplify_map_eq|]);
        (split; [intros ? [= <-]; eexists; split; [by simplify_map_eq|];
                 by simplify_map_eq|]);
        (split; [intros k ?; by simplify_map_eq|exact Hlast]).
    + cbn [mret M_ret].
      destruct (py_bool contextual_text) eqn:Et, (py_bool dimension),
        contextual_text as [text|];
        try discriminate Et; intros [= <- <- <-] Hlast;
        (split; [split; intros _; eauto; by simplify_map_eq|]);
        (split; [split; intros [? Hx]; [by simplify_map_eq|discriminate]|]);
        (split; [by simplify_map_eq|]);
        (split; [intros k ? ? ?; by simplify_map_eq|]);
        (split; [intros ? [=]|]);
        (split; [intros k ?; by simplify_map_eq|exact Hlast]).
  - cbn [mret M_ret]. rewrite run_bind.
    destruct video as [v|].
    + rewrite run_bind. destruct (video_entry v w) as [[e|ventry] w2] eqn:Ev; [discriminate|].
      pose proof (Hentry _ _ _ _ Ev) as Hcfg.
      cbn [mret M_ret].
      destruct (py_bool contextual_text) eqn:Et, (py_bool dimension),
        contextual_text as [text|], video_segment_config as [c|];
        try discriminate Et; intros [= <- <- <-] Hlast;
        (split; [split; intros [? Hx]; [by simplify_map_eq|discriminate]|]);
        (split; [split; intros _; eauto; by simplify_map_eq|]);
        (split; [by simplify_map_eq|]);
        (split; [intros k ? ? ?; by simplify_map_eq|]);
        (split; [intros ? [= <-]; eexists; split; [by simplify_map_eq|];
                 by simplify_map_eq|]);
        (split; [intros k ?; by simplify_map_eq|exact Hlast]).
    + cbn [mret M_ret].
      destruct (py_bool contextual_text) eqn:Et, (py_bool dimension),
        contextual_text as [text|];
        try discriminate Et; intros [= <- <- <-] Hlast;
        (split; [split; intros [? Hx]; [by simplify_map_eq|discriminate]|]);
        (split; [split; intros [? Hx]; [by simplify_map_eq|discriminate]|]);
        (split; [by simplify_map_eq|]);
        (split; [intros k ? ? ?; by simplify_map_eq|]);
        (split; [intros ? [=]|]);
        (split; [intros k ?; by simplify_map_eq|exact Hlast]).
Qed.

Lemma value_getitem_inr (v : value) (key : string) (x : value) :
  value_getitem v key = inr x ↔ ∃ d, v = VDict d ∧ d !! key = Some x.
Proof.
  unfold value_getitem. split.
  - destruct v as [| | | | | |d]; try discriminate.
    destruct (d !! key) as [y|] eqn:E; [|discriminate]. intros [= <-]. eauto.
  - intros (d & -> & ->). reflexivity.
Qed.

Lemma video_embeddings_of_inr (l : list value) (res : list VideoEmbedding) :
  video_embeddings_of l = inr res ↔ Forall2 embedding_of l res.
Proof.
  revert res. induction l as [|v l IH]; intros res; cbn [video_embeddings_of].
  - split; [intros [= <-]; constructor|]. intros H. inversion H. reflexivity.
  - split.
    + destruct (value_getitem v "embedding") as [err|e] eqn:Ee.
      { destruct (value_getitem v "startOffsetSec"), (value_getitem v "endOffsetSec");
          discriminate. }
      destruct (value_getitem v "startOffsetSec") as [err|s] eqn:Es.
      { destruct (value_getitem v "endOffsetSec"); discriminate. }
      destruct (value_getitem v "endOffsetSec") as [err|t] eqn:Et; [discriminate|].
      destruct (video_embeddings_of l) as [err|rest] eqn:El; [discriminate|].
      intros [= <-]. constructor; [|apply IH; reflexivity].
      apply value_getitem_inr in Ee as (d & -> & He).
      apply value_getitem_inr in Es as (d' & [= <-] & Hs).
      apply value_getitem_inr in Et as (d'' & [= <-] & Ht).
      exists d. auto.
    + intros H. inversion H as [|? [s t e] ? rest (d & -> & He & Hs & Ht) Hrest]; subst.
      cbn in He, Hs, Ht. cbn [value_getitem]. rewrite He, Hs, Ht.
      apply IH in Hrest. rewrite Hrest. reflexivity.
Qed.

Lemma video_embeddings_in_order_aux (l : list value) :
  (∃ res, video_embeddings_of l = inr res) ↔ Forall (λ v, ∃ e, embedding_of v e) l.
Proof.
  split.
  - intros [res Hres]. apply video_embeddings_of_inr in Hres.
    induction Hres; constructor; eauto.
  - intros H. induction H as [|v l' [e He] _ [res IH]].
    + exists []. reflexivity.
    + exists (e :: res). apply video_embeddings_of_inr. constructor; [exact He|].
      apply video_embeddings_of_inr, IH.
Qed.

(** X15. The loop over [videoEmbeddings] returns exactly when every
    element is a dictionary with the keys [embedding], [startOffsetSec]
    and [endOffsetSec]; the result then has one [VideoEmbedding] per
    element, in order, with the three values of that element. *)
Theorem video_embeddings_in_order (l : list value) :
  (∀ res, video_embeddings_of l = inr res ↔ Forall2 embedding_of l res) ∧
  ((∃ res, video_embeddings_of l = inr res) ↔ Forall (λ v, ∃ e, embedding_of v e) l) ∧
  (∀ res, video_embeddings_of l = inr res → length res = length l).
Proof.
  split; [intros res; apply video_embeddings_of_inr|]. split.
  - apply video_embeddings_in_order_aux.
  - intros res Hres. apply video_embeddings_of_inr in Hres.
    symmetry. eapply Forall2_length, Hres.
Qed.

(** X16. Once the request of [get_embeddings] was sent and answered:
    with no prediction the call raises [IndexError]. With a dictionary as
    the first prediction, the response keeps what the endpoint sent and
    takes the embeddings from the first prediction alone: the image and
    text embeddings are its [imageEmbedding] and [textEmbedding] entries,
    [None] when absent; without [videoEmbeddings] there are no video
    embeddings; with a list under [videoEmbeddings] the call returns
    exactly when every element is well formed, with one embedding per
    element, in order. *)
Theorem embeddings_from_first_prediction (image video : option ref)
    (contextual_text : option string) (dimension : option Z)
    (video_segment_config : option VideoSegmentConfig) (w w1 : world)
    (instance parameters : dict) (predictions : list value) :
  get_embeddings_request image video contextual_text dimension video_segment_config w
    = (inr (instance, parameters), w1) →
  embedding_endpoint [VDict instance] parameters = inr predictions →
  (predictions = [] →
   get_embeddings image video contextual_text dimension video_segment_config w
     = (inl IndexError, after_predict instance parameters w1)) ∧
  (∀ d rest, predictions = VDict d :: rest →
     (d !! "videoEmbeddings" = None →
      get_embeddings image video contextual_text dimension video_segment_config w
        = (inr (mkMultiModalEmbeddingResponse predictions (d !! "imageEmbedding") []
                  (d !! "textEmbedding")),
           after_predict instance parameters w1)) ∧
     (∀ l, d !! "videoEmbeddings" = Some (VList l) →
        (∀ r w',
           get_embeddings image video contextual_text dimension video_segment_config w
             = (inr r, w') ↔
           ∃ ves, Forall2 embedding_of l ves ∧
             r = mkMultiModalEmbeddingResponse predictions (d !! "imageEmbedding") ves
                   (d !! "textEmbedding") ∧
             w' = after_predict instance parameters w1) ∧
        ((∃ r w',
            get_embeddings image video contextual_text dimension video_segment_config w
              = (inr r, w')) ↔
         Forall (λ v, ∃ e, embedding_of v e) l))).
Proof.
  intros Er Ep.
  assert (Hrun : get_embeddings image video contextual_text dimension video_segment_config w =
    match predictions with
    | VDict d :: _ =>
        match d !! "videoEmbeddings" with
        | None => (inr (mkMultiModalEmbeddingResponse predictions (d !! "imageEmbedding")
                          [] (d !! "textEmbedding")), after_predict instance parameters w1)
        | Some (VList l) =>
            match video_embeddings_of l with
            | inr ves => (inr (mkMultiModalEmbeddingResponse predictions
                                 (d !! "imageEmbedding") ves (d !! "textEmbedding")),
                          after_predict instance parameters w1)
            | inl e => (inl e, after_predict instance parameters w1)
            end
        | Some (VStr text) =>
            if py_bool text then (inl TypeError, after_predict instance parameters w1)
            else (inr (mkMultiModalEmbeddingResponse predictions (d !! "imageEmbedding")
                         [] (d !! "textEmbedding")), after_predict instance parameters w1)
        | Some (VDict keys) =>
            if bool_decide (keys = ∅)
            then (inr (mkMultiModalEmbeddingResponse predictions (d !! "imageEmbedding")
                         [] (d !! "textEmbedding")), after_predict instance parameters w1)
            else (inl TypeError, after_predict instance parameters w1)
        | Some _ => (inl TypeError, after_predict instance parameters w1)
        end
    | [] => (inl IndexError, after_predict instance parameters w1)
    | _ :: _ => (inl AttributeError, after_predict instance parameters w1)
    end).
  { unfold get_embeddings. rewrite (run_bind_inr _ _ _ _ _ Er).
    unfold predict. rewrite !run_bind. cbn [modify]. rewrite Ep.
    cbn [lift_sum mret M_ret]. rewrite run_bind.
    destruct predictions as [|first rest]; [reflexivity|].
    cbn [lookup list_lookup lift_option mret M_ret].
    destruct first as [| | | | | |d]; try reflexivity.
    rewrite run_bind.
    destruct (d !! "videoEmbeddings") as [[| | | |text|l|keys]|]; try reflexivity.
    - destruct (py_bool text); reflexivity.
    - cbn [lift_sum]. destruct (video_embeddings_of l); reflexivity.
    - destruct (bool_decide (keys = ∅)); reflexivity. }
  rewrite Hrun. split; [intros ->; reflexivity|].
  intros d rest ->. split; [intros ->; reflexivity|].
  intros l ->. split.
  - intros r w'. split.
    + destruct (video_embeddings_of l) as [e|ves] eqn:El; [discriminate|].
      intros [= <- <-]. exists ves. split; [apply video_embeddings_of_inr, El|].
      split; reflexivity.
    + intros (ves & Hves & -> & ->). apply video_embeddings_of_inr in Hves.
      rewrite Hves. reflexivity.
  - rewrite <- video_embeddings_in_order_aux. split.
    + intros (r & w' & H).
      destruct (video_embeddings_of l) as [e|ves]; [discriminate|]. eauto.
    + intros [ves ->]. eauto.
Qed.

End embeddings.

(** * The further properties on examples *)

(** ** Loading from Cloud Storage, a URL and a file *)

Lemma load_from_cloud_storage_witness :
  let location := "https://storage.googleapis.com/bucket/my%20cat.png" in
  ∃ uri, String.prefix "gs://" uri = true ∧
    (String.prefix "gs://" location = true → uri = location) ∧
    (String.prefix "https://storage.googleapis.com/" location = true →
     uri = str_replace (str_replace location "https://storage.googleapis.com/" "gs://")
                       "%20" " ") ∧
    Image_load_from_file (env := Double.env) location empty_world =
      (inr (length (image_heap empty_world)),
       set_image_heap (λ h, h ++ [Image.mk None None (Some uri) None]) empty_world) ∧
    gcs_fetches (snd (Image_load_from_file (env := Double.env) location empty_world))
      = gcs_fetches empty_world ∧
    files (snd (Image_load_from_file (env := Double.env) location empty_world))
      = files empty_world.
Proof.
  apply (load_from_cloud_storage (env := Double.env)
           "https://storage.googleapis.com/bucket/my%20cat.png" empty_world).
  right. reflexivity.
Defined.

(** The URI of the object loaded from a public URL. *)
Example public_url_loaded :
  Image_load_from_file (env := Double.env)
    "https://storage.googleapis.com/bucket/my%20cat.png" empty_world
  = (inr 0%nat, store [Image.mk None None (Some "gs://bucket/my cat.png") None] [] []).
Proof. vm_compute. reflexivity. Qed.

Lemma load_from_url_witness :
  (* a picture *)
  Image_load_from_file (env := web_env) "https://example.com/cat.png" empty_world
    = (inr 0%nat, store [Image.mk (Some Double.picture_1024) None None None] [] []) ∧
  (* 30 MB declared, and not a picture: the size is checked first *)
  Image_load_from_file (env := web_env) "https://example.com/large.txt" empty_world
    = (inl SizeLimitExceeded, empty_world) ∧
  (* no length declared, and not a picture *)
  Image_load_from_file (env := web_env) "https://example.com/index.html" empty_world
    = (inl (UnsupportedMediaType (H := web_env)), empty_world) ∧
  (* a picture whose declared length is not a number *)
  Image_load_from_file (env := web_env) "https://example.com/chunked.png" empty_world
    = (inl (ValueError "invalid literal for int() with base 10: '3 bytes'"),
       empty_world) ∧
  (* an error status *)
  Image_load_from_file (env := web_env) "https://example.com/missing.png" empty_world
    = (inl HTTPError, empty_world).
Proof.
  split; [|split; [|split; [|split]]].
  - destruct (load_from_url (env := web_env) "https://example.com/cat.png" empty_world)
      as (Hiff & _); [repeat split|].
    apply Hiff. eexists. split; [reflexivity|]. split; [|split; reflexivity].
    split; [reflexivity|]. split; [exists 3%Z; split; [reflexivity|lia]|].
    split; [reflexivity|discriminate].
  - destruct (load_from_url (env := web_env) "https://example.com/large.txt" empty_world)
      as (_ & _ & H); [repeat split|].
    destruct (H _ eq_refl) as (_ & _ & Hsize & _).
    apply (Hsize eq_refl 31457280%Z); [reflexivity|lia].
  - destruct (load_from_url (env := web_env) "https://example.com/index.html" empty_world)
      as (_ & _ & H); [repeat split|].
    destruct (H _ eq_refl) as (_ & _ & _ & Htype & _).
    apply (Htype eq_refl 0%Z); [reflexivity|lia|reflexivity].
  - destruct (load_from_url (env := web_env) "https://example.com/chunked.png" empty_world)
      as (_ & _ & H); [repeat split|].
    destruct (H _ eq_refl) as (_ & Hint & _).
    apply (Hint eq_refl). reflexivity.
  - destruct (load_from_url (env := web_env) "https://example.com/missing.png" empty_world)
      as (_ & _ & H); [repeat split|].
    destruct (H _ eq_refl) as (Hstatus & _). apply Hstatus. reflexivity.
Defined.

(** The message for a content type outside the set, in a run that
    iterates over the set from its last element. *)
Example unsupported_type_message :
  UnsupportedMediaType (H := web_env)
  = ValueError ("Image type is not supported. Supported types "
                +:+ "{'image/bmp', 'image/gif', 'image/jpeg', 'image/png'}").
Proof. vm_compute. reflexivity. Qed.

Lemma Image_save_then_load_witness :
  let w1 := snd (Image_save (env := Double.env) 0 "copy.png" media_store) in
  ∃ data, files w1 !! "copy.png" = Some data ∧
    _image_bytes (env := Double.env) 0 w1 = (inr data, w1) ∧
    if py_bool data
    then ∃ loaded w2,
           Image_load_from_file (env := Double.env) "copy.png" w1 = (inr loaded, w2) ∧
           loaded ≠ 0%nat ∧
           image_heap w2 !! loaded = Some (Image.mk (Some data) None None None) ∧
           _image_bytes (env := Double.env) loaded w2 = (inr data, w2) ∧
           _image_bytes (env := Double.env) 0 w2 = (inr data, w2)
    else Image_load_from_file (env := Double.env) "copy.png" w1
         = (inl InvalidConstructionError_Image, w1).
Proof.
  apply (Image_save_then_load (env := Double.env) 0 "copy.png" media_store).
  - repeat split.
  - vm_compute. reflexivity.
Defined.

(** A video saved under a name that looks like a URL is read back from
    the file of that name. *)
Lemma Video_save_then_load_witness :
  let location := "https://example.com/clip.mp4" in
  let w1 := snd (Video_save (env := Double.env) 0 location media_store) in
  ∃ data, files w1 !! location = Some data ∧
    _video_bytes (env := Double.env) 0 w1 = (inr data, w1) ∧
    if py_bool data
    then ∃ loaded w2,
           Video_load_from_file location w1 = (inr loaded, w2) ∧
           loaded ≠ 0%nat ∧
           video_heap w2 !! loaded = Some (Video.mk (Some data) None) ∧
           _video_bytes (env := Double.env) loaded w2 = (inr data, w2) ∧
           _video_bytes (env := Double.env) 0 w2 = (inr data, w2)
    else Video_load_from_file location w1 = (inl InvalidConstructionError_Video, w1).
Proof.
  apply (Video_save_then_load (env := Double.env) 0 "https://example.com/clip.mp4"
           media_store).
  - reflexivity.
  - vm_compute. reflexivity.
Defined.

(** ** Files of generated images *)

Lemma save_parameters_checks_witness :
  GeneratedImage_save (env := Double.env) 0 "cat.png" true (generated_store ∅)
    = (inl MissingMetadataError_parameters, generated_store ∅) ∧
  GeneratedImage_save (env := Double.env) 0 "cat.png" false (generated_store ∅)
    = Image_save (env := Double.env) 0 "cat.png" (generated_store ∅).
Proof.
  destruct (save_parameters_checks (env := Double.env) 0 "cat.png" (generated_store ∅)
              (Image.mk (Some Double.picture_1024) None None (Some 0%nat)) 0 (VDict ∅)
              eq_refl eq_refl eq_refl) as (Hempty & _ & _ & Hplain).
  split; [apply Hempty; reflexivity|exact Hplain].
Defined.

(** Past the two checks PIL raises for a name without an extension, and
    the call raises what PIL raised. *)
Example save_without_extension :
  fst (GeneratedImage_save (env := Double.env) 0 "cat" true
         (generated_store cat_parameters))
  = inl (ValueError "unknown file extension: ").
Proof. vm_compute. reflexivity. Qed.


(** A remote picture: four reads of its size, one download. *)
Lemma size_read_again_witness :
  let w := store [Image.mk None None (Some "gs://bucket/cat.png") None] [] [] in
  let w1 := snd (_size (env := Double.env) 0 w) in
  times 4 (_size (env := Double.env) 0) w = (inr (replicate 4 (1024, 1024)%Z), w1) ∧
  times 3 (_size (env := Double.env) 0) w1 = (inr (replicate 3 (1024, 1024)%Z), w1) ∧
  (gcs_fetches w1 = gcs_fetches w ∨ ∃ u, gcs_fetches w1 = gcs_fetches w ++ [u]).
Proof.
  apply (size_read_again (env := Double.env) 0
           (store [Image.mk None None (Some "gs://bucket/cat.png") None] [] [])).
  vm_compute. reflexivity.
Defined.

Example remote_size_read_four_times :
  gcs_fetches
    (snd (times 4 (_size (env := Double.env) 0)
            (store [Image.mk None None (Some "gs://bucket/cat.png") None] [] [])))
  = ["gs://bucket/cat.png"].
Proof. vm_compute. reflexivity. Qed.

(** ** Upscaling *)

Lemma upscale_plain_image_witness :
  let w := store [Image.mk (Some Double.picture_1024) None None None] [] [] in
  let w' := snd (upscale_image (env := Double.env) 0 (Some 2048%Z) None w) in
  ∃ n, Some 2048%Z = Some n ∧
    bag_ref w' 1 = Some (length (dict_heap w)) ∧
    dict_heap w' = dict_heap w ++ [VDict {["upscaled_image_size" := VInt n]}] ∧
    bag_ref w' 0 = None ∧ 1%nat ≠ 0%nat.
Proof.
  apply (upscale_plain_image (env := Double.env) 0 (Some 2048%Z) None
           (store [Image.mk (Some Double.picture_1024) None None None] [] []) _ 1
           (Image.mk (Some Double.picture_1024) None None None)).
  - reflexivity.
  - reflexivity.
  - vm_compute. reflexivity.
Defined.

(** The endpoint answers with a prediction that has no content: the call
    raises, and the bag of the source image says it was upscaled. *)
Lemma failed_upscale_witness :
  ∃ e w',
    upscale_image (env := silent_env) 0 (Some 2048%Z) None (generated_store cat_parameters)
      = (inl e, w') ∧
    dict_heap w' =
      <[0%nat := VDict (<["upscaled_image_size" := VInt 2048]> cat_parameters)]>
        (dict_heap (generated_store cat_parameters)) ∧
    dict_heap w' !! 0%nat
      = Some (VDict (<["upscaled_image_size" := VInt 2048]> cat_parameters)).
Proof.
  assert (Er : upscale_image_request (env := silent_env) 0 (Some 2048%Z) None
                 (generated_store cat_parameters)
               = (inr (<["image" := VDict {["bytesBase64Encoded" :=
                                     VStr (string_of_list_byte Double.picture_1024)]}]>
                         {["prompt" := VStr ""]},
                       <["mode" := VStr "upscale"]>
                         (<["sampleCount" := VInt 1]>
                            {["sampleImageSize" := VStr "2048"]}),
                       2048%Z),
                  snd (upscale_image_request (env := silent_env) 0 (Some 2048%Z) None
                         (generated_store cat_parameters))))
    by (vm_compute; reflexivity).
  destruct (failed_upscale (env := silent_env) 0 (Some 2048%Z) None
              (generated_store cat_parameters) _
              (Image.mk (Some Double.picture_1024) None None (Some 0%nat)) 0
              cat_parameters _ _ _ eq_refl eq_refl eq_refl Er) as (_ & _ & Hbad).
  apply (Hbad (mkPrediction None None) []); [reflexivity|].
  intros [_ Hne]. apply Hne. reflexivity.
Defined.

Example upscale_without_prediction_content :
  fst (upscale_image (env := silent_env) 0 (Some 2048%Z) None
         (generated_store cat_parameters))
  = inl InvalidConstructionError_Image.
Proof. vm_compute. reflexivity. Qed.

(** ** The request of a generation *)

Lemma generation_size_keys_witness :
  ∃ instance parameters shared,
    _generate_images_request (env := Double.env) "x" None 1 (Some 1024%Z) (Some 512%Z)
      None None None None None None empty_world
      = (inr (instance, parameters, shared), empty_world) ∧
    parameters !! "sampleCount" = Some (VInt 1) ∧
    parameters !! "sampleImageSize" = Some (VStr "1024") ∧
    parameters !! "aspectRatio" = Some (VStr "1024:512") ∧
    shared !! "width" = None ∧ shared !! "sampleImageSize" = None.
Proof.
  assert (Er : _generate_images_request (env := Double.env) "x" None 1 (Some 1024%Z)
                 (Some 512%Z) None None None None None None empty_world
               = (inr ({["prompt" := VStr "x"]},
                       <["sampleCount" := VInt 1]>
                         (<["aspectRatio" := VStr "1024:512"]>
                            {["sampleImageSize" := VStr "1024"]}),
                       <["number_of_images_in_batch" := VInt 1]> {["prompt" := VStr "x"]}),
                  empty_world))
    by (vm_compute; reflexivity).
  eexists _, _, _. split; [exact Er|].
  destruct (generation_size_keys (env := Double.env) _ _ _ _ _ _ _ _ _ _ _ _ _ _ _ _ Er)
    as (Hcount & Hsize & Hratio & _ & Hwidth & _ & Hshared & _).
  split; [exact Hcount|]. split; [exact Hsize|]. split; [exact Hratio|].
  split; [exact Hwidth|exact Hshared].
Defined.

Lemma shared_parameters_mirror_request_witness :
  ∃ instance parameters shared,
    _generate_images_request (env := Double.env) "x" (Some "blurry") 2 None None
      None (Some 7%Z) None None (Some "en") (Some "gs://bucket/out") empty_world
      = (inr (instance, parameters, shared), empty_world) ∧
    instance !! "prompt" = Some (VStr "x") ∧
    shared !! "prompt" = Some (VStr "x") ∧
    shared !! "number_of_images_in_batch" = parameters !! "sampleCount" ∧
    shared !! "negative_prompt" = parameters !! "negativePrompt" ∧
    shared !! "seed" = parameters !! "seed" ∧
    shared !! "guidance_scale" = parameters !! "guidanceScale" ∧
    shared !! "language" = parameters !! "language" ∧
    shared !! "storage_uri" = parameters !! "storageUri".
Proof.
  assert (Er : _generate_images_request (env := Double.env) "x" (Some "blurry") 2 None None
                 None (Some 7%Z) None None (Some "en") (Some "gs://bucket/out") empty_world
               = (inr ({["prompt" := VStr "x"]},
                       <["storageUri" := VStr "gs://bucket/out"]>
                         (<["language" := VStr "en"]>
                            (<["seed" := VInt 7]>
                               (<["negativePrompt" := VStr "blurry"]>
                                  {["sampleCount" := VInt 2]}))),
                       <["storage_uri" := VStr "gs://bucket/out"]>
                         (<["language" := VStr "en"]>
                            (<["seed" := VInt 7]>
                               (<["negative_prompt" := VStr "blurry"]>
                                  (<["number_of_images_in_batch" := VInt 2]>
                                     {["prompt" := VStr "x"]}))))),
                  empty_world))
    by (vm_compute; reflexivity).
  eexists _, _, _. split; [exact Er|].
  apply (shared_parameters_mirror_request (env := Double.env) _ _ _ _ _ _ _ _ _ _ _ _ _
           _ _ _ Er).
Defined.

(** ** Captions, answers and embeddings *)

Lemma captions_and_answers_witness :
  let entry : dict :=
    {["bytesBase64Encoded" := VStr (string_of_list_byte Double.picture_1024)]} in
  get_captions (env := Double.env) 0 1 "en" None media_store =
    (inr [VStr "a cat"],
     after_predict {["image" := VDict entry]}
       (<["language" := VStr "en"]> {["sampleCount" := VInt 1]}) media_store) ∧
  ask_question (env := Double.env) 0 "what is it?" 1 media_store =
    (inr [VStr "a cat"],
     after_predict (<["image" := VDict entry]> {["prompt" := VStr "what is it?"]})
       {["sampleCount" := VInt 1]} media_store).
Proof.
  apply (captions_and_answers (env := Double.env) 0
           (Image.mk (Some Double.picture_1024) None None None) media_store 1 "en"
           "what is it?" None).
  exact media_store_image_ready.
Defined.

Lemma embedding_instance_keys_witness :
  ∃ instance parameters,
    get_embeddings_request (env := Double.env) None (Some 0%nat) (Some "") None
      (Some VideoSegmentConfig_default) media_store
      = (inr (instance, parameters), media_store) ∧
    (is_Some (instance !! "image") ↔ is_Some (@None ref)) ∧
    (is_Some (instance !! "video") ↔ is_Some (Some 0%nat)) ∧
    instance !! "text" = None ∧
    (∃ entry, instance !! "video" = Some (VDict entry) ∧
       entry !! "videoSegmentConfig" = Some (segment_entry VideoSegmentConfig_default)) ∧
    parameters = ∅.
Proof.
  assert (Er : get_embeddings_request (env := Double.env) None (Some 0%nat) (Some "") None
                 (Some VideoSegmentConfig_default) media_store
               = (inr ({["video" :=
                          VDict (<["videoSegmentConfig" :=
                                     segment_entry VideoSegmentConfig_default]>
                                   {["bytesBase64Encoded" :=
                                       VStr (string_of_list_byte [Byte.x00; Byte.x01])]})]},
                       ∅), media_store))
    by (vm_compute; reflexivity).
  eexists _, _. split; [exact Er|].
  destruct (embedding_instance_keys (env := Double.env) _ _ _ _ _ _ _ _ _ Er)
    as (Himage & Hvideo & Htext & _ & Hentry & _).
  split; [exact Himage|]. split; [exact Hvideo|]. split; [exact Htext|].
  split; [exact (Hentry 0%nat eq_refl)|reflexivity].
Defined.

(** Two well-formed elements, and an element without its offsets. *)
Example video_embeddings_decoded :
  video_embeddings_of [segment_embedding 0 8; segment_embedding 8 16]
  = inr [mkVideoEmbedding (VInt 0) (VInt 8) (VList [VInt 0; VInt 8]);
         mkVideoEmbedding (VInt 8) (VInt 16) (VList [VInt 8; VInt 16])] ∧
  video_embeddings_of [segment_embedding 0 8; VDict {["embedding" := VList []]}]
  = inl (KeyError "startOffsetSec").
Proof. split; vm_compute; reflexivity. Qed.

Lemma embeddings_from_first_prediction_witness :
  ∃ r w',
    get_embeddings (env := web_env) None (Some 0%nat) None None None media_store
      = (inr r, w').
Proof.
  assert (Er : get_embeddings_request (env := web_env) None (Some 0%nat) None None None
                 media_store
               = (inr ({["video" := VDict {["bytesBase64Encoded" :=
                                     VStr (string_of_list_byte [Byte.x00; Byte.x01])]}]},
                       ∅), media_store))
    by (vm_compute; reflexivity).
  destruct (embeddings_from_first_prediction (env := web_env) _ _ _ _ _ _ _ _ _
              video_predictions Er eq_refl) as (_ & Hread).
  destruct (Hread _ _ eq_refl) as (_ & Hlist).
  destruct (Hlist _ eq_refl) as (_ & Hiff).
  apply Hiff.
  repeat (apply List.Forall_cons;
          [eexists (mkVideoEmbedding _ _ _), _; split; [reflexivity|];
           repeat split; reflexivity|]).
  apply List.Forall_nil.
Defined.

(** The response made of the two predictions: the video embeddings of
    the first, nothing of the second. *)
Example embeddings_of_two_segments :
  fst (get_embeddings (env := web_env) None (Some 0%nat) None None None media_store)
  = inr (mkMultiModalEmbeddingResponse video_predictions None
           [mkVideoEmbedding (VInt 0) (VInt 8) (VList [VInt 0; VInt 8]);
            mkVideoEmbedding (VInt 8) (VInt 16) (VList [VInt 8; VInt 16])]
           None).
Proof. vm_compute. reflexivity. Qed.

(** Without any prediction the call raises. *)
Example embeddings_without_prediction :
  fst (get_embeddings (env := silent_env) None None (Some "a cat") None None empty_world)
  = inl IndexError.
Proof. vm_compute. reflexivity. Qed.

(** ** Tool contexts *)

(** A body that reads the list of contexts. *)
Lemma tool_context_manager_restores_witness :
  let body : telemetry.T exn (list string) := λ s, (inr s, s) in
  balanced (telemetry.tool_context_manager "vision" body) ∧
  ∀ s, telemetry.tool_context_manager "vision" body s
       = (fst (body (s ++ ["vision"])), s).
Proof.
  apply (tool_context_manager_restores (E := exn) (A := list string) "vision").
  intros s. reflexivity.
Defined.

Example raising_body_restores :
  telemetry.tool_context_manager (E := exn) (A := unit) "vision"
    (λ s, (inl (telemetry.Raised PredictError), s)) ["ray"]
  = (inl (telemetry.Raised PredictError), ["ray"]).
Proof. reflexivity. Qed.

Lemma tool_context_managers_nest_witness :
  telemetry.tool_context_manager (E := exn) "outer"
    (telemetry.tool_context_manager "inner" (λ s, (inr s, s))) ["ray"]
  = (inr ["ray"; "outer"; "inner"], ["ray"]).
Proof.
  apply (tool_context_managers_nest (E := exn) (A := list string) "outer" "inner"
           (λ s, (inr s, s)) ["ray"]).
  intros s. reflexivity.
Defined.

(** A body that enters another context and does not leave it. *)
Lemma unbalanced_body_witness :
  telemetry.tool_context_manager (E := exn) "vision"
    (telemetry._append_tool_context "ray") ["x"]
  = (inl telemetry.tool_context_error, ["x"; "vision"]) ∧
  telemetry.tool_context_manager (E := exn) "vision"
    (telemetry._append_tool_context "vision") ["x"]
  = (inr tt, ["x"; "vision"]).
Proof.
  split.
  - apply (unbalanced_body (E := exn) (A := unit) "vision" "ray"
             (telemetry._append_tool_context "ray") ["x"] (inr tt)). reflexivity.
  - apply (unbalanced_body (E := exn) (A := unit) "vision" "vision"
             (telemetry._append_tool_context "vision") ["x"] (inr tt)). reflexivity.
Defined.

(** ** Waiting for a job *)

Lemma wait_for_job_stops_witness :
  job_polling.wait_for_job
    [job_polling.PENDING; job_polling.RUNNING; job_polling.RUNNING;
     job_polling.SUCCEEDED; job_polling.FAILED] (job_polling.mkTrace 0 0)
  = (job_polling.Left_loop, job_polling.mkTrace 3 4) ∧
  job_polling.wait_for_job
    [job_polling.PENDING; job_polling.STOPPED; job_polling.SUCCEEDED]
    (job_polling.mkTrace 0 0)
  = (job_polling.Raised_RuntimeError, job_polling.mkTrace 1 3).
Proof.
  split.
  - destruct (wait_for_job_stops
                [job_polling.PENDING; job_polling.RUNNING; job_polling.RUNNING]
                [job_polling.FAILED] job_polling.SUCCEEDED (job_polling.mkTrace 0 0))
      as (Hdone & _).
    { repeat (apply List.Forall_cons; [first [left; reflexivity | right; reflexivity]|]);
      apply List.Forall_nil. }
    apply Hdone. reflexivity.
  - destruct (wait_for_job_stops [job_polling.PENDING] [job_polling.SUCCEEDED]
                job_polling.STOPPED (job_polling.mkTrace 0 0)) as (_ & Hfailed).
    { repeat (apply List.Forall_cons; [first [left; reflexivity | right; reflexivity]|]);
      apply List.Forall_nil. }
    apply Hfailed. right. reflexivity.
Defined.

Lemma wait_for_job_keeps_waiting_witness :
  job_polling.wait_for_job [job_polling.PENDING; job_polling.RUNNING]
    (job_polling.mkTrace 0 0)
  = (job_polling.Still_waiting, job_polling.mkTrace 2 2).
Proof.
  apply (wait_for_job_keeps_waiting [job_polling.PENDING; job_polling.RUNNING]
           (job_polling.mkTrace 0 0)).
  repeat (apply List.Forall_cons; [first [left; reflexivity | right; reflexivity]|]);
    apply List.Forall_nil.
Defined.
